(** * Restaurant menu analysis: validation and derived-metrics pipeline

    A shallow embedding of [main.py]: the precision validator, the
    [MenuItem] constructor, the CSV structure check, the loader and the
    metric/classification passes, followed by the properties proved of them.

    Python values are modelled as follows.
    - [str] is [string]; the whitespace and digit classes are the ASCII ones.
    - [float] is IEEE binary64, as [spec_float] with precision 53 and
      exponent bound 1024; [float(text)] and [format(x, '.Nf')] are the
      correctly rounded conversions (round half to even) CPython performs.
    - [int] is [Z].
    - [dict] is an insertion-ordered association list with unique keys.
    - exceptions are values of [exn]; a call that may raise returns [res].
    - [print] appends a structured message to the output log. *)

From Stdlib Require Import ZArith List String Ascii Bool Lia SpecFloat.
From Stdlib Require Import DecimalString.
Import ListNotations.
Local Open Scope string_scope.
Local Open Scope list_scope.
Local Open Scope Z_scope.

(* ------------------------------------------------------------------ *)
(** ** Strings *)

Module PyStr.

(** [str.isspace] on ASCII: tab..carriage return, the four separators
    0x1c..0x1f and the space. *)
Definition is_space (c : ascii) : bool :=
  let n := nat_of_ascii c in
  (((9 <=? n) && (n <=? 13)) || ((28 <=? n) && (n <=? 32)))%nat.

Definition is_digit (c : ascii) : bool :=
  let n := nat_of_ascii c in ((48 <=? n) && (n <=? 57))%nat.

Definition digit_value (c : ascii) : Z := Z.of_nat (nat_of_ascii c) - 48.

Definition digit_char (d : Z) : ascii := ascii_of_nat (Z.to_nat (48 + d)).

Definition is_empty (s : string) : bool :=
  match s with EmptyString => true | _ => false end.

(** [s.split(sep)] for a one-character separator. *)
Fixpoint split (sep : ascii) (s : string) : list string :=
  match s with
  | EmptyString => [EmptyString]
  | String c s' =>
      if Ascii.eqb c sep then EmptyString :: split sep s'
      else match split sep s' with
           | [] => [String c EmptyString]
           | h :: t => String c h :: t
           end
  end.

(** [c in s] *)
Fixpoint contains (c : ascii) (s : string) : bool :=
  match s with
  | EmptyString => false
  | String a s' => Ascii.eqb a c || contains c s'
  end.

(** [s.rstrip(chars)], the stripped class given as a predicate. *)
Fixpoint rstrip (p : ascii -> bool) (s : string) : string :=
  match s with
  | EmptyString => EmptyString
  | String c s' =>
      let r := rstrip p s' in
      if is_empty r && p c then EmptyString else String c r
  end.

Fixpoint lstrip (p : ascii -> bool) (s : string) : string :=
  match s with
  | EmptyString => EmptyString
  | String c s' => if p c then lstrip p s' else s
  end.

Definition strip (s : string) : string := rstrip is_space (lstrip is_space s).

(** The white space [float] and [int] skip around a numeral in ASCII text
    (C's [isspace]): tab..carriage return and the space.  The separators
    0x1c..0x1f, which [str.strip] removes, are not in it. *)
Definition is_numeral_space (c : ascii) : bool :=
  let n := nat_of_ascii c in
  (((9 <=? n) && (n <=? 13)) || (n =? 32))%nat.

Definition strip_numeral (s : string) : string :=
  rstrip is_numeral_space (lstrip is_numeral_space s).

(** [sep.join(parts)] *)
Fixpoint join (sep : string) (parts : list string) : string :=
  match parts with
  | [] => EmptyString
  | [p] => p
  | p :: rest => (p ++ sep ++ join sep rest)%string
  end.

Definition lower (c : ascii) : ascii :=
  let n := nat_of_ascii c in
  if ((65 <=? n) && (n <=? 90))%nat then ascii_of_nat (n + 32) else c.

Fixpoint lower_all (l : list ascii) : list ascii :=
  match l with
  | [] => []
  | c :: l' => lower c :: lower_all l'
  end.

(** Longest prefix of decimal digits and the remainder. *)
Fixpoint span_digits (l : list ascii) : list ascii * list ascii :=
  match l with
  | c :: l' =>
      if is_digit c then let (d, r) := span_digits l' in (c :: d, r)
      else ([], l)
  | [] => ([], [])
  end.

(** Value of a digit sequence, most significant digit first. *)
Definition digits_value (l : list ascii) : Z :=
  fold_left (fun acc c => 10 * acc + digit_value c) l 0.

(** The numeric parsers accept single underscores between two digits and
    drop them; [prev] is the previous character when there is one. *)
Fixpoint drop_underscores (prev : option ascii) (l : list ascii)
  : option (list ascii) :=
  match l with
  | [] =>
      match prev with
      | Some "_"%char => None
      | _ => Some []
      end
  | c :: l' =>
      if Ascii.eqb c "_" then
        match prev with
        | Some p => if is_digit p then drop_underscores (Some c) l' else None
        | None => None
        end
      else
        let ok := match prev with
                  | Some "_"%char => is_digit c
                  | _ => true
                  end in
        if ok then option_map (cons c) (drop_underscores (Some c) l')
        else None
  end.

(** A leading sign: [true] for minus. *)
Definition take_sign (l : list ascii) : bool * list ascii :=
  match l with
  | "-"%char :: l' => (true, l')
  | "+"%char :: l' => (false, l')
  | _ => (false, l)
  end.

(** The run of digits and underscores an integer numeral starts with: its
    digits and what follows the run; [None] when an underscore leads the
    run, follows another, or ends the run.  [prev] is the previous
    character of the run when there is one. *)
Fixpoint scan_numeral (prev : option ascii) (l : list ascii)
  : option (list ascii * list ascii) :=
  let stop := match prev with
              | Some "_"%char => None
              | _ => Some ([], l)
              end in
  match l with
  | [] => stop
  | c :: l' =>
      if is_digit c then
        match scan_numeral (Some c) l' with
        | Some (ds, rest) => Some (c :: ds, rest)
        | None => None
        end
      else if Ascii.eqb c "_" then
        match prev with
        | Some p => if is_digit p then scan_numeral (Some c) l' else None
        | None => None
        end
      else stop
  end.

End PyStr.

(* ------------------------------------------------------------------ *)
(** ** Binary64 floating point *)

Module PyFloat.

Definition float : Type := spec_float.

Definition prec : Z := 53.
Definition emax : Z := 1024.

Definition fadd : float -> float -> float := SFadd prec emax.
Definition fsub : float -> float -> float := SFsub prec emax.
Definition fmul : float -> float -> float := SFmul prec emax.
Definition fdiv : float -> float -> float := SFdiv prec emax.

(** [x < y] and [x >= y]; both are false when an operand is NaN. *)
Definition flt (x y : float) : bool := SFltb x y.
Definition fge (x y : float) : bool := SFleb y x.

Definition fabs (x : float) : float := SFabs x.

(** Quotient of [p >= 0] by [q > 0] rounded to the nearest integer,
    ties to even. *)
Definition div_rne (p q : Z) : Z :=
  let d := p / q in
  match (2 * (p mod q)) ?= q with
  | Lt => d
  | Gt => d + 1
  | Eq => if Z.even d then d else d + 1
  end.

(** [p / (q * 2^e)] rounded to the nearest integer, ties to even. *)
Definition scaled_rne (p q e : Z) : Z :=
  div_rne (p * 2 ^ Z.max 0 (- e)) (q * 2 ^ Z.max 0 e).

(** [2^l <= p / q] *)
Definition ge_pow2 (p q l : Z) : bool :=
  q * 2 ^ Z.max 0 l <=? p * 2 ^ Z.max 0 (- l).

(** [floor (log2 (p / q))] for positive [p], [q]. *)
Definition ratio_exponent (p q : Z) : Z :=
  let l := Z.log2 p - Z.log2 q in
  if ge_pow2 p q l then l else l - 1.

(** The binary64 number nearest to [p / q] (ties to even), with sign [s]:
    53 significant bits, exponent of the last place at least -1074,
    infinity from 2^1024 on. *)
Definition float_of_ratio (s : bool) (p q : Z) : float :=
  if p <=? 0 then S754_zero s
  else
    let e := Z.max (ratio_exponent p q - 52) (-1074) in
    let m := scaled_rne p q e in
    let '(m, e) := if m =? 2 ^ 53 then (2 ^ 52, e + 1) else (m, e) in
    match m with
    | Zpos m' => if e <=? emax - prec then S754_finite s m' e
                 else S754_infinity s
    | _ => S754_zero s
    end.

(** The value [n * 10^e10] of a decimal numeral, correctly rounded. *)
Definition float_of_decimal (s : bool) (n e10 : Z) : float :=
  if 0 <=? e10 then float_of_ratio s (n * 10 ^ e10) 1
  else float_of_ratio s n (10 ^ (- e10)).

(** An optional exponent part [e[+-]digits]; [None] when malformed. *)
Definition parse_exponent (l : list ascii) : option Z :=
  match l with
  | [] => Some 0
  | c :: l' =>
      if Ascii.eqb (PyStr.lower c) "e" then
        let (neg, l2) := PyStr.take_sign l' in
        match PyStr.span_digits l2 with
        | ((_ :: _) as ds, []) =>
            Some (if neg then - PyStr.digits_value ds
                  else PyStr.digits_value ds)
        | _ => None
        end
      else None
  end.

(** [digits [. digits] [exponent]] or [. digits [exponent]]: the integer
    made of all the digits and the power of ten that scales it. *)
Definition parse_number (l : list ascii) : option (Z * Z) :=
  let (ip, r1) := PyStr.span_digits l in
  let (fp, r2) :=
    match r1 with
    | "."%char :: r => PyStr.span_digits r
    | _ => ([], r1)
    end in
  match ip ++ fp with
  | [] => None
  | ds =>
      match parse_exponent r2 with
      | Some e => Some (PyStr.digits_value ds, e - Z.of_nat (List.length fp))
      | None => None
      end
  end.

(** [float(text)]; [None] stands for the [ValueError] it raises. *)
Definition of_string (text : string) : option float :=
  match PyStr.drop_underscores None
          (list_ascii_of_string (PyStr.strip_numeral text)) with
  | None => None
  | Some l =>
      let (neg, body) := PyStr.take_sign l in
      let word := string_of_list_ascii (PyStr.lower_all body) in
      if String.eqb word "inf" || String.eqb word "infinity"
      then Some (S754_infinity neg)
      else if String.eqb word "nan" then Some S754_nan
      else
        match parse_number body with
        | Some (n, e10) => Some (float_of_decimal neg n e10)
        | None => None
        end
  end.

(** Decimal digits of a non-negative integer. *)
Definition int_digits (n : Z) : string :=
  NilZero.string_of_uint (N.to_uint (Z.to_N n)).

(** The last [p] decimal digits of [n], zero padded. *)
Fixpoint frac_digits (p : nat) (n : Z) : string :=
  match p with
  | O => EmptyString
  | S p' => (frac_digits p' (n / 10) ++ String (PyStr.digit_char (n mod 10)) EmptyString)%string
  end.

Definition sign_text (s : bool) : string := if s then "-" else "".

(** Digits of the non-negative integer [n] with a point before the last
    [p] of them; no point when [p] is zero. *)
Definition fixed_text (p : nat) (n : Z) : string :=
  match p with
  | O => int_digits n
  | _ => (int_digits (n / 10 ^ Z.of_nat p) ++ "." ++ frac_digits p n)%string
  end.

(** [format(x, '.pf')]: the exact value of [x] rounded half-even to [p]
    fractional digits. *)
Definition format_f (x : float) (p : nat) : string :=
  match x with
  | S754_nan => "nan"
  | S754_infinity s => (sign_text s ++ "inf")%string
  | S754_zero s => (sign_text s ++ fixed_text p 0)%string
  | S754_finite s m e =>
      (sign_text s
       ++ fixed_text p (scaled_rne (Zpos m * 10 ^ Z.of_nat p) 1 (- e)))%string
  end.

End PyFloat.

(* ------------------------------------------------------------------ *)
(** ** Exceptions and results *)

Import PyFloat.

(** The messages of the [ValueError]s the program can meet, with the
    values interpolated in them. *)
Inductive value_error : Type :=
| CouldNotConvertToFloat (text : string)
| InvalidLiteralForInt (text : string)
| ExceedsIntMaxStrDigits (digits : nat)
| WrongUnpackCount (expected got : nat)
| BadFormatSpec
| TooManyFormatDigits
| PrecisionTooBig
| ExceedsDecimalPlaces (value : float) (max_decimals : Z)
| RatingsCannotBeEmpty (item : option string)
| SalesMustHaveSeven (item : option string).

Inductive exn : Type :=
| KeyError (key : string)
| ValueError (why : value_error)
| TypeError
| AttributeError
| ZeroDivisionError
| OverflowError
| FileNotFoundError.

Inductive res (A : Type) : Type :=
| Ok (a : A)
| Raise (e : exn).
Arguments Ok {A} a.
Arguments Raise {A} e.

Definition bind {A B : Type} (c : res A) (k : A -> res B) : res B :=
  match c with
  | Ok a => k a
  | Raise e => Raise e
  end.

Notation "x <- c ;; k" := (bind c (fun x => k))
  (at level 61, c at next level, right associativity).

(** [[f(x) for x in l]]: left to right, the first exception ends it. *)
Fixpoint map_res {A B : Type} (f : A -> res B) (l : list A) : res (list B) :=
  match l with
  | [] => Ok []
  | a :: l' => b <- f a ;; bs <- map_res f l' ;; Ok (b :: bs)
  end.

(* ------------------------------------------------------------------ *)
(** ** Built-in conversions *)

(** [float(x)] for [x] a string or [None]. *)
Definition py_float (x : option string) : res float :=
  match x with
  | None => Raise TypeError
  | Some text =>
      match PyFloat.of_string text with
      | Some v => Ok v
      | None => Raise (ValueError (CouldNotConvertToFloat text))
      end
  end.

(** The default of [sys.get_int_max_str_digits()]. *)
Definition int_max_str_digits : nat := 4300.

(** [int(text)] in base ten: surrounding white space, a sign, digits with
    single underscores between them.  The run of digits is scanned first;
    one of more than [int_max_str_digits] digits is refused before what
    follows it is looked at. *)
Definition py_int (text : string) : res Z :=
  let (neg, body) :=
    PyStr.take_sign (list_ascii_of_string (PyStr.strip_numeral text)) in
  match PyStr.scan_numeral None body with
  | Some ((_ :: _) as ds, rest) =>
      if (int_max_str_digits <? List.length ds)%nat
      then Raise (ValueError (ExceedsIntMaxStrDigits (List.length ds)))
      else
        match rest with
        | [] =>
            Ok (if neg then - PyStr.digits_value ds
                else PyStr.digits_value ds)
        | _ => Raise (ValueError (InvalidLiteralForInt text))
        end
  | _ => Raise (ValueError (InvalidLiteralForInt text))
  end.

(** [float(n)] for an [int]: correctly rounded, [OverflowError] past the
    largest finite value. *)
Definition float_of_int (n : Z) : res float :=
  match float_of_ratio (n <? 0) (Z.abs n) 1 with
  | S754_infinity _ => Raise OverflowError
  | x => Ok x
  end.

(** [float(len(l))]: a length is far below the overflow threshold. *)
Definition float_of_len (n : nat) : float :=
  float_of_ratio false (Z.of_nat n) 1.

(** [x / len(l)] *)
Definition truediv_len (x : float) (n : nat) : res float :=
  match n with
  | O => Raise ZeroDivisionError
  | _ => Ok (fdiv x (float_of_len n))
  end.

(** [text.split(sep)] where [text] may be [None]. *)
Definition split_method (text : option string) (sep : ascii)
  : res (list string) :=
  match text with
  | Some s => Ok (PyStr.split sep s)
  | None => Raise AttributeError
  end.

(** Float literals of the source. *)
Definition lit_0_0 : float := S754_zero false.
Definition lit_4_5 : float := Eval vm_compute in float_of_decimal false 45 (-1).
Definition lit_3_5 : float := Eval vm_compute in float_of_decimal false 35 (-1).
Definition lit_0_6 : float := Eval vm_compute in float_of_decimal false 6 (-1).
Definition lit_0_4 : float := Eval vm_compute in float_of_decimal false 4 (-1).
Definition lit_10 : float := Eval vm_compute in float_of_ratio false 10 1.

(** [sum] over a list of [int]. *)
Definition sum_ints (l : list Z) : Z := fold_left Z.add l 0.

(** Two summations of a list of floats that CPython's [sum] has used:
    plain left-to-right addition from the integer 0 (up to 3.11), and
    the same with Neumaier's compensation term (from 3.12). *)
Definition sum_floats_plain (l : list float) : float :=
  fold_left fadd l lit_0_0.

Definition is_finite (x : float) : bool :=
  match x with
  | S754_zero _ | S754_finite _ _ _ => true
  | _ => false
  end.

Definition is_zero (x : float) : bool :=
  match x with S754_zero _ => true | _ => false end.

Fixpoint neumaier (l : list float) (f_result c : float) : float :=
  match l with
  | [] => if negb (is_zero c) && is_finite c then fadd f_result c else f_result
  | x :: l' =>
      let t := fadd f_result x in
      let c' := if fge (fabs f_result) (fabs x)
                then fadd c (fadd (fsub f_result t) x)
                else fadd c (fadd (fsub x t) f_result) in
      neumaier l' t c'
  end.

Definition sum_floats_neumaier (l : list float) : float :=
  match l with
  | [] => lit_0_0
  | x :: l' => neumaier l' (fadd lit_0_0 x) lit_0_0
  end.

(* ------------------------------------------------------------------ *)
(** ** Dictionaries

    Insertion-ordered, as Python's: assigning to a present key replaces
    its value in place, a new key goes last.  [values] is the iteration
    order the reports use. *)

Module PyDict.
Section Dict.
Context {K V : Type}.
Variable eq_dec : forall a b : K, {a = b} + {a <> b}.

Definition t : Type := list (K * V).

Definition empty : t := [].

Fixpoint set (d : t) (k : K) (v : V) : t :=
  match d with
  | [] => [(k, v)]
  | (k', v') :: d' =>
      if eq_dec k k' then (k', v) :: d' else (k', v') :: set d' k v
  end.

Fixpoint get (d : t) (k : K) : option V :=
  match d with
  | [] => None
  | (k', v') :: d' => if eq_dec k k' then Some v' else get d' k
  end.

Definition keys (d : t) : list K := map fst d.
Definition values (d : t) : list V := map snd d.

(** [dict(pairs)] *)
Definition of_pairs (pairs : list (K * V)) : t :=
  fold_left (fun d kv => set d (fst kv) (snd kv)) pairs empty.
End Dict.
End PyDict.

Definition opt_string_dec (a b : option string) : {a = b} + {a <> b}.
Proof. decide equality. apply string_dec. Defined.

(* ------------------------------------------------------------------ *)
(** ** Class MenuItem *)

Record MenuItem : Type := {
  item : option string;
  price : float;
  category : option string;
  ratings : list float;
  sales_per_day : PyDict.t (K := string) (V := Z)
}.

Definition days_of_week : list string :=
  ["Mon"; "Tue"; "Wed"; "Thu"; "Fri"; "Sat"; "Sun"].

(** [{day: int(sales) for day, sales in pairs}] *)
Fixpoint sales_comprehension (pairs : list (string * string))
  (acc : PyDict.t (K := string) (V := Z)) : res (PyDict.t (K := string) (V := Z)) :=
  match pairs with
  | [] => Ok acc
  | (day, sales) :: rest =>
      v <- py_int sales ;;
      sales_comprehension rest (PyDict.set string_dec acc day v)
  end.

(** [MenuItem.__init__]: the object exists only when no step raises. *)
Definition MenuItem_init (item : option string) (price : float)
  (category ratings sales_per_day : option string) : res MenuItem :=
  tokens <- split_method ratings "," ;;
  parsed <- map_res (fun r => py_float (Some r)) tokens ;;
  match parsed with
  | [] => Raise (ValueError (RatingsCannotBeEmpty item))
  | _ =>
      sales_values <- split_method sales_per_day "," ;;
      if negb (Nat.eqb (List.length sales_values) 7)
      then Raise (ValueError (SalesMustHaveSeven item))
      else
        sales <- sales_comprehension (combine days_of_week sales_values)
                   PyDict.empty ;;
        Ok {| item := item; price := price; category := category;
              ratings := parsed; sales_per_day := sales |}
  end.

(* ------------------------------------------------------------------ *)
(** ** Float precision validator *)

Definition is_char_0 (c : ascii) : bool := Ascii.eqb c "0".

(** The largest precision a float is formatted with (C's [INT_MAX]), and
    the largest number the digits of a format specification may spell
    ([sys.maxsize], here of a 64-bit build). *)
Definition max_precision : Z := 2 ^ 31 - 1.

Definition max_spec_number : Z := 2 ^ 63 - 1.

(** The [ValueError] the specification [.{precision}f] is refused with:
    a negative number leaves the point without digits, a number past
    [sys.maxsize] has too many digits, and one past [INT_MAX] is too big
    a precision. *)
Definition refused_precision (precision : Z) : option value_error :=
  if precision <? 0 then Some BadFormatSpec
  else if max_spec_number <? precision then Some TooManyFormatDigits
  else if max_precision <? precision then Some PrecisionTooBig
  else None.

Definition validate_float_precision (value : float) (max_decimals : Z)
  : res bool :=
  match refused_precision (max_decimals + 1) with
  | Some why => Raise (ValueError why)
  | None =>
      let str_value := format_f value (Z.to_nat (max_decimals + 1)) in
      match PyStr.split "." str_value with
      | [_; fractional_part] =>
          if max_decimals
             <? Z.of_nat
                  (String.length (PyStr.rstrip is_char_0 fractional_part))
          then Raise (ValueError (ExceedsDecimalPlaces value max_decimals))
          else Ok true
      | parts => Raise (ValueError (WrongUnpackCount 2 (List.length parts)))
      end
  end.

(** The default of [max_decimals]. *)
Definition default_max_decimals : Z := 2.

(* ------------------------------------------------------------------ *)
(** ** CSV handling

    The source file is given by what [csv.reader] yields for it: the list
    of its records, each a list of fields, the header first and a blank
    line as the empty record.  [Missing] is a path that cannot be opened. *)

Inductive source : Type :=
| Missing
| Content (records : list (list string)).

(** A row of [csv.DictReader]: the cells by field name, [None] for the
    fields a short record lacks, and under the rest key the fields a long
    record has in excess. *)
Record csv_row : Type := {
  cells : PyDict.t (K := string) (V := option string);
  extras : option (list string)
}.

Definition DictReader_fieldnames (records : list (list string))
  : option (list string) :=
  match records with
  | [] => None
  | header :: _ => Some header
  end.

Definition DictReader_row (fieldnames record : list string) : csv_row :=
  let d := PyDict.of_pairs string_dec (combine fieldnames (map Some record)) in
  let lf := List.length fieldnames in
  let lr := List.length record in
  if (lf <? lr)%nat then {| cells := d; extras := Some (skipn lf record) |}
  else {| cells := fold_left (fun d key => PyDict.set string_dec d key None)
                     (skipn lr fieldnames) d;
          extras := None |}.

Definition is_blank (record : list string) : bool :=
  match record with [] => true | _ => false end.

(** The rows iteration yields: blank records are skipped. *)
Definition DictReader_rows (records : list (list string)) : list csv_row :=
  match records with
  | [] => []
  | header :: rest =>
      map (DictReader_row header) (filter (fun r => negb (is_blank r)) rest)
  end.

(** [row[key]] *)
Definition getitem (row : csv_row) (key : string) : res (option string) :=
  match PyDict.get string_dec (cells row) key with
  | Some v => Ok v
  | None => Raise (KeyError key)
  end.

(** Cells of the printed tables. *)
Inductive cell : Type :=
| CNone
| CStr (s : string)
| CInt (n : Z).

Definition cell_of (x : option string) : cell :=
  match x with Some s => CStr s | None => CNone end.

(** What the program prints, one constructor per message; a table stands
    for its header line, its rule and its rows. *)
Inductive msg : Type :=
| EmptyOrMalformed
| InvalidStructureMissing (columns : string)
| RequiredColumns (columns : string)
| FileNotFoundAfterCreation
| DataErrorInRow (row_num : Z) (e : exn)
| ProblematicRow (row : csv_row)
| CriticalLoadError (e : exn)
| TerminatedInvalidStructure
| TerminatedLoadFailed
| Heading (title : string)
| NoUnderratedItems
| NoUnprofitableItems
| Table (headers : list string) (rows : list (list cell)).

Definition required_fields : list string :=
  ["item"; "price"; "category"; "ratings"; "sales_per_day"].

(** [[field for field in required_fields if field not in fieldnames]] *)
Definition missing_fields (fieldnames : list string) : list string :=
  filter (fun field => negb (existsb (String.eqb field) fieldnames))
    required_fields.

Definition validate_csv_structure (f : source) : list msg * bool :=
  match f with
  | Missing => ([FileNotFoundAfterCreation], false)
  | Content records =>
      match DictReader_fieldnames records with
      | None | Some [] => ([EmptyOrMalformed], false)
      | Some fieldnames =>
          match missing_fields fieldnames with
          | [] => ([], true)
          | missing =>
              ([InvalidStructureMissing (PyStr.join ", " missing);
                RequiredColumns (PyStr.join ", " required_fields)], false)
          end
      end
  end.

(** [generate_sample_csv]: the records it writes. *)
Definition sample_data : list (list string) :=
  [ ["item"; "price"; "category"; "ratings"; "sales_per_day"];
    ["Chicken Parmigiana"; "19.99"; "Main"; "4.5,4.7,5.0"; "10,15,20,25,30,35,40"];
    ["Fish and Chips"; "18.99"; "Main"; "4.8,4.9,4.7"; "5,10,15,20,25,30,35"];
    ["Margherita Pizza"; "15.99"; "Main"; "4.0,4.2,4.3"; "50,60,70,80,90,100,110"];
    ["Caesar Salad"; "9.99"; "Starter"; "4.5,4.6,4.8"; "20,25,30,35,40,45,50"];
    ["Garlic Bread"; "6.99"; "Starter"; "4.8,4.9,4.7"; "10,5,1,15,3,5,10"];
    ["Tiramisu"; "7.99"; "Dessert"; "4.7,4.8,4.9"; "15,20,25,30,35,40,45"];
    ["Cheesecake"; "6.99"; "Dessert"; "2.5,2.7,2.8"; "1,2,3,4,5,6,7"] ].

(* ------------------------------------------------------------------ *)
(** ** Data processing *)

Definition menu : Type := PyDict.t (K := option string) (V := MenuItem).

(** The body of the [try] of one row: the key and the item stored. *)
Definition build_item (row : csv_row) : res (option string * MenuItem) :=
  price_text <- getitem row "price" ;;
  price <- py_float price_text ;;
  valid <- validate_float_precision price default_max_decimals ;;
  name <- getitem row "item" ;;
  category <- getitem row "category" ;;
  ratings <- getitem row "ratings" ;;
  sales <- getitem row "sales_per_day" ;;
  it <- MenuItem_init name price category ratings sales ;;
  key <- getitem row "item" ;;
  Ok (key, it).

(** [except (KeyError, ValueError)] *)
Definition is_data_error (e : exn) : bool :=
  match e with
  | KeyError _ | ValueError _ => true
  | _ => false
  end.

Fixpoint load_rows (rows : list csv_row) (row_num : Z) (menu_items : menu)
  : list msg * option menu :=
  match rows with
  | [] => ([], Some menu_items)
  | row :: rest =>
      match build_item row with
      | Ok (key, it) =>
          load_rows rest (row_num + 1) (PyDict.set opt_string_dec menu_items key it)
      | Raise e =>
          if is_data_error e
          then ([DataErrorInRow row_num e; ProblematicRow row], None)
          else ([CriticalLoadError e], None)
      end
  end.

Definition load_data_from_csv (f : source) : list msg * option menu :=
  match f with
  | Missing => ([CriticalLoadError FileNotFoundError], None)
  | Content records => load_rows (DictReader_rows records) 1 PyDict.empty
  end.

(* ------------------------------------------------------------------ *)
(** ** Derived metrics and reports *)

Definition int_text (n : Z) : string :=
  (sign_text (n <? 0)%Z ++ int_digits (Z.abs n))%string.

Definition table_step (A : Type) : Type := list msg * res A.

Definition and_then (a : table_step unit) (b : table_step unit)
  : table_step unit :=
  match a with
  | (out, Ok _) => (out ++ fst b, snd b)
  | (out, Raise e) => (out, Raise e)
  end.

Section Metrics.

(** The built-in [sum] on a non-empty list of floats; which of the two
    summations above it is depends on the interpreter. *)
Variable py_sum : list float -> float.

(** [MenuItem.average_rating] *)
Definition average_rating (self : MenuItem) : res float :=
  match ratings self with
  | [] => Ok lit_0_0
  | rs => truediv_len (py_sum rs) (List.length rs)
  end.

(** [sum(item.sales_per_day.values())] *)
Definition total_sales (it : MenuItem) : Z :=
  sum_ints (PyDict.values (sales_per_day it)).

(** [(total_sales * 0.6) + (avg_rating * 10 * 0.4)] *)
Definition popularity_score (it : MenuItem) : res float :=
  avg_rating <- average_rating it ;;
  total <- float_of_int (total_sales it) ;;
  Ok (fadd (fmul total lit_0_6) (fmul (fmul avg_rating lit_10) lit_0_4)).

Definition display_row (it : MenuItem) : res (list cell) :=
  avg_rating <- average_rating it ;;
  Ok [ cell_of (item it);
       CStr ("$" ++ format_f (price it) 2);
       cell_of (category it);
       CStr (format_f avg_rating 2);
       CStr (PyStr.join ", "
               (map (fun kv => (fst kv ++ ":" ++ int_text (snd kv))%string)
                  (sales_per_day it))) ].

Definition display_menu (menu_items : menu) : table_step unit :=
  match map_res display_row (PyDict.values menu_items) with
  | Ok rows =>
      ([Table ["Item"; "Price"; "Category"; "Avg Rating"; "Sales/Day"] rows],
       Ok tt)
  | Raise e => ([], Raise e)
  end.

Definition popular_row (it : MenuItem) : res (list cell) :=
  avg_rating <- average_rating it ;;
  score <- popularity_score it ;;
  Ok [ cell_of (item it); cell_of (category it);
       CStr (format_f avg_rating 2); CInt (total_sales it);
       CStr (format_f score 2) ].

Definition analyze_popular_items (menu_items : menu) : table_step unit :=
  let heading := Heading "Analysis of Popular Items:" in
  match map_res popular_row (PyDict.values menu_items) with
  | Ok rows =>
      ([heading;
        Table ["Item"; "Category"; "Avg Rating"; "Total Sales";
               "Popularity Score"] rows], Ok tt)
  | Raise e => ([heading], Raise e)
  end.

Definition report_row (it : MenuItem) (avg_rating : float) : list cell :=
  [ cell_of (item it); cell_of (category it);
    CStr (format_f avg_rating 2); CInt (total_sales it) ].

(** The loop of [identify_underrated_items]: [rows] grows by [append]. *)
Fixpoint underrated_rows (items : list MenuItem) (rows : list (list cell))
  : res (list (list cell)) :=
  match items with
  | [] => Ok rows
  | it :: rest =>
      avg_rating <- average_rating it ;;
      if fge avg_rating lit_4_5 && (total_sales it <? 50)
      then underrated_rows rest (rows ++ [report_row it avg_rating])
      else underrated_rows rest rows
  end.

Definition report_headers : list string :=
  ["Item"; "Category"; "Avg Rating"; "Total Sales"].

Definition identify_underrated_items (menu_items : menu) : table_step unit :=
  let heading := Heading "Identification of Underrated Items:" in
  match underrated_rows (PyDict.values menu_items) [] with
  | Ok [] => ([heading; NoUnderratedItems], Ok tt)
  | Ok rows => ([heading; Table report_headers rows], Ok tt)
  | Raise e => ([heading], Raise e)
  end.

(** The loop of [identify_unprofitable_items]. *)
Fixpoint unprofitable_rows (items : list MenuItem) (rows : list (list cell))
  : res (list (list cell)) :=
  match items with
  | [] => Ok rows
  | it :: rest =>
      avg_rating <- average_rating it ;;
      if flt avg_rating lit_3_5 && (total_sales it <? 30)
      then unprofitable_rows rest (rows ++ [report_row it avg_rating])
      else unprofitable_rows rest rows
  end.

Definition identify_unprofitable_items (menu_items : menu)
  : table_step unit :=
  let heading := Heading "Identification of Unprofitable Items:" in
  match unprofitable_rows (PyDict.values menu_items) [] with
  | Ok [] => ([heading; NoUnprofitableItems], Ok tt)
  | Ok rows => ([heading; Table report_headers rows], Ok tt)
  | Raise e => ([heading], Raise e)
  end.

(** [main] from its second step on; the first step, the interactive
    choice or creation of the file, hands over the source [f]. *)
Definition main (f : source) : table_step unit :=
  let (out1, ok) := validate_csv_structure f in
  if negb ok then (out1 ++ [TerminatedInvalidStructure], Ok tt)
  else
    let (out2, menu_data) := load_data_from_csv f in
    match menu_data with
    | None | Some [] => (out1 ++ out2 ++ [TerminatedLoadFailed], Ok tt)
    | Some menu_items =>
        and_then (out1 ++ out2, Ok tt)
          (and_then (display_menu menu_items)
             (and_then (analyze_popular_items menu_items)
                (and_then (identify_underrated_items menu_items)
                   (identify_unprofitable_items menu_items))))
    end.

End Metrics.

(* ------------------------------------------------------------------ *)
(** ** Vocabulary of the statements *)

(** The integer whose last [p] digits [format_f] prints after the point
    for the finite float [m * 2^e]. *)
Definition scaled_digits (m : positive) (e : Z) (p : nat) : Z :=
  scaled_rne (Zpos m * 10 ^ Z.of_nat p) 1 (- e).

(** What the validator answers when the last digit it formats is
    [last_digit]. *)
Definition verdict (value : float) (max_decimals : Z) (last_digit : Z)
  : res bool :=
  if last_digit =? 0 then Ok true
  else Raise (ValueError (ExceedsDecimalPlaces value max_decimals)).

(** The first two statements of a row's [try] on the text of a price. *)
Definition price_verdict (text : string) : res bool :=
  price <- py_float (Some text) ;;
  validate_float_precision price default_max_decimals.

(** Every row built, in file order, and the mapping the loop leaves after
    storing the built items one by one. *)
Definition build_all (rows : list csv_row)
  : res (list (option string * MenuItem)) :=
  map_res build_item rows.

Definition store_all (built : list (option string * MenuItem)) (menu_items : menu)
  : menu :=
  fold_left (fun d kv => PyDict.set opt_string_dec d (fst kv) (snd kv))
    built menu_items.

Section Classification.

Variable py_sum : list float -> float.

(** The item's average rating as a number ([average_rating] returns for
    every item). *)
Definition rating_of (it : MenuItem) : float :=
  match average_rating py_sum it with
  | Ok avg => avg
  | Raise _ => lit_0_0
  end.

(** The two threshold rules, and the items of a mapping each selects, in
    the mapping's order. *)
Definition underrated (it : MenuItem) : bool :=
  fge (rating_of it) lit_4_5 && (total_sales it <? 50).

Definition unprofitable (it : MenuItem) : bool :=
  flt (rating_of it) lit_3_5 && (total_sales it <? 30).

Definition underrated_set (menu_items : menu) : list MenuItem :=
  filter underrated (PyDict.values menu_items).

Definition unprofitable_set (menu_items : menu) : list MenuItem :=
  filter unprofitable (PyDict.values menu_items).

Definition report_rows (items : list MenuItem) : list (list cell) :=
  map (fun it => report_row it (rating_of it)) items.

End Classification.

(* ------------------------------------------------------------------ *)
(** ** Sample sources *)

Definition header_row : list string :=
  ["item"; "price"; "category"; "ratings"; "sales_per_day"].

Definition soup_record : list string :=
  ["Soup"; "4.50"; "Starter"; "4.0,4.5"; "1,2,3,4,5,6,7"].

Definition cake_record : list string :=
  ["Cake"; "5.25"; "Dessert"; "5.0"; "1,1,1,1,1,1,1"].

(** A price with a third fractional digit. *)
Definition stew_record : list string :=
  ["Stew"; "9.999"; "Main"; "3.0"; "7,6,5,4,3,2,1"].

(** A second row named Soup. *)
Definition soup_again_record : list string :=
  ["Soup"; "6.00"; "Main"; "3.0"; "7,6,5,4,3,2,1"].

Definition records_with_bad_price : list (list string) :=
  [header_row; soup_record; stew_record; cake_record].

Definition records_with_duplicate : list (list string) :=
  [header_row; soup_record; cake_record; soup_again_record].

Definition records_with_odd_prices : list (list string) :=
  [ header_row;
    ["Soup"; "-5.00"; "Starter"; "4.0,4.5"; "1,2,3,4,5,6,7"];
    ["Stew"; "19.9996"; "Main"; "3.0"; "7,6,5,4,3,2,1"] ].

Definition records_without_category : list (list string) :=
  [ ["item"; "price"; "ratings"; "sales_per_day"];
    ["Soup"; "4.50"; "4.0,4.5"; "1,2,3,4,5,6,7"] ].

(* ------------------------------------------------------------------ *)
(** ** The file dialogue and the whole run

    [handle_csv_creation] reads the user's answers with [input]; they are
    given as the list of lines standard input holds, and [input] at the end
    of that list raises [EOFError].  The file is the [source] found under
    the default name; [generate_sample_csv] replaces it by the sample
    records. *)

(** [s.lower()] on ASCII letters. *)
Fixpoint str_lower (s : string) : string :=
  match s with
  | EmptyString => EmptyString
  | String c s' => String (PyStr.lower c) (str_lower s')
  end.

(** [input(...).strip().lower()] applied to the line read, on ASCII
    text. *)
Definition answer (line : string) : string := str_lower (PyStr.strip line).

(** What the dialogue prints, prompts of [input] included. *)
Inductive setup_msg : Type :=
| PromptUseExisting
| WhatInstead
| PromptChoice
| PromptOverwrite
| SampleCreated
| OverwriteCanceled
| TerminatedByUser
| InvalidChoice
| FileDoesNotExist
| PromptGenerate
| TerminatedNoCsv.

(** How the call ends: the file name, [None], or [EOFError]. *)
Inductive setup_end : Type :=
| ReturnedPath
| ReturnedNone
| EndOfInput.

Record setup : Type := {
  setup_log : list setup_msg;
  setup_file : source;
  setup_result : setup_end
}.

Definition said (msgs : list setup_msg) (r : setup) : setup :=
  {| setup_log := msgs ++ setup_log r;
     setup_file := setup_file r;
     setup_result := setup_result r |}.

Definition ends (msgs : list setup_msg) (file : source) (e : setup_end) : setup :=
  {| setup_log := msgs; setup_file := file; setup_result := e |}.

(** The [while True] loop: every turn reads at least one line, [continue]
    goes on with the lines left. *)
Fixpoint handle_csv_creation (file : source) (inputs : list string) : setup :=
  match file with
  | Content _ =>
      match inputs with
      | [] => ends [PromptUseExisting] file EndOfInput
      | use_existing :: inputs1 =>
          if String.eqb (answer use_existing) "yes"
          then ends [PromptUseExisting] file ReturnedPath
          else
            match inputs1 with
            | [] => ends [PromptUseExisting; WhatInstead; PromptChoice] file
                      EndOfInput
            | choice :: inputs2 =>
                if String.eqb (PyStr.strip choice) "1" then
                  match inputs2 with
                  | [] =>
                      ends [PromptUseExisting; WhatInstead; PromptChoice;
                            PromptOverwrite] file EndOfInput
                  | confirm :: inputs3 =>
                      if String.eqb (answer confirm) "yes"
                      then ends [PromptUseExisting; WhatInstead; PromptChoice;
                                 PromptOverwrite; SampleCreated]
                             (Content sample_data) ReturnedPath
                      else said [PromptUseExisting; WhatInstead; PromptChoice;
                                 PromptOverwrite; OverwriteCanceled]
                             (handle_csv_creation file inputs3)
                  end
                else if String.eqb (PyStr.strip choice) "2" then
                  ends [PromptUseExisting; WhatInstead; PromptChoice;
                        TerminatedByUser] file ReturnedNone
                else
                  said [PromptUseExisting; WhatInstead; PromptChoice;
                        InvalidChoice]
                    (handle_csv_creation file inputs2)
            end
      end
  | Missing =>
      match inputs with
      | [] => ends [FileDoesNotExist; PromptGenerate] file EndOfInput
      | generate :: _ =>
          if String.eqb (answer generate) "yes"
          then ends [FileDoesNotExist; PromptGenerate; SampleCreated]
                 (Content sample_data) ReturnedPath
          else ends [FileDoesNotExist; PromptGenerate; TerminatedNoCsv]
                 file ReturnedNone
      end
  end.

(* ------------------------------------------------------------------ *)
(** ** Printing a table

    The four report functions end with the same lines: the width of each
    column, the header line, the rule, then one line per row.  A [Table]
    message of the log stands for the entry into these lines; what they
    print, and whether they return, is [print_table].  Lengths are those
    of ASCII text. *)

(** Exceptions around the pipeline: those of [exn], and the two the
    pipeline itself never raises. *)
Inductive raised : Type :=
| Pipeline (e : exn)
| IndexError
| EOFError.

Fixpoint all_some {A : Type} (l : list (option A)) : option (list A) :=
  match l with
  | [] => Some []
  | None :: _ => None
  | Some a :: rest => option_map (cons a) (all_some rest)
  end.

(** [str(cell)] *)
Definition cell_str (c : cell) : string :=
  match c with
  | CNone => "None"
  | CStr s => s
  | CInt n => int_text n
  end.

(** [max(len(str(row[i])) for row in table)]; [row[i]] beyond the end of a
    row raises [IndexError], here [None]. *)
Definition col_width (i : nat) (table : list (list cell)) : option nat :=
  option_map (fold_right Nat.max O)
    (all_some
       (map (fun row =>
               option_map (fun c => String.length (cell_str c))
                 (nth_error row i))
          table)).

(** [[max(...) for i in range(len(headers))]] over [[headers] + rows] *)
Definition col_widths (headers : list string) (rows : list (list cell))
  : option (list nat) :=
  all_some
    (map (fun i => col_width i (map CStr headers :: rows))
       (seq 0 (List.length headers))).

(** [c * k] *)
Fixpoint times (c : ascii) (k : nat) : string :=
  match k with
  | O => EmptyString
  | S k' => String c (times c k')
  end.

(** [f"{text:<{w}}"] on text *)
Definition pad (text : string) (w : nat) : string :=
  (text ++ times " " (w - String.length text))%string.

(** [f"{cell:<{w}}"]: [None] takes no format specification, which is a
    [TypeError], here [None]. *)
Definition format_cell (cw : cell * nat) : option string :=
  match fst cw with
  | CNone => None
  | c => Some (pad (cell_str c) (snd cw))
  end.

(** [" | ".join(f"{cell:<{w}}" for cell, w in zip(row, col_widths))] *)
Definition format_row (row : list cell) (widths : list nat)
  : option string :=
  option_map (PyStr.join " | ") (all_some (map format_cell (combine row widths))).

Definition format_headers (headers : list string) (widths : list nat)
  : string :=
  PyStr.join " | "
    (map (fun hw => pad (fst hw) (snd hw)) (combine headers widths)).

(** [sum(col_widths) + 3 * (len(headers) - 1)] *)
Definition rule_length (headers : list string) (widths : list nat) : Z :=
  Z.of_nat (fold_right Nat.add O widths)
  + 3 * (Z.of_nat (List.length headers) - 1).

(** The loop over the rows: the lines printed and the exception, if any. *)
Fixpoint print_rows (rows : list (list cell)) (widths : list nat)
  : list string * option raised :=
  match rows with
  | [] => ([], None)
  | row :: rest =>
      match format_row row widths with
      | None => ([], Some (Pipeline TypeError))
      | Some line =>
          let (lines, e) := print_rows rest widths in (line :: lines, e)
      end
  end.

Definition print_table (headers : list string) (rows : list (list cell))
  : list string * option raised :=
  match col_widths headers rows with
  | None => ([], Some IndexError)
  | Some widths =>
      let (lines, e) := print_rows rows widths in
      (format_headers headers widths
         :: times "-" (Z.to_nat (rule_length headers widths)) :: lines, e)
  end.

(** What reaches the terminal: a message, or a line of a table. *)
Inductive shown : Type :=
| Message (m : msg)
| Line (text : string).

(** The log of a run with its tables printed: no report function catches
    an exception, so the first table that raises ends the run, and the
    messages and the result the log has after it are never reached. *)
Fixpoint render (out : list msg) (r : res unit)
  : list shown * option raised :=
  match out with
  | [] => ([], match r with Ok _ => None | Raise e => Some (Pipeline e) end)
  | Table headers rows :: rest =>
      match print_table headers rows with
      | (lines, None) =>
          let (more, e) := render rest r in (map Line lines ++ more, e)
      | (lines, Some e) => (map Line lines, Some e)
      end
  | m :: rest =>
      let (more, e) := render rest r in (Message m :: more, e)
  end.

(** The console of the whole run. *)
Inductive console : Type :=
| Banner
| Setup (m : setup_msg)
| TerminatedCsvRequired
| Report (s : shown).

(** A run: what it printed, the file it leaves, and the exception that
    ended it, if one did. *)
Record run : Type := {
  run_console : list console;
  run_file : source;
  run_result : option raised
}.

Section WholeRun.

Variable py_sum : list float -> float.

(** [main] from its second step on, tables printed. *)
Definition printed_main (f : source) : list shown * option raised :=
  let (out, r) := main py_sum f in render out r.

(** [main], with its first step. *)
Definition main_with_setup (file : source) (inputs : list string) : run :=
  let s := handle_csv_creation file inputs in
  let shown := Banner :: map Setup (setup_log s) in
  match setup_result s with
  | EndOfInput =>
      {| run_console := shown; run_file := setup_file s;
         run_result := Some EOFError |}
  | ReturnedNone =>
      {| run_console := shown ++ [TerminatedCsvRequired];
         run_file := setup_file s; run_result := None |}
  | ReturnedPath =>
      let (out, e) := printed_main (setup_file s) in
      {| run_console := shown ++ map Report out;
         run_file := setup_file s;
         run_result := e |}
  end.

End WholeRun.

(* ------------------------------------------------------------------ *)
(** ** More vocabulary *)

(** [s.count(c)] *)
Fixpoint count_char (c : ascii) (s : string) : nat :=
  match s with
  | EmptyString => O
  | String a s' => if Ascii.eqb a c then S (count_char c s') else count_char c s'
  end.

(** The message the loader prints for the exception [e] of row [row_num]:
    the inner handler for data errors, the outer one for the rest. *)
Definition failure_log (row_num : Z) (row : csv_row) (e : exn) : list msg :=
  if is_data_error e
  then [DataErrorInRow row_num e; ProblematicRow row]
  else [CriticalLoadError e].

Definition is_table (m : msg) : bool :=
  match m with Table _ _ => true | _ => false end.

(** A daily sales figure of 401 digits, and a source with it. *)
Definition huge_sales : string :=
  String "1" (string_of_list_ascii (repeat "0"%char 400)).

Definition records_with_huge_sales : list (list string) :=
  [ header_row;
    ["Soup"; "4.50"; "Starter"; "4.0,4.5";
     String.append huge_sales ",2,3,4,5,6,7"] ].

Definition display_headers : list string :=
  ["Item"; "Price"; "Category"; "Avg Rating"; "Sales/Day"].

Definition popular_headers : list string :=
  ["Item"; "Category"; "Avg Rating"; "Total Sales"; "Popularity Score"].

(** Answers that decline, pick the sample after one invalid choice and one
    cancelled overwrite, and confirm. *)
Definition hesitant_answers : list string :=
  ["no"; "3"; " NO "; "1"; "nope"; "n"; "1"; "  Yes "].

(** Answers that decline throughout and leave. *)
Definition declining_answers : list string :=
  ["no"; "1"; "nope"; "yes please"; "2"].

(** A source whose second record stops before the name and the category. *)
Definition records_with_short_row : list (list string) :=
  [ ["price"; "ratings"; "sales_per_day"; "category"; "item"];
    ["4.50"; "4.0,4.5"; "1,2,3,4,5,6,7"; "Starter"; "Soup"];
    ["5.25"; "5.0"; "1,1,1,1,1,1,1"] ].

Definition has_text (x : option string) : bool :=
  match x with Some _ => true | None => false end.

(** The item has a name and a category. *)
Definition labelled (it : MenuItem) : bool :=
  has_text (item it) && has_text (category it).

Definition is_heading (s : shown) : bool :=
  match s with Message (Heading _) => true | _ => false end.

Definition is_none (c : cell) : bool :=
  match c with CNone => true | _ => false end.

(** The row has a cell for each of the [n] columns, none of them [None]. *)
Definition formats (n : nat) (row : list cell) : bool :=
  (n <=? List.length row)%nat && negb (existsb is_none (firstn n row)).

(** The rows before the first that does not format. *)
Fixpoint formatted_prefix (n : nat) (rows : list (list cell))
  : list (list cell) :=
  match rows with
  | [] => []
  | row :: rest =>
      if formats n row then row :: formatted_prefix n rest else []
  end.

Definition table_lines (headers : list string) (rows : list (list cell))
  : list shown :=
  map Line (fst (print_table headers rows)).

(** What a classification prints under its heading. *)
Definition section_lines (note : msg) (rows : list (list cell))
  : list shown :=
  match rows with
  | [] => [Message note]
  | _ => table_lines report_headers rows
  end.

(** No cell of the first columns is wider than its column. *)
Fixpoint fits (row : list cell) (widths : list nat) {struct widths} : bool :=
  match widths, row with
  | [], _ => true
  | w :: widths', c :: row' =>
      (String.length (cell_str c) <=? w)%nat && fits row' widths'
  | _ :: _, [] => false
  end.

(** The items before the first without a name or a category. *)
Fixpoint labelled_prefix (items : list MenuItem) : list MenuItem :=
  match items with
  | [] => []
  | it :: rest => if labelled it then it :: labelled_prefix rest else []
  end.

(* ------------------------------------------------------------------ *)
(** * Properties *)

(** ** Strings *)

Section StringFacts.

Lemma contains_app c a b :
  PyStr.contains c (a ++ b)%string = PyStr.contains c a || PyStr.contains c b.
Proof.
  induction a as [|x a IH]; simpl; [reflexivity|].
  rewrite IH. now rewrite orb_assoc.
Qed.

Lemma split_without sep s :
  PyStr.contains sep s = false -> PyStr.split sep s = [s].
Proof.
  induction s as [|c s IH]; simpl; intros H; [reflexivity|].
  apply orb_false_iff in H as [Hc Hs].
  rewrite Hc, (IH Hs). reflexivity.
Qed.

Lemma split_at_first sep a b :
  PyStr.contains sep a = false ->
  PyStr.split sep (a ++ String sep b)%string = a :: PyStr.split sep b.
Proof.
  induction a as [|c a IH]; simpl; intros H.
  - now rewrite Ascii.eqb_refl.
  - apply orb_false_iff in H as [Hc Ha].
    rewrite Hc, (IH Ha). reflexivity.
Qed.

Lemma split_not_nil sep s : PyStr.split sep s <> [].
Proof.
  destruct s as [|c s]; simpl; [discriminate|].
  destruct (Ascii.eqb c sep); [discriminate|].
  destruct (PyStr.split sep s); discriminate.
Qed.

Lemma rstrip_length p s :
  (String.length (PyStr.rstrip p s) <= String.length s)%nat.
Proof.
  induction s as [|c s IH]; simpl; [lia|].
  destruct (PyStr.is_empty (PyStr.rstrip p s) && p c); simpl; lia.
Qed.

Lemma rstrip_snoc_keep p s c :
  p c = false ->
  PyStr.rstrip p (s ++ String c EmptyString)%string
  = (s ++ String c EmptyString)%string.
Proof.
  intros Hc. induction s as [|a s IH]; simpl.
  - now rewrite Hc.
  - rewrite IH. destruct s; reflexivity.
Qed.

Lemma rstrip_snoc_drop p s c :
  p c = true ->
  PyStr.rstrip p (s ++ String c EmptyString)%string = PyStr.rstrip p s.
Proof.
  intros Hc. induction s as [|a s IH]; simpl.
  - now rewrite Hc.
  - now rewrite IH.
Qed.

Lemma length_app a b :
  String.length (a ++ b)%string = (String.length a + String.length b)%nat.
Proof. induction a; simpl; congruence. Qed.

Lemma append_assoc (a b c : string) :
  ((a ++ b) ++ c)%string = (a ++ (b ++ c))%string.
Proof. induction a; simpl; congruence. Qed.

End StringFacts.

(** ** Decimal text *)

Section DecimalText.

Lemma digit_cases d :
  0 <= d < 10 ->
  d = 0 \/ d = 1 \/ d = 2 \/ d = 3 \/ d = 4 \/ d = 5 \/ d = 6 \/ d = 7
  \/ d = 8 \/ d = 9.
Proof. lia. Qed.

Lemma digit_char_not_point d :
  0 <= d < 10 -> Ascii.eqb (PyStr.digit_char d) "." = false.
Proof.
  intros H. destruct (digit_cases d H) as [E|[E|[E|[E|[E|[E|[E|[E|[E|E]]]]]]]]];
    subst d; reflexivity.
Qed.

Lemma digit_char_is_0 d :
  0 <= d < 10 -> is_char_0 (PyStr.digit_char d) = (d =? 0).
Proof.
  intros H. destruct (digit_cases d H) as [E|[E|[E|[E|[E|[E|[E|[E|[E|E]]]]]]]]];
    subst d; reflexivity.
Qed.

Lemma uint_text_no_point (d : Decimal.uint) :
  PyStr.contains "." (NilEmpty.string_of_uint d) = false.
Proof. induction d; simpl; auto. Qed.

Lemma int_digits_no_point n : PyStr.contains "." (int_digits n) = false.
Proof.
  unfold int_digits, NilZero.string_of_uint.
  destruct (N.to_uint (Z.to_N n)) eqn:E; try reflexivity;
    rewrite <- E; apply uint_text_no_point.
Qed.

Lemma frac_digits_no_point p n : PyStr.contains "." (frac_digits p n) = false.
Proof.
  revert n. induction p as [|p IH]; intros n; simpl; [reflexivity|].
  rewrite contains_app, IH. simpl.
  rewrite digit_char_not_point by (apply Z.mod_pos_bound; lia).
  reflexivity.
Qed.

Lemma frac_digits_length p n : String.length (frac_digits p n) = p.
Proof.
  revert n. induction p as [|p IH]; intros n; simpl; [reflexivity|].
  rewrite length_app, IH. simpl. lia.
Qed.

Lemma sign_text_no_point s : PyStr.contains "." (sign_text s) = false.
Proof. destruct s; reflexivity. Qed.

(** Splitting a fixed-point text at its point. *)
Lemma split_fixed_text s p n :
  PyStr.split "." (sign_text s ++ fixed_text (S p) n)%string
  = [ (sign_text s ++ int_digits (n / 10 ^ Z.of_nat (S p)))%string;
      frac_digits (S p) n ].
Proof.
  unfold fixed_text.
  change ("." ++ frac_digits (S p) n)%string
    with (String "." (frac_digits (S p) n)).
  rewrite <- append_assoc, split_at_first.
  - rewrite split_without by apply frac_digits_no_point. reflexivity.
  - rewrite contains_app, sign_text_no_point, int_digits_no_point.
    reflexivity.
Qed.

(** Stripping the zeros at the end of [p + 1] digits leaves more than
    [p] characters exactly when the last digit is not zero. *)
Lemma rstrip_frac_digits p n :
  (Z.of_nat p
   <? Z.of_nat (String.length (PyStr.rstrip is_char_0 (frac_digits (S p) n))))
  = negb (n mod 10 =? 0).
Proof.
  simpl frac_digits.
  assert (Hd : 0 <= n mod 10 < 10) by (apply Z.mod_pos_bound; lia).
  pose proof (digit_char_is_0 _ Hd) as Hc.
  destruct (n mod 10 =? 0) eqn:E; simpl.
  - rewrite rstrip_snoc_drop by exact Hc.
    pose proof (rstrip_length is_char_0 (frac_digits p (n / 10))) as Hl.
    rewrite frac_digits_length in Hl. apply Z.ltb_ge. lia.
  - rewrite rstrip_snoc_keep by exact Hc.
    rewrite length_app, frac_digits_length. simpl. apply Z.ltb_lt. lia.
Qed.

End DecimalText.

(** ** The precision validator on each kind of float *)

Section ValidatorCases.

Lemma refused_precision_none precision :
  0 <= precision <= 2 ^ 31 - 1 -> refused_precision precision = None.
Proof.
  unfold refused_precision, max_spec_number, max_precision. intros H.
  replace (precision <? 0) with false by (symmetry; apply Z.ltb_ge; lia).
  replace (2 ^ 63 - 1 <? precision) with false
    by (symmetry; apply Z.ltb_ge; lia).
  replace (2 ^ 31 - 1 <? precision) with false
    by (symmetry; apply Z.ltb_ge; lia).
  reflexivity.
Qed.

Lemma refused_precision_some precision :
  precision < 0 \/ 2 ^ 31 - 1 < precision ->
  exists why, refused_precision precision = Some why.
Proof.
  unfold refused_precision, max_spec_number, max_precision. intros H.
  destruct (precision <? 0) eqn:E0; [eauto|].
  destruct (2 ^ 63 - 1 <? precision) eqn:E1; [eauto|].
  destruct (2 ^ 31 - 1 <? precision) eqn:E2; [eauto|].
  apply Z.ltb_ge in E0, E2. lia.
Qed.

Lemma validate_fixed_text value s n max_decimals :
  0 <= max_decimals < 2 ^ 31 - 1 ->
  format_f value (Z.to_nat (max_decimals + 1))
  = (sign_text s ++ fixed_text (Z.to_nat (max_decimals + 1)) n)%string ->
  validate_float_precision value max_decimals
  = verdict value max_decimals (n mod 10).
Proof.
  intros Hmd Hfmt. unfold validate_float_precision, verdict.
  rewrite refused_precision_none by lia.
  rewrite Hfmt.
  replace (Z.to_nat (max_decimals + 1)) with (S (Z.to_nat max_decimals))
    by lia.
  rewrite split_fixed_text.
  replace max_decimals with (Z.of_nat (Z.to_nat max_decimals)) at 1 by lia.
  rewrite rstrip_frac_digits.
  destruct (n mod 10 =? 0); reflexivity.
Qed.

Lemma validate_finite s m e max_decimals :
  0 <= max_decimals < 2 ^ 31 - 1 ->
  validate_float_precision (S754_finite s m e) max_decimals
  = verdict (S754_finite s m e) max_decimals
      (scaled_digits m e (Z.to_nat (max_decimals + 1)) mod 10).
Proof. intros H. now apply validate_fixed_text with (s := s). Qed.

Lemma validate_zero s max_decimals :
  0 <= max_decimals < 2 ^ 31 - 1 ->
  validate_float_precision (S754_zero s) max_decimals = Ok true.
Proof.
  intros H.
  rewrite validate_fixed_text with (s := s) (n := 0) by (auto; reflexivity).
  reflexivity.
Qed.

Lemma validate_nan max_decimals :
  validate_float_precision S754_nan max_decimals <> Ok true.
Proof.
  unfold validate_float_precision.
  destruct (refused_precision (max_decimals + 1)); [discriminate|].
  simpl. discriminate.
Qed.

Lemma validate_infinity s max_decimals :
  validate_float_precision (S754_infinity s) max_decimals <> Ok true.
Proof.
  unfold validate_float_precision.
  destruct (refused_precision (max_decimals + 1)); [discriminate|].
  destruct s; simpl; discriminate.
Qed.

(** A validated value is a finite number. *)
Lemma validated_is_finite value max_decimals :
  validate_float_precision value max_decimals = Ok true ->
  is_finite value = true.
Proof.
  destruct value as [s|s| |s m e]; intros H; try reflexivity.
  - now apply validate_infinity in H.
  - now apply validate_nan in H.
Qed.

End ValidatorCases.

(** ** Rounding *)

Section Rounding.

Lemma div_rne_unique p q k :
  0 < q -> 2 * Z.abs (p - k * q) < q -> div_rne p q = k.
Proof.
  intros Hq Hk. unfold div_rne.
  destruct (Z_le_gt_dec 0 (p - k * q)) as [Hr|Hr].
  - assert (Hd : p / q = k)
      by (symmetry; apply Z.div_unique with (r := p - k * q); lia).
    assert (Hm : p mod q = p - k * q)
      by (symmetry; apply Z.mod_unique with (q := k); lia).
    rewrite Hd, Hm.
    replace (2 * (p - k * q) ?= q) with Lt; [reflexivity|].
    symmetry. apply Z.compare_lt_iff. lia.
  - assert (Hd : p / q = k - 1)
      by (symmetry; apply Z.div_unique with (r := p - k * q + q); lia).
    assert (Hm : p mod q = p - k * q + q)
      by (symmetry; apply Z.mod_unique with (q := k - 1); lia).
    rewrite Hd, Hm.
    replace (2 * (p - k * q + q) ?= q) with Gt; [lia|].
    symmetry. apply Z.compare_gt_iff. lia.
Qed.

Lemma div_rne_error p q :
  0 < q -> 2 * Z.abs (div_rne p q * q - p) <= q.
Proof.
  intros Hq. unfold div_rne.
  pose proof (Z.div_mod p q ltac:(lia)) as Hdm.
  pose proof (Z.mod_pos_bound p q Hq) as Hb.
  set (d := p / q) in *. set (r := p mod q) in *. clearbody d r.
  assert (E0 : d * q - p = - r) by (rewrite Hdm; ring).
  assert (E1 : (d + 1) * q - p = q - r) by (rewrite Hdm; ring).
  destruct (2 * r ?= q) eqn:C.
  - apply Z.compare_eq_iff in C.
    destruct (Z.even d); [rewrite E0 | rewrite E1]; lia.
  - rewrite Z.compare_lt_iff in C. rewrite E0. lia.
  - rewrite Z.compare_gt_iff in C. rewrite E1. lia.
Qed.

Lemma pow2_pos n : 0 < 2 ^ n \/ 2 ^ n = 0.
Proof.
  destruct (Z_le_gt_dec 0 n); [left; apply Z.pow_pos_nonneg; lia|].
  right. apply Z.pow_neg_r. lia.
Qed.

(** The exponent found is not above the true one. *)
Lemma ratio_exponent_lower p q :
  0 < p -> 0 < q -> ge_pow2 p q (ratio_exponent p q) = true.
Proof.
  intros Hp Hq. unfold ratio_exponent.
  destruct (ge_pow2 p q (Z.log2 p - Z.log2 q)) eqn:G; [exact G|].
  clear G. unfold ge_pow2. apply Z.leb_le.
  pose proof (Z.log2_spec p Hp) as [Hp1 _].
  pose proof (Z.log2_spec q Hq) as [_ Hq2].
  pose proof (Z.log2_nonneg p) as Lp. pose proof (Z.log2_nonneg q) as Lq.
  set (a := Z.log2 p) in *. set (b := Z.log2 q) in *.
  destruct (Z_le_gt_dec 0 (a - b - 1)) as [H|H].
  - rewrite (Z.max_r 0 (a - b - 1)), (Z.max_l 0 (- (a - b - 1))) by lia.
    assert (E : 2 ^ a = 2 ^ Z.succ b * 2 ^ (a - b - 1)).
    { rewrite <- Z.pow_add_r by lia. f_equal. lia. }
    assert (0 < 2 ^ (a - b - 1)) by (apply Z.pow_pos_nonneg; lia).
    nia.
  - rewrite (Z.max_l 0 (a - b - 1)), (Z.max_r 0 (- (a - b - 1))) by lia.
    assert (E : 2 ^ Z.succ b = 2 ^ a * 2 ^ (- (a - b - 1))).
    { rewrite <- Z.pow_add_r by lia. f_equal. lia. }
    assert (0 < 2 ^ (- (a - b - 1))) by (apply Z.pow_pos_nonneg; lia).
    nia.
Qed.

Lemma ratio_exponent_below p q n :
  0 < p -> 0 < q -> 0 <= n -> p < 2 ^ n * q -> ratio_exponent p q < n.
Proof.
  intros Hp Hq Hn Hlt.
  pose proof (ratio_exponent_lower p q Hp Hq) as G.
  unfold ge_pow2 in G. apply Z.leb_le in G.
  set (l := ratio_exponent p q) in *.
  destruct (Z_lt_le_dec l n) as [|Hge]; [assumption|exfalso].
  rewrite (Z.max_r 0 l), (Z.max_l 0 (- l)) in G by lia.
  assert (2 ^ n <= 2 ^ l) by (apply Z.pow_le_mono_r; lia).
  nia.
Qed.

(** Within the range of prices the nearest binary64 number is closer to
    the decimal than half a thousandth: for [1/1000 <= p/q < 2^43] the
    result [m * 2^e] has [e < 0] and [|m * 2^e - p/q| < 1/2000]. *)
Lemma float_of_ratio_near s p q :
  0 < p -> 0 < q -> q <= 1000 * p -> p < 2 ^ 43 * q ->
  exists m e,
    float_of_ratio s p q = S754_finite s m e /\ e < 0 /\
    2000 * Z.abs (Zpos m * q - p * 2 ^ (- e)) < q * 2 ^ (- e).
Proof.
  intros Hp Hq Hlo Hhi. unfold float_of_ratio.
  replace (p <=? 0) with false by (symmetry; apply Z.leb_gt; lia).
  pose proof (ratio_exponent_below p q 43 Hp Hq ltac:(lia) Hhi) as Hl.
  set (e := Z.max (ratio_exponent p q - 52) (-1074)).
  assert (He : e <= -10) by (unfold e; lia).
  unfold scaled_rne.
  rewrite (Z.max_r 0 (- e)), (Z.max_l 0 e), Z.pow_0_r, Z.mul_1_r by lia.
  pose proof (div_rne_error (p * 2 ^ (- e)) q Hq) as Herr.
  set (m := div_rne (p * 2 ^ (- e)) q) in *.
  assert (Hpow : 2 ^ 10 <= 2 ^ (- e)) by (apply Z.pow_le_mono_r; lia).
  change (2 ^ 10) with 1024 in Hpow.
  assert (Hm : 0 < m) by nia.
  destruct (m =? 2 ^ 53) eqn:Em.
  - apply Z.eqb_eq in Em.
    assert (Hs : 2 ^ (- e) = 2 * 2 ^ (- (e + 1))).
    { replace (- e) with (Z.succ (- (e + 1))) by lia.
      apply Z.pow_succ_r. lia. }
    exists (Z.to_pos (2 ^ 52)), (e + 1).
    replace (e + 1 <=? emax - prec) with true
      by (symmetry; apply Z.leb_le; unfold emax, prec; lia).
    split; [reflexivity|]. split; [lia|].
    change (Z.pos (Z.to_pos (2 ^ 52))) with 4503599627370496.
    rewrite Em, Hs in Herr. rewrite Hs in Hpow.
    change (2 ^ 53) with 9007199254740992 in Herr.
    set (t := 2 ^ (- (e + 1))) in *. clearbody t.
    assert (512 * q <= q * t) by nia.
    replace (9007199254740992 * q - p * (2 * t))
      with (2 * (4503599627370496 * q - p * t)) in Herr by ring.
    lia.
  - destruct m as [|m'|m']; try lia.
    exists m', e.
    replace (e <=? emax - prec) with true
      by (symmetry; apply Z.leb_le; unfold emax, prec; lia).
    split; [reflexivity|]. split; [lia|].
    set (t := 2 ^ (- e)) in *. clearbody t.
    assert (1024 * q <= q * t) by nia.
    lia.
Qed.

End Rounding.

(** ** The precision validator on decimal prices *)

Section ValidatorOnDecimals.

(** A value [p / q] that is [k] thousandths, below [2^43]: the validator
    judges its float by the last digit of [k]. *)
Lemma validate_thousandths s p q k :
  0 <= p -> 0 < q -> 1000 * p = k * q -> k < 1000 * 2 ^ 43 ->
  validate_float_precision (float_of_ratio s p q) default_max_decimals
  = verdict (float_of_ratio s p q) default_max_decimals (k mod 10).
Proof.
  intros Hp Hq Hk Hhi. unfold default_max_decimals.
  destruct (Z.eq_dec p 0) as [->|Hp0].
  - assert (k = 0) by nia. subst k.
    change (float_of_ratio s 0 q) with (S754_zero s).
    rewrite validate_zero by lia. reflexivity.
  - assert (Hk1 : 1 <= k) by nia.
    destruct (float_of_ratio_near s p q) as (m & e & Hx & He & Herr);
      try nia.
    rewrite Hx, validate_finite by lia. f_equal. f_equal.
    unfold scaled_digits, scaled_rne.
    change (Z.to_nat (2 + 1)) with 3%nat.
    change (10 ^ Z.of_nat 3) with 1000.
    rewrite (Z.max_l 0 (- - e)), (Z.max_r 0 (- e)), Z.pow_0_r by lia.
    rewrite Z.mul_1_r, Z.mul_1_l.
    set (t := 2 ^ (- e)) in *.
    assert (Ht : 0 < t) by (apply Z.pow_pos_nonneg; lia).
    clearbody t.
    apply div_rne_unique; [exact Ht|].
    apply Z.mul_lt_mono_pos_r with (p := q); [exact Hq|].
    replace (2 * Z.abs (Z.pos m * 1000 - k * t) * q)
      with (2000 * Z.abs (Z.pos m * q - p * t)); [lia|].
    rewrite <- (Z.abs_eq q) at 2 by lia.
    rewrite <- Z.mul_assoc, <- Z.abs_mul.
    replace ((Z.pos m * 1000 - k * t) * q)
      with (1000 * (Z.pos m * q - p * t)) by nia.
    rewrite Z.abs_mul. simpl (Z.abs 1000). ring.
Qed.

Lemma validate_decimal s n e10 k :
  0 <= n ->
  1000 * (n * 10 ^ Z.max 0 e10) = k * 10 ^ Z.max 0 (- e10) ->
  k < 1000 * 2 ^ 43 ->
  validate_float_precision (float_of_decimal s n e10) default_max_decimals
  = verdict (float_of_decimal s n e10) default_max_decimals (k mod 10).
Proof.
  intros Hn Hk Hhi. unfold float_of_decimal.
  destruct (0 <=? e10) eqn:E.
  - apply Z.leb_le in E.
    rewrite (Z.max_r 0 e10), (Z.max_l 0 (- e10)), Z.pow_0_r in Hk by lia.
    assert (0 <= 10 ^ e10) by (apply Z.pow_nonneg; lia).
    apply validate_thousandths; nia.
  - apply Z.leb_gt in E.
    rewrite (Z.max_l 0 e10), (Z.max_r 0 (- e10)), Z.pow_0_r in Hk by lia.
    assert (0 < 10 ^ (- e10)) by (apply Z.pow_pos_nonneg; lia).
    apply validate_thousandths; lia.
Qed.

End ValidatorOnDecimals.

(** C1, as stated, fails in both directions.  [8796093022208.03] has two
    fractional digits and is rejected: the nearest binary64 number is
    [8796093022208.029296875], printed to three places as [...029].
    [19.9996] has a third significant fractional digit and is accepted:
    it is printed to three places as [20.000]. *)
Lemma validate_float_precision_counterexample :
  (exists x,
      py_float (Some "8796093022208.03") = Ok x /\
      format_f x 3 = "8796093022208.029" /\
      validate_float_precision x default_max_decimals
      = Raise (ValueError (ExceedsDecimalPlaces x default_max_decimals)))
  /\ (exists y,
         py_float (Some "19.9996") = Ok y /\
         format_f y 3 = "20.000" /\
         validate_float_precision y default_max_decimals = Ok true).
Proof.
  split; eexists; (split; [vm_compute; reflexivity|]);
    split; vm_compute; reflexivity.
Qed.

(** C1, amended: for every decimal value [v = n * 10^e10] (either sign)
    that has at most three fractional digits, [1000 * v = k], and is below
    [2^43] in magnitude, [validate_float_precision] with the default limit
    accepts the float of [v] when the third fractional digit of [v] is zero
    (at most 2 significant fractional digits) and raises its precision
    error when it is not.  The prices [19.99] and [19.990] are accepted
    and [19.999] is rejected. *)
Theorem validate_float_precision_decimal :
  (forall (s : bool) (n e10 k : Z),
      0 <= n ->
      1000 * (n * 10 ^ Z.max 0 e10) = k * 10 ^ Z.max 0 (- e10) ->
      k < 1000 * 2 ^ 43 ->
      validate_float_precision (float_of_decimal s n e10) default_max_decimals
      = if k mod 10 =? 0 then Ok true
        else Raise (ValueError (ExceedsDecimalPlaces
                                  (float_of_decimal s n e10)
                                  default_max_decimals)))
  /\ price_verdict "19.99" = Ok true
  /\ price_verdict "19.990" = Ok true
  /\ (exists x, price_verdict "19.999"
                = Raise (ValueError (ExceedsDecimalPlaces x default_max_decimals))).
Proof.
  split; [exact validate_decimal|].
  split; [vm_compute; reflexivity|].
  split; [vm_compute; reflexivity|].
  eexists. vm_compute. reflexivity.
Qed.

Lemma validate_float_precision_decimal_witness :
  PyFloat.of_string "19.99" = Some (float_of_decimal false 1999 (-2))
  /\ validate_float_precision (float_of_decimal false 1999 (-2))
       default_max_decimals = Ok true
  /\ validate_float_precision (float_of_decimal true 19999 (-3))
       default_max_decimals
     = Raise (ValueError (ExceedsDecimalPlaces
                            (float_of_decimal true 19999 (-3))
                            default_max_decimals)).
Proof.
  split; [vm_compute; reflexivity|]. split.
  - apply (proj1 validate_float_precision_decimal false 1999 (-2) 19990);
      [lia | reflexivity | reflexivity].
  - apply (proj1 validate_float_precision_decimal true 19999 (-3) 19999);
      [lia | reflexivity | reflexivity].
Defined.

(** ** Results and comprehensions *)

Lemma bind_ok {A B : Type} (c : res A) (k : A -> res B) b :
  bind c k = Ok b -> exists a, c = Ok a /\ k a = Ok b.
Proof. destruct c as [a|e]; simpl; [eauto | discriminate]. Qed.

Section Results.
Context {A B : Type}.

Lemma map_res_ok (f : A -> res B) l bs :
  map_res f l = Ok bs <-> Forall2 (fun a b => f a = Ok b) l bs.
Proof.
  revert bs. induction l as [|a l IH]; intros bs; simpl.
  - split; intros H; [injection H as <-; constructor | inversion H; reflexivity].
  - split.
    + intros H. apply bind_ok in H as (b & Hb & H).
      apply bind_ok in H as (bs' & Hbs & H). injection H as <-.
      constructor; [exact Hb | now apply IH].
    + intros H. inversion H as [|a' b l' bs' Hb Hbs]; subst.
      rewrite Hb. simpl. apply IH in Hbs. rewrite Hbs. reflexivity.
Qed.

Lemma map_res_length (f : A -> res B) l bs :
  map_res f l = Ok bs -> List.length bs = List.length l.
Proof.
  intros H. apply map_res_ok in H. symmetry.
  induction H; simpl; congruence.
Qed.

Lemma map_res_raise (f : A -> res B) l a e :
  In a l -> f a = Raise e -> exists e', map_res f l = Raise e'.
Proof.
  induction l as [|x l IH]; simpl; [contradiction|].
  intros [->|Hin] Ha.
  - rewrite Ha. simpl. eauto.
  - destruct (f x) as [b|e0]; simpl; [|eauto].
    destruct (IH Hin Ha) as (e' & ->). simpl. eauto.
Qed.

Lemma map_res_total (f : A -> res B) l :
  (forall a, In a l -> exists b, f a = Ok b) -> exists bs, map_res f l = Ok bs.
Proof.
  induction l as [|x l IH]; simpl; intros H; [eauto|].
  destruct (H x (or_introl eq_refl)) as (b & ->).
  destruct IH as (bs & ->); [intros a Ha; apply H; now right|].
  simpl. eauto.
Qed.

End Results.

(** ** Dictionaries *)

Section DictFacts.
Context {K V : Type}.
Variable eq_dec : forall a b : K, {a = b} + {a <> b}.

Local Abbreviation dset := (PyDict.set eq_dec).
Local Abbreviation dget := (PyDict.get eq_dec).

Lemma get_set_same (d : PyDict.t) k (v : V) : dget (dset d k v) k = Some v.
Proof.
  induction d as [|[k' v'] d IH]; simpl.
  - destruct (eq_dec k k); congruence.
  - destruct (eq_dec k k') as [->|N]; simpl.
    + destruct (eq_dec k' k'); congruence.
    + destruct (eq_dec k k'); [contradiction | exact IH].
Qed.

Lemma get_set_other (d : PyDict.t) k k' (v : V) :
  k <> k' -> dget (dset d k' v) k = dget d k.
Proof.
  intros N. induction d as [|[k0 v0] d IH]; simpl.
  - destruct (eq_dec k k'); [contradiction | reflexivity].
  - destruct (eq_dec k' k0) as [->|N0]; simpl.
    + destruct (eq_dec k k0); [contradiction | reflexivity].
    + destruct (eq_dec k k0); [reflexivity | exact IH].
Qed.

Lemma keys_set (d : PyDict.t) k (v : V) k0 :
  In k0 (PyDict.keys (dset d k v)) <-> k0 = k \/ In k0 (PyDict.keys d).
Proof.
  induction d as [|[k' v'] d IH]; simpl.
  - intuition congruence.
  - destruct (eq_dec k k') as [->|N]; simpl.
    + intuition congruence.
    + rewrite IH. intuition congruence.
Qed.

Lemma keys_set_nodup (d : PyDict.t) k (v : V) :
  NoDup (PyDict.keys d) -> NoDup (PyDict.keys (dset d k v)).
Proof.
  induction d as [|[k' v'] d IH]; simpl; intros H.
  - constructor; [intros [] | constructor].
  - inversion H as [|? ? Hn Hd]; subst.
    destruct (eq_dec k k') as [->|N]; simpl.
    + constructor; assumption.
    + constructor; [|now apply IH].
      intros Hin. apply keys_set in Hin as [->|Hin]; [congruence|].
      now apply Hn.
Qed.

Lemma values_set (d : PyDict.t) k (v v0 : V) :
  In v0 (PyDict.values (dset d k v)) -> v0 = v \/ In v0 (PyDict.values d).
Proof.
  induction d as [|[k' v'] d IH]; simpl.
  - intuition.
  - destruct (eq_dec k k') as [->|N]; simpl; intuition.
Qed.

Lemma get_some_in_keys (d : PyDict.t (V := V)) k v :
  dget d k = Some v -> In k (PyDict.keys d).
Proof.
  induction d as [|[k' v'] d IH]; simpl; [discriminate|].
  destruct (eq_dec k k') as [->|N]; auto.
Qed.

Lemma nodup_count_one (l : list K) k :
  NoDup l -> In k l -> count_occ eq_dec l k = 1%nat.
Proof.
  intros Hn Hin. apply (proj1 (NoDup_count_occ eq_dec l)) with (x := k) in Hn.
  apply (count_occ_In eq_dec) in Hin. lia.
Qed.

End DictFacts.

(** ** The loader *)

Section Loader.

(** The loop returns the mapping of all the rows or nothing. *)
Lemma load_rows_result rows row_num menu_items :
  snd (load_rows rows row_num menu_items)
  = match build_all rows with
    | Ok built => Some (store_all built menu_items)
    | Raise _ => None
    end.
Proof.
  revert row_num menu_items.
  induction rows as [|row rows IH]; intros row_num menu_items; simpl.
  - reflexivity.
  - unfold build_all in *. simpl.
    destruct (build_item row) as [[key it]|e]; simpl.
    + rewrite IH. destruct (map_res build_item rows); reflexivity.
    + destruct (is_data_error e); reflexivity.
Qed.

Lemma load_result records :
  snd (load_data_from_csv (Content records))
  = match build_all (DictReader_rows records) with
    | Ok built => Some (store_all built PyDict.empty)
    | Raise _ => None
    end.
Proof. apply load_rows_result. Qed.

Lemma load_some records menu_items :
  snd (load_data_from_csv (Content records)) = Some menu_items ->
  exists built,
    Forall2 (fun row kv => build_item row = Ok kv)
      (DictReader_rows records) built
    /\ menu_items = store_all built PyDict.empty.
Proof.
  rewrite load_result.
  destruct (build_all (DictReader_rows records)) as [built|e] eqn:E;
    [|discriminate].
  intros H. injection H as <-. exists built.
  split; [now apply map_res_ok | reflexivity].
Qed.

Lemma load_none records row e :
  In row (DictReader_rows records) -> build_item row = Raise e ->
  snd (load_data_from_csv (Content records)) = None.
Proof.
  intros Hin Hrow. rewrite load_result. unfold build_all.
  destruct (map_res_raise build_item _ row e Hin Hrow) as (e' & ->).
  reflexivity.
Qed.

(** The key a row is stored under is its [item] cell. *)
Lemma build_item_key row key it :
  build_item row = Ok (key, it) -> getitem row "item" = Ok key.
Proof.
  unfold build_item. intros H.
  repeat (apply bind_ok in H as (? & ? & H)).
  injection H as <- <-. assumption.
Qed.

Lemma store_all_app built1 built2 (d : menu) :
  store_all (built1 ++ built2) d = store_all built2 (store_all built1 d).
Proof. apply fold_left_app. Qed.

Lemma store_all_nodup built (d : menu) :
  NoDup (PyDict.keys d) -> NoDup (PyDict.keys (store_all built d)).
Proof.
  revert d. induction built as [|[k v] built IH]; intros d H; simpl.
  - exact H.
  - apply IH. now apply keys_set_nodup.
Qed.

(** Later items stored under other keys leave an entry as it is. *)
Lemma store_all_get_other built (d : menu) key :
  Forall (fun kv => fst kv <> key) built ->
  PyDict.get opt_string_dec (store_all built d) key
  = PyDict.get opt_string_dec d key.
Proof.
  revert d. induction built as [|[k v] built IH]; intros d H; simpl.
  - reflexivity.
  - inversion H as [|? ? Hk Hrest]; subst. simpl in Hk.
    rewrite IH by assumption. apply get_set_other. congruence.
Qed.

(** Every stored value is an initial one or one of the built items. *)
Lemma store_all_values built (d : menu) it :
  In it (PyDict.values (store_all built d)) ->
  In it (PyDict.values d) \/ exists key, In (key, it) built.
Proof.
  revert d. induction built as [|[k v] built IH]; intros d H; simpl in *.
  - now left.
  - apply IH in H as [H|(key & H)].
    + apply values_set in H as [->|H]; [right; eauto | now left].
    + right. eauto.
Qed.

Lemma built_from_row rows built kv :
  Forall2 (fun row kv => build_item row = Ok kv) rows built ->
  In kv built -> exists row, In row rows /\ build_item row = Ok kv.
Proof.
  induction 1 as [|row kv' rows built Hrow _ IH]; simpl; [contradiction|].
  intros [->|Hin].
  - exists row. auto.
  - destruct (IH Hin) as (r & Hr & Hb). exists r. auto.
Qed.

Lemma built_split rows1 row rows2 built :
  Forall2 (fun row kv => build_item row = Ok kv) (rows1 ++ row :: rows2) built ->
  exists built1 kv built2,
    built = built1 ++ kv :: built2 /\ build_item row = Ok kv
    /\ Forall2 (fun row kv => build_item row = Ok kv) rows2 built2.
Proof.
  intros H. apply Forall2_app_inv_l in H as (built1 & rest & _ & H & ->).
  inversion H as [|? kv ? built2 Hrow Hrest]; subst.
  exists built1, kv, built2. auto.
Qed.

End Loader.

(** ** The constructor *)

Section Constructor.

Lemma split_method_ok text sep tokens :
  split_method text sep = Ok tokens ->
  exists s, text = Some s /\ tokens = PyStr.split sep s.
Proof.
  destruct text as [s|]; simpl; [|discriminate].
  intros H. injection H as <-. eauto.
Qed.

(** What a successful construction went through. *)
Lemma MenuItem_init_ok name cost label ratings_field sales_field it :
  MenuItem_init name cost label ratings_field sales_field = Ok it ->
  exists ratings_text sales_text,
    ratings_field = Some ratings_text /\ sales_field = Some sales_text
    /\ map_res (fun r => py_float (Some r)) (PyStr.split "," ratings_text)
       = Ok (ratings it)
    /\ List.length (PyStr.split "," sales_text) = 7%nat
    /\ sales_comprehension (combine days_of_week (PyStr.split "," sales_text))
         PyDict.empty = Ok (sales_per_day it)
    /\ item it = name /\ price it = cost /\ category it = label.
Proof.
  unfold MenuItem_init. intros H.
  apply bind_ok in H as (tokens & Ht & H).
  apply split_method_ok in Ht as (rt & -> & ->).
  apply bind_ok in H as (parsed & Hp & H).
  destruct parsed as [|r0 parsed]; [discriminate|].
  apply bind_ok in H as (sv & Hs & H).
  apply split_method_ok in Hs as (st & -> & ->).
  destruct (Nat.eqb (List.length (PyStr.split "," st)) 7) eqn:E;
    simpl in H; [|discriminate].
  apply Nat.eqb_eq in E.
  apply bind_ok in H as (sales & Hsales & H).
  injection H as <-. simpl.
  exists rt, st. repeat split; assumption.
Qed.

Lemma parsed_ratings_not_nil text parsed :
  map_res (fun r => py_float (Some r)) (PyStr.split "," text) = Ok parsed ->
  parsed <> [].
Proof.
  intros H Hnil. apply map_res_length in H. subst parsed.
  symmetry in H. apply length_zero_iff_nil in H.
  now apply split_not_nil in H.
Qed.

(** The comprehension stores the parsed integers in the order of the
    pairs. *)
Lemma sales_comprehension_ok pairs acc d :
  sales_comprehension pairs acc = Ok d ->
  exists values,
    map_res py_int (map snd pairs) = Ok values
    /\ d = fold_left (fun d kv => PyDict.set string_dec d (fst kv) (snd kv))
             (combine (map fst pairs) values) acc.
Proof.
  revert acc. induction pairs as [|[day sales] pairs IH]; intros acc H; simpl in *.
  - injection H as <-. exists []. auto.
  - apply bind_ok in H as (v & Hv & H).
    apply IH in H as (values & Hvs & ->).
    exists (v :: values). rewrite Hv, Hvs. simpl. auto.
Qed.

Lemma py_int_raise text e :
  py_int text = Raise e ->
  e = ValueError (InvalidLiteralForInt text)
  \/ exists digits, e = ValueError (ExceedsIntMaxStrDigits digits).
Proof.
  unfold py_int.
  destruct (PyStr.take_sign _) as [neg body].
  destruct (PyStr.scan_numeral None body) as [[[|c ds] rest]|];
    [intros H; left; congruence| |intros H; left; congruence].
  destruct (int_max_str_digits <? List.length (c :: ds))%nat;
    [intros H; right; injection H as <-; eauto|].
  destruct rest; [discriminate | intros H; left; congruence].
Qed.

Lemma sales_comprehension_raise pairs acc e :
  sales_comprehension pairs acc = Raise e ->
  (exists text, e = ValueError (InvalidLiteralForInt text))
  \/ exists digits, e = ValueError (ExceedsIntMaxStrDigits digits).
Proof.
  revert acc. induction pairs as [|[day sales] pairs IH]; intros acc H;
    simpl in H; [discriminate|].
  destruct (py_int sales) as [v|e0] eqn:Ev; simpl in H.
  - eapply IH, H.
  - injection H as <-. apply py_int_raise in Ev as [->|Ev]; eauto.
Qed.

Lemma ratings_raise tokens e :
  map_res (fun r => py_float (Some r)) tokens = Raise e ->
  exists text, e = ValueError (CouldNotConvertToFloat text).
Proof.
  induction tokens as [|t tokens IH]; simpl; [discriminate|].
  destruct (PyFloat.of_string t) as [x|]; simpl.
  - destruct (map_res _ tokens) as [xs|e0]; simpl; [discriminate|].
    intros H. injection H as <-. now apply IH.
  - intros H. injection H as <-. eauto.
Qed.

Lemma week_of_seven (tokens : list string) :
  List.length tokens = 7%nat ->
  map snd (combine days_of_week tokens) = tokens
  /\ map fst (combine days_of_week tokens) = days_of_week.
Proof.
  intros H.
  do 7 (destruct tokens as [|? tokens]; [discriminate|]).
  destruct tokens; [|discriminate]. split; reflexivity.
Qed.

Lemma week_dict (values : list Z) :
  List.length values = 7%nat ->
  fold_left (fun d kv => PyDict.set string_dec d (fst kv) (snd kv))
    (combine days_of_week values) PyDict.empty
  = combine days_of_week values.
Proof.
  intros H.
  do 7 (destruct values as [|? values]; [discriminate|]).
  destruct values; [|discriminate]. reflexivity.
Qed.

Lemma sales_of_constructed name cost label ratings_field sales_text it :
  MenuItem_init name cost label ratings_field (Some sales_text) = Ok it ->
  exists values,
    List.length (PyStr.split "," sales_text) = 7%nat
    /\ map_res py_int (PyStr.split "," sales_text) = Ok values
    /\ sales_per_day it = combine days_of_week values.
Proof.
  intros H.
  apply MenuItem_init_ok in H
    as (rt & st & _ & Hst & _ & Hlen & Hsales & _).
  injection Hst as <-.
  apply sales_comprehension_ok in Hsales as (values & Hvs & Hd).
  destruct (week_of_seven _ Hlen) as [Hsnd Hfst].
  rewrite Hsnd in Hvs. rewrite Hfst in Hd.
  exists values. repeat split; try assumption.
  rewrite Hd. apply week_dict.
  apply map_res_length in Hvs. congruence.
Qed.

End Constructor.

(** C6, as stated, fails: with six sales tokens the constructor does not
    reach the count of the sales field when the ratings field, which it
    reads first, does not parse.  A ratings token [x] gives the error of
    [float], and a ratings field that is [None] an [AttributeError];
    neither names the expected count. *)
Lemma sales_count_error_counterexample :
  List.length (PyStr.split "," "1,2,3,4,5,6") = 6%nat
  /\ MenuItem_init (Some "Soup") lit_4_5 (Some "Starter") (Some "4.5,x")
       (Some "1,2,3,4,5,6")
     = Raise (ValueError (CouldNotConvertToFloat "x"))
  /\ MenuItem_init (Some "Soup") lit_4_5 (Some "Starter") None
       (Some "1,2,3,4,5,6")
     = Raise AttributeError.
Proof. split; [|split]; vm_compute; reflexivity. Qed.

(** C6, amended: the constructor splits the sales field on commas and
    returns a [MenuItem] only when that gives exactly 7 tokens that all
    parse as integers, stored under Mon, Tue, Wed, Thu, Fri, Sat, Sun in
    that order.  With any other number of tokens no [MenuItem] is
    returned, and the error raised is the one that asks for exactly 7
    values whenever the ratings field parsed.  The ratings field is read
    first: when it is [None] the constructor raises [AttributeError], and
    when one of its tokens does not parse it raises the error of that
    token, whatever the sales field holds. *)
Theorem sales_field_needs_seven_integers
  (name : option string) (cost : float) (label ratings_field : option string)
  (sales_text : string) :
  (forall it,
      MenuItem_init name cost label ratings_field (Some sales_text) = Ok it ->
      exists values,
        List.length (PyStr.split "," sales_text) = 7%nat
        /\ map_res py_int (PyStr.split "," sales_text) = Ok values
        /\ sales_per_day it = combine days_of_week values)
  /\ (List.length (PyStr.split "," sales_text) <> 7%nat ->
      (forall it,
          MenuItem_init name cost label ratings_field (Some sales_text) <> Ok it)
      /\ (forall ratings_text parsed,
             ratings_field = Some ratings_text ->
             map_res (fun r => py_float (Some r)) (PyStr.split "," ratings_text)
             = Ok parsed ->
             MenuItem_init name cost label ratings_field (Some sales_text)
             = Raise (ValueError (SalesMustHaveSeven name))))
  /\ (ratings_field = None ->
      MenuItem_init name cost label ratings_field (Some sales_text)
      = Raise AttributeError)
  /\ (forall ratings_text e,
         ratings_field = Some ratings_text ->
         map_res (fun r => py_float (Some r)) (PyStr.split "," ratings_text)
         = Raise e ->
         MenuItem_init name cost label ratings_field (Some sales_text)
         = Raise e).
Proof.
  split; [|split; [|split]].
  - intros it H. now apply sales_of_constructed in H.
  - intros Hlen. split.
    + intros it H. apply sales_of_constructed in H as (values & H7 & _).
      contradiction.
    + intros ratings_text parsed -> Hparsed.
      unfold MenuItem_init. cbn [split_method bind].
      rewrite Hparsed. cbn [bind].
      destruct parsed as [|r0 parsed].
      * now apply parsed_ratings_not_nil in Hparsed.
      * apply Nat.eqb_neq in Hlen. rewrite Hlen. reflexivity.
  - intros ->. reflexivity.
  - intros ratings_text e -> Hraise.
    unfold MenuItem_init. cbn [split_method bind].
    rewrite Hraise. reflexivity.
Qed.

Lemma sales_field_needs_seven_integers_witness :
  (exists it,
      MenuItem_init (Some "Soup") lit_4_5 (Some "Starter") (Some "4.5,4.0")
        (Some "1,2,3,4,5,6,7") = Ok it
      /\ sales_per_day it
         = [("Mon", 1); ("Tue", 2); ("Wed", 3); ("Thu", 4); ("Fri", 5);
            ("Sat", 6); ("Sun", 7)])
  /\ MenuItem_init (Some "Soup") lit_4_5 (Some "Starter") (Some "4.5,4.0")
       (Some "1,2,3,4,5,6") = Raise (ValueError (SalesMustHaveSeven (Some "Soup")))
  /\ MenuItem_init (Some "Soup") lit_4_5 (Some "Starter") (Some "4.5,4.0")
       (Some "1,2,3,4,5,6,7,8") = Raise (ValueError (SalesMustHaveSeven (Some "Soup")))
  /\ MenuItem_init (Some "Soup") lit_4_5 (Some "Starter") (Some "4.5,x")
       (Some "1,2,3,4,5,6,7,8")
     = Raise (ValueError (CouldNotConvertToFloat "x")).
Proof.
  split; [|split; [|split]].
  - eexists. split; [vm_compute; reflexivity|].
    destruct (proj1 (sales_field_needs_seven_integers (Some "Soup") lit_4_5
                       (Some "Starter") (Some "4.5,4.0") "1,2,3,4,5,6,7") _ eq_refl)
      as (values & _ & Hvalues & Hsales).
    vm_compute in Hvalues. injection Hvalues as <-. exact Hsales.
  - apply (proj2 (proj1 (proj2 (sales_field_needs_seven_integers
                                  (Some "Soup") lit_4_5 (Some "Starter")
                                  (Some "4.5,4.0") "1,2,3,4,5,6"))
                    ltac:(vm_compute; discriminate))
             "4.5,4.0"
             [lit_4_5; S754_finite false 4503599627370496 (-50)]);
      [reflexivity | vm_compute; reflexivity].
  - apply (proj2 (proj1 (proj2 (sales_field_needs_seven_integers
                                  (Some "Soup") lit_4_5 (Some "Starter")
                                  (Some "4.5,4.0") "1,2,3,4,5,6,7,8"))
                    ltac:(vm_compute; discriminate))
             "4.5,4.0"
             [lit_4_5; S754_finite false 4503599627370496 (-50)]);
      [reflexivity | vm_compute; reflexivity].
  - apply (proj2 (proj2 (proj2 (sales_field_needs_seven_integers
                                  (Some "Soup") lit_4_5 (Some "Starter")
                                  (Some "4.5,x") "1,2,3,4,5,6,7,8")))
             "4.5,x" (ValueError (CouldNotConvertToFloat "x")));
      [reflexivity | vm_compute; reflexivity].
Defined.

(** ** Derived metrics *)


Section MetricFacts.

Variable py_sum : list float -> float.

(** The guard of [average_rating] keeps the division from a zero
    length: the method returns for every item. *)
Lemma average_rating_returns (it : MenuItem) :
  exists avg, average_rating py_sum it = Ok avg.
Proof.
  unfold average_rating. destruct (ratings it); simpl; eauto.
Qed.

Lemma average_rating_nonempty (it : MenuItem) :
  ratings it <> [] ->
  average_rating py_sum it
  = Ok (fdiv (py_sum (ratings it)) (float_of_len (List.length (ratings it)))).
Proof.
  unfold average_rating. destruct (ratings it); [congruence | reflexivity].
Qed.

Lemma constructed_ratings name cost label ratings_field sales_field it :
  MenuItem_init name cost label ratings_field sales_field = Ok it ->
  ratings it <> [].
Proof.
  intros H. apply MenuItem_init_ok in H as (rt & st & _ & _ & Hr & _).
  now apply parsed_ratings_not_nil in Hr.
Qed.

End MetricFacts.

(** C10: every [MenuItem] the constructor returns has at least one rating,
    so [average_rating] divides the sum by a positive length and does not
    take its zero-ratings branch; the method never divides by zero; the
    constructor never raises its ratings-cannot-be-empty error; and an
    empty ratings field fails as the single token [""] that does not parse
    as a number. *)
Theorem constructed_items_have_ratings
  (py_sum : list float -> float)
  (name : option string) (cost : float)
  (label ratings_field sales_field : option string) :
  (forall it,
      MenuItem_init name cost label ratings_field sales_field = Ok it ->
      (0 < List.length (ratings it))%nat
      /\ average_rating py_sum it
         = Ok (fdiv (py_sum (ratings it))
                 (float_of_len (List.length (ratings it)))))
  /\ (forall it : MenuItem, average_rating py_sum it <> Raise ZeroDivisionError)
  /\ MenuItem_init name cost label ratings_field sales_field
     <> Raise (ValueError (RatingsCannotBeEmpty name))
  /\ MenuItem_init name cost label (Some "") sales_field
     = Raise (ValueError (CouldNotConvertToFloat "")).
Proof.
  split; [|split; [|split]].
  - intros it H. pose proof (constructed_ratings _ _ _ _ _ _ H) as Hne.
    split; [|now apply average_rating_nonempty].
    destruct (ratings it); [congruence | simpl; lia].
  - intros it H. destruct (average_rating_returns py_sum it) as (avg & E).
    congruence.
  - unfold MenuItem_init.
    destruct ratings_field as [rt|]; cbn [split_method bind]; [|discriminate].
    destruct (map_res (fun r => py_float (Some r)) (PyStr.split "," rt))
      as [parsed|e] eqn:Ep; cbn [bind].
    + destruct parsed as [|r0 parsed];
        [now apply parsed_ratings_not_nil in Ep|].
      destruct sales_field as [st|]; cbn [split_method bind]; [|discriminate].
      destruct (negb (Nat.eqb (List.length (PyStr.split "," st)) 7));
        [discriminate|].
      destruct (sales_comprehension _ _) as [d|e] eqn:Es; cbn [bind];
        [discriminate|].
      apply sales_comprehension_raise in Es as [(t & ->)|(t & ->)];
        discriminate.
    + apply ratings_raise in Ep as (t & ->). discriminate.
  - reflexivity.
Qed.



(** ** The classification passes *)

Section ClassificationFacts.

Variable py_sum : list float -> float.

Lemma average_rating_rating_of it :
  average_rating py_sum it = Ok (rating_of py_sum it).
Proof.
  unfold rating_of.
  destruct (average_rating_returns py_sum it) as (avg & ->). reflexivity.
Qed.

Lemma underrated_rows_filter items rows :
  underrated_rows py_sum items rows
  = Ok (rows ++ report_rows py_sum (filter (underrated py_sum) items)).
Proof.
  revert rows. induction items as [|it items IH]; intros rows; simpl.
  - now rewrite app_nil_r.
  - rewrite average_rating_rating_of. cbn [bind]. unfold underrated at 1.
    destruct (fge (rating_of py_sum it) lit_4_5 && (total_sales it <? 50)).
    + rewrite IH, <- app_assoc. reflexivity.
    + apply IH.
Qed.

Lemma unprofitable_rows_filter items rows :
  unprofitable_rows py_sum items rows
  = Ok (rows ++ report_rows py_sum (filter (unprofitable py_sum) items)).
Proof.
  revert rows. induction items as [|it items IH]; intros rows; simpl.
  - now rewrite app_nil_r.
  - rewrite average_rating_rating_of. cbn [bind]. unfold unprofitable at 1.
    destruct (flt (rating_of py_sum it) lit_3_5 && (total_sales it <? 30)).
    + rewrite IH, <- app_assoc. reflexivity.
    + apply IH.
Qed.

Lemma rating_of_ok it avg :
  average_rating py_sum it = Ok avg -> rating_of py_sum it = avg.
Proof. unfold rating_of. now intros ->. Qed.

End ClassificationFacts.

(** C3: in every mapping of items the underrated set, the rows
    [identify_underrated_items] collects, is made of exactly the items with
    [average_rating >= 4.5] and [total_sales < 50], in the mapping's order;
    when no item qualifies the function prints that none was found and
    returns normally. *)
Theorem underrated_set_is_the_threshold_rule
  (py_sum : list float -> float) (menu_items : menu) :
  (forall it,
      In it (underrated_set py_sum menu_items)
      <-> In it (PyDict.values menu_items)
          /\ exists avg, average_rating py_sum it = Ok avg
                         /\ fge avg lit_4_5 = true /\ total_sales it < 50)
  /\ underrated_rows py_sum (PyDict.values menu_items) []
     = Ok (report_rows py_sum (underrated_set py_sum menu_items))
  /\ identify_underrated_items py_sum menu_items
     = ([Heading "Identification of Underrated Items:";
         match report_rows py_sum (underrated_set py_sum menu_items) with
         | [] => NoUnderratedItems
         | rows => Table report_headers rows
         end], Ok tt)
  /\ (underrated_set py_sum menu_items = [] ->
      identify_underrated_items py_sum menu_items
      = ([Heading "Identification of Underrated Items:"; NoUnderratedItems],
         Ok tt)).
Proof.
  assert (Hrows : underrated_rows py_sum (PyDict.values menu_items) []
                  = Ok (report_rows py_sum (underrated_set py_sum menu_items)))
    by apply underrated_rows_filter.
  assert (Hid : identify_underrated_items py_sum menu_items
     = ([Heading "Identification of Underrated Items:";
         match report_rows py_sum (underrated_set py_sum menu_items) with
         | [] => NoUnderratedItems
         | rows => Table report_headers rows
         end], Ok tt)).
  { unfold identify_underrated_items. rewrite Hrows.
    destruct (report_rows py_sum (underrated_set py_sum menu_items));
      reflexivity. }
  split; [|split; [exact Hrows | split; [exact Hid|]]].
  - intros it. unfold underrated_set. rewrite filter_In. unfold underrated.
    rewrite andb_true_iff, Z.ltb_lt. split.
    + intros (Hin & Hge & Hlt). split; [exact Hin|].
      exists (rating_of py_sum it).
      split; [apply average_rating_rating_of | auto].
    + intros (Hin & avg & Havg & Hge & Hlt).
      rewrite (rating_of_ok py_sum it avg Havg). auto.
  - intros Hempty. rewrite Hid, Hempty. reflexivity.
Qed.

(** C4: in every mapping of items the unprofitable set, the rows
    [identify_unprofitable_items] collects, is made of exactly the items
    with [average_rating < 3.5] and [total_sales < 30], in the mapping's
    order; when no item qualifies the function prints that none was found
    and returns normally. *)
Theorem unprofitable_set_is_the_threshold_rule
  (py_sum : list float -> float) (menu_items : menu) :
  (forall it,
      In it (unprofitable_set py_sum menu_items)
      <-> In it (PyDict.values menu_items)
          /\ exists avg, average_rating py_sum it = Ok avg
                         /\ flt avg lit_3_5 = true /\ total_sales it < 30)
  /\ unprofitable_rows py_sum (PyDict.values menu_items) []
     = Ok (report_rows py_sum (unprofitable_set py_sum menu_items))
  /\ identify_unprofitable_items py_sum menu_items
     = ([Heading "Identification of Unprofitable Items:";
         match report_rows py_sum (unprofitable_set py_sum menu_items) with
         | [] => NoUnprofitableItems
         | rows => Table report_headers rows
         end], Ok tt)
  /\ (unprofitable_set py_sum menu_items = [] ->
      identify_unprofitable_items py_sum menu_items
      = ([Heading "Identification of Unprofitable Items:"; NoUnprofitableItems],
         Ok tt)).
Proof.
  assert (Hrows : unprofitable_rows py_sum (PyDict.values menu_items) []
                  = Ok (report_rows py_sum (unprofitable_set py_sum menu_items)))
    by apply unprofitable_rows_filter.
  assert (Hid : identify_unprofitable_items py_sum menu_items
     = ([Heading "Identification of Unprofitable Items:";
         match report_rows py_sum (unprofitable_set py_sum menu_items) with
         | [] => NoUnprofitableItems
         | rows => Table report_headers rows
         end], Ok tt)).
  { unfold identify_unprofitable_items. rewrite Hrows.
    destruct (report_rows py_sum (unprofitable_set py_sum menu_items));
      reflexivity. }
  split; [|split; [exact Hrows | split; [exact Hid|]]].
  - intros it. unfold unprofitable_set. rewrite filter_In. unfold unprofitable.
    rewrite andb_true_iff, Z.ltb_lt. split.
    + intros (Hin & Hge & Hlt). split; [exact Hin|].
      exists (rating_of py_sum it).
      split; [apply average_rating_rating_of | auto].
    + intros (Hin & avg & Havg & Hge & Hlt).
      rewrite (rating_of_ok py_sum it avg Havg). auto.
  - intros Hempty. rewrite Hid, Hempty. reflexivity.
Qed.

(** ** The load as a whole *)

Lemma validate_ok_true value max_decimals b :
  validate_float_precision value max_decimals = Ok b -> b = true.
Proof.
  unfold validate_float_precision.
  destruct (refused_precision (max_decimals + 1)); [discriminate|].
  destruct (PyStr.split "." _) as [|a [|f [|c rest]]]; try discriminate.
  destruct (max_decimals <? _); [discriminate|]. congruence.
Qed.

(** The price of a built item is the parsed price cell of its row, and it
    went through the validator before the constructor was called. *)
Lemma build_item_price row key it :
  build_item row = Ok (key, it) ->
  exists text,
    getitem row "price" = Ok (Some text)
    /\ py_float (Some text) = Ok (price it)
    /\ validate_float_precision (price it) default_max_decimals = Ok true.
Proof.
  unfold build_item. intros H.
  apply bind_ok in H as (price_text & Hcell & H).
  apply bind_ok in H as (cost & Hfloat & H).
  apply bind_ok in H as (valid & Hvalid & H).
  apply bind_ok in H as (name & _ & H).
  apply bind_ok in H as (label & _ & H).
  apply bind_ok in H as (ratings_field & _ & H).
  apply bind_ok in H as (sales_field & _ & H).
  apply bind_ok in H as (it' & Hinit & H).
  apply bind_ok in H as (key' & _ & H).
  injection H as <- <-.
  apply MenuItem_init_ok in Hinit as (_ & _ & _ & _ & _ & _ & _ & _ & Hp & _).
  destruct price_text as [text|]; [|discriminate].
  pose proof (validate_ok_true _ _ _ Hvalid) as ->.
  exists text. rewrite Hp. auto.
Qed.

Lemma build_item_price_fails row cell e :
  getitem row "price" = Ok cell ->
  (cost <- py_float cell ;;
   validate_float_precision cost default_max_decimals) = Raise e ->
  build_item row = Raise e.
Proof.
  intros Hcell Hfail. unfold build_item. rewrite Hcell. cbn [bind].
  destruct (py_float cell) as [cost|e0]; cbn [bind] in *;
    [|congruence].
  rewrite Hfail. reflexivity.
Qed.

(** C2: when any row of the source fails (its body raises, whatever the
    exception: price parse, precision, ratings parse, sales arity or
    another), the load returns [None]; a mapping is returned only when every
    row was built, and it is then the mapping of all the rows, stored in
    file order; and every row building is enough for a mapping to be
    returned. *)
Theorem load_is_all_or_nothing (records : list (list string)) :
  (forall row e,
      In row (DictReader_rows records) -> build_item row = Raise e ->
      snd (load_data_from_csv (Content records)) = None)
  /\ (forall menu_items,
         snd (load_data_from_csv (Content records)) = Some menu_items ->
         exists built,
           Forall2 (fun row kv => build_item row = Ok kv)
             (DictReader_rows records) built
           /\ menu_items = store_all built PyDict.empty)
  /\ ((forall row, In row (DictReader_rows records) ->
                   exists kv, build_item row = Ok kv) ->
      exists menu_items,
        snd (load_data_from_csv (Content records)) = Some menu_items).
Proof.
  split; [|split].
  - intros row e. apply load_none.
  - intros menu_items. apply load_some.
  - intros Hall. rewrite load_result. unfold build_all.
    destruct (map_res_total build_item _ Hall) as (built & ->). eauto.
Qed.

Lemma load_is_all_or_nothing_witness :
  snd (load_data_from_csv (Content records_with_bad_price)) = None
  /\ exists menu_items,
      snd (load_data_from_csv (Content sample_data)) = Some menu_items.
Proof.
  split.
  - apply (proj1 (load_is_all_or_nothing records_with_bad_price)
             (DictReader_row header_row stew_record)
             (ValueError (ExceedsDecimalPlaces
                            (float_of_decimal false 9999 (-3))
                            default_max_decimals))).
    + vm_compute. right. left. reflexivity.
    + vm_compute. reflexivity.
  - apply (proj2 (proj2 (load_is_all_or_nothing sample_data))).
    intros row Hin. vm_compute in Hin.
    repeat (destruct Hin as [<-|Hin]; [eexists; vm_compute; reflexivity|]).
    contradiction.
Defined.

(** C7: when every row parses, the mapping holds exactly one entry under
    the name of a row no later row repeats, and that entry is the item
    built from this row, whatever earlier rows carried the same name. *)
Theorem duplicate_name_last_row_wins
  (records : list (list string)) (menu_items : menu)
  (before : list csv_row) (row : csv_row) (after : list csv_row)
  (key : option string) (it : MenuItem) :
  snd (load_data_from_csv (Content records)) = Some menu_items ->
  DictReader_rows records = before ++ row :: after ->
  build_item row = Ok (key, it) ->
  (forall later, In later after -> getitem later "item" <> Ok key) ->
  PyDict.get opt_string_dec menu_items key = Some it
  /\ count_occ opt_string_dec (PyDict.keys menu_items) key = 1%nat.
Proof.
  intros Hload Hrows Hrow Hlater.
  apply load_some in Hload as (built & Hbuilt & ->).
  rewrite Hrows in Hbuilt.
  apply built_split in Hbuilt as (built1 & kv & built2 & -> & Hkv & Hafter).
  rewrite Hrow in Hkv. injection Hkv as <-.
  assert (Hother : Forall (fun kv => fst kv <> key) built2).
  { apply Forall_forall. intros [k v] Hin. simpl. intros ->.
    destruct (built_from_row _ _ _ Hafter Hin) as (later & Hl & Hb).
    apply build_item_key in Hb. now apply (Hlater later Hl). }
  assert (Hget : PyDict.get opt_string_dec
                   (store_all (built1 ++ (key, it) :: built2) PyDict.empty) key
                 = Some it).
  { rewrite store_all_app. simpl.
    rewrite store_all_get_other by exact Hother. apply get_set_same. }
  split; [exact Hget|].
  apply nodup_count_one.
  - apply store_all_nodup. constructor.
  - eapply get_some_in_keys, Hget.
Qed.

Lemma duplicate_name_last_row_wins_witness :
  exists menu_items it,
    snd (load_data_from_csv (Content records_with_duplicate)) = Some menu_items
    /\ build_item (DictReader_row header_row soup_again_record)
       = Ok (Some "Soup", it)
    /\ PyDict.keys menu_items = [Some "Soup"; Some "Cake"]
    /\ PyDict.get opt_string_dec menu_items (Some "Soup") = Some it
    /\ count_occ opt_string_dec (PyDict.keys menu_items) (Some "Soup") = 1%nat.
Proof.
  eexists. eexists.
  split; [vm_compute; reflexivity|].
  split; [vm_compute; reflexivity|].
  split; [vm_compute; reflexivity|].
  match goal with
  | |- PyDict.get _ ?m ?k = Some ?it /\ _ =>
      apply (duplicate_name_last_row_wins records_with_duplicate m
               [ DictReader_row header_row soup_record;
                 DictReader_row header_row cake_record ]
               (DictReader_row header_row soup_again_record) [] k it)
  end.
  - vm_compute. reflexivity.
  - vm_compute. reflexivity.
  - vm_compute. reflexivity.
  - intros later [].
Defined.

(** C8, as stated, fails: a row priced [-5.00] loads, with a negative
    price, and a row priced [19.9996] loads too. *)
Lemma loaded_price_counterexample :
  exists menu_items soup stew,
    snd (load_data_from_csv (Content records_with_odd_prices)) = Some menu_items
    /\ PyDict.get opt_string_dec menu_items (Some "Soup") = Some soup
    /\ PyFloat.of_string "-5.00" = Some (price soup)
    /\ flt (price soup) lit_0_0 = true
    /\ PyDict.get opt_string_dec menu_items (Some "Stew") = Some stew
    /\ PyFloat.of_string "19.9996" = Some (price stew).
Proof.
  do 3 eexists.
  split; [vm_compute; reflexivity|].
  split; [vm_compute; reflexivity|].
  split; [vm_compute; reflexivity|].
  split; [vm_compute; reflexivity|].
  split; vm_compute; reflexivity.
Qed.

(** C8, amended: every [MenuItem] of the mapping a successful load returns
    has as price the parsed price cell of a row of the source, a finite
    number that [validate_float_precision] accepted before the item was
    constructed; a row whose price cell does not parse or is not accepted
    makes the load return [None].  The sign of the price is not checked. *)
Theorem loaded_prices_passed_the_validator (records : list (list string)) :
  (forall menu_items it,
      snd (load_data_from_csv (Content records)) = Some menu_items ->
      In it (PyDict.values menu_items) ->
      exists row text,
        In row (DictReader_rows records)
        /\ getitem row "price" = Ok (Some text)
        /\ py_float (Some text) = Ok (price it)
        /\ validate_float_precision (price it) default_max_decimals = Ok true
        /\ is_finite (price it) = true)
  /\ (forall row cell e,
         In row (DictReader_rows records) ->
         getitem row "price" = Ok cell ->
         (cost <- py_float cell ;;
          validate_float_precision cost default_max_decimals) = Raise e ->
         snd (load_data_from_csv (Content records)) = None).
Proof.
  split.
  - intros menu_items it Hload Hin.
    apply load_some in Hload as (built & Hbuilt & ->).
    apply store_all_values in Hin as [[]|(key & Hin)].
    destruct (built_from_row _ _ _ Hbuilt Hin) as (row & Hrow & Hb).
    apply build_item_price in Hb as (text & Hcell & Hfloat & Hvalid).
    exists row, text. repeat split; try assumption.
    eapply validated_is_finite, Hvalid.
  - intros row cell e Hin Hcell Hfail.
    eapply load_none; [exact Hin|].
    eapply build_item_price_fails; eassumption.
Qed.

Lemma loaded_prices_passed_the_validator_witness :
  snd (load_data_from_csv (Content records_with_bad_price)) = None.
Proof.
  apply (proj2 (loaded_prices_passed_the_validator records_with_bad_price)
           (DictReader_row header_row stew_record) (Some "9.999")
           (ValueError (ExceedsDecimalPlaces
                          (float_of_decimal false 9999 (-3))
                          default_max_decimals))).
  - vm_compute. right. left. reflexivity.
  - vm_compute. reflexivity.
  - vm_compute. reflexivity.
Defined.

(** ** The structure check *)

Lemma missing_fields_spec header column :
  In column (missing_fields header)
  <-> In column required_fields /\ ~ In column header.
Proof.
  unfold missing_fields. rewrite filter_In, negb_true_iff.
  split; intros (Hreq & Hmiss); (split; [exact Hreq|]).
  - intros Hin.
    assert (existsb (String.eqb column) header = true).
    { apply existsb_exists. exists column. split; [exact Hin|].
      apply String.eqb_refl. }
    congruence.
  - destruct (existsb (String.eqb column) header) eqn:E; [|reflexivity].
    apply existsb_exists in E as (x & Hx & Heq).
    apply String.eqb_eq in Heq. subst x. contradiction.
Qed.

(** C9, as stated, fails when the header is absent: the check reports an
    empty or malformed file and names no column. *)
Lemma absent_header_names_no_column :
  fst (main sum_floats_plain (Content []))
  = [EmptyOrMalformed; TerminatedInvalidStructure]
  /\ ~ (exists columns,
          In (InvalidStructureMissing columns)
            (fst (main sum_floats_plain (Content [])))).
Proof.
  split; [vm_compute; reflexivity|].
  intros (columns & H). vm_compute in H.
  destruct H as [H|[H|[]]]; discriminate.
Qed.

(** C9, amended: when the header is absent or empty the run ends on the
    report of an empty or malformed file, which names no column; when a
    header is present and lacks required columns the run ends on the report
    that names exactly the required columns the header lacks, in the
    required order.  In both cases the outcome is the same whatever the
    records after the header are: no row is read. *)
Theorem invalid_structure_ends_the_run (py_sum : list float -> float) :
  main py_sum (Content [])
  = ([EmptyOrMalformed; TerminatedInvalidStructure], Ok tt)
  /\ (forall rest,
         main py_sum (Content ([] :: rest))
         = ([EmptyOrMalformed; TerminatedInvalidStructure], Ok tt))
  /\ (forall header rest,
         header <> [] -> missing_fields header <> [] ->
         main py_sum (Content (header :: rest))
         = ([InvalidStructureMissing (PyStr.join ", " (missing_fields header));
             RequiredColumns (PyStr.join ", " required_fields);
             TerminatedInvalidStructure], Ok tt))
  /\ (forall header column,
         In column (missing_fields header)
         <-> In column required_fields /\ ~ In column header).
Proof.
  split; [vm_compute; reflexivity|].
  split; [intros rest; vm_compute; reflexivity|]. split.
  - intros header rest Hh Hm. unfold main, validate_csv_structure.
    cbn [DictReader_fieldnames].
    destruct header as [|h header]; [congruence|].
    destruct (missing_fields (h :: header)); [congruence|]. reflexivity.
  - apply missing_fields_spec.
Qed.

Lemma invalid_structure_ends_the_run_witness :
  fst (main sum_floats_plain (Content records_without_category))
  = [InvalidStructureMissing "category";
     RequiredColumns "item, price, category, ratings, sales_per_day";
     TerminatedInvalidStructure].
Proof.
  unfold records_without_category.
  rewrite (proj1 (proj2 (proj2 (invalid_structure_ends_the_run sum_floats_plain)))).
  - vm_compute. reflexivity.
  - discriminate.
  - vm_compute. discriminate.
Defined.

(** ** The sample data, end to end *)

Lemma underrated_set_is_the_threshold_rule_witness :
  exists menu_items,
    snd (load_data_from_csv (Content sample_data)) = Some menu_items
    /\ map item (underrated_set sum_floats_plain menu_items)
       = [Some "Garlic Bread"]
    /\ identify_underrated_items sum_floats_plain menu_items
       = ([Heading "Identification of Underrated Items:";
           Table report_headers
             [[CStr "Garlic Bread"; CStr "Starter"; CStr "4.80"; CInt 49]]],
          Ok tt)
    /\ identify_underrated_items sum_floats_plain PyDict.empty
       = ([Heading "Identification of Underrated Items:"; NoUnderratedItems],
          Ok tt).
Proof.
  eexists.
  split; [vm_compute; reflexivity|].
  split; [vm_compute; reflexivity|].
  split.
  - rewrite (proj1 (proj2 (proj2 (underrated_set_is_the_threshold_rule
                                    sum_floats_plain _)))).
    vm_compute. reflexivity.
  - apply (proj2 (proj2 (proj2 (underrated_set_is_the_threshold_rule
                                  sum_floats_plain PyDict.empty)))).
    reflexivity.
Defined.

Lemma unprofitable_set_is_the_threshold_rule_witness :
  exists menu_items,
    snd (load_data_from_csv (Content sample_data)) = Some menu_items
    /\ map item (unprofitable_set sum_floats_plain menu_items)
       = [Some "Cheesecake"]
    /\ identify_unprofitable_items sum_floats_plain menu_items
       = ([Heading "Identification of Unprofitable Items:";
           Table report_headers
             [[CStr "Cheesecake"; CStr "Dessert"; CStr "2.67"; CInt 28]]],
          Ok tt)
    /\ identify_unprofitable_items sum_floats_plain PyDict.empty
       = ([Heading "Identification of Unprofitable Items:"; NoUnprofitableItems],
          Ok tt).
Proof.
  eexists.
  split; [vm_compute; reflexivity|].
  split; [vm_compute; reflexivity|].
  split.
  - rewrite (proj1 (proj2 (proj2 (unprofitable_set_is_the_threshold_rule
                                    sum_floats_plain _)))).
    vm_compute. reflexivity.
  - apply (proj2 (proj2 (proj2 (unprofitable_set_is_the_threshold_rule
                                  sum_floats_plain PyDict.empty)))).
    reflexivity.
Defined.

Lemma constructed_items_have_ratings_witness :
  exists it,
    MenuItem_init (Some "Soup") lit_4_5 (Some "Starter") (Some "4.0,4.5")
      (Some "1,2,3,4,5,6,7") = Ok it
    /\ (0 < List.length (ratings it))%nat
    /\ MenuItem_init (Some "Soup") lit_4_5 (Some "Starter") (Some "")
         (Some "1,2,3,4,5,6,7")
       = Raise (ValueError (CouldNotConvertToFloat "")).
Proof.
  eexists. split; [vm_compute; reflexivity|]. split.
  - match goal with
    | |- (0 < List.length (ratings ?it))%nat =>
        apply (proj1 (constructed_items_have_ratings sum_floats_plain
                        (Some "Soup") lit_4_5 (Some "Starter")
                        (Some "4.0,4.5") (Some "1,2,3,4,5,6,7")) it)
    end.
    vm_compute. reflexivity.
  - apply (proj2 (proj2 (proj2 (constructed_items_have_ratings sum_floats_plain
                                  (Some "Soup") lit_4_5 (Some "Starter")
                                  (Some "4.0,4.5") (Some "1,2,3,4,5,6,7"))))).
Defined.

(** The whole run on the generated sample agrees under both summations. *)
Lemma sample_run_same_under_both_sums :
  main sum_floats_plain (Content sample_data)
  = main sum_floats_neumaier (Content sample_data).
Proof. vm_compute. reflexivity. Qed.

(** The float parser agrees with the division of the library on a price:
    [19.99] is [1999 / 100] rounded once. *)
Lemma price_text_is_correctly_rounded :
  PyFloat.of_string "19.99"
  = Some (fdiv (S754_finite false 1999 0) (S754_finite false 100 0))
  /\ PyFloat.of_string "19.99"
     = Some (S754_finite false 5626684784446013 (-48)).
Proof. split; vm_compute; reflexivity. Qed.

(* ------------------------------------------------------------------ *)
(** * Further properties *)

(** ** The precision validator, any limit *)

Lemma verdict_accepts value max_decimals d :
  verdict value max_decimals d = Ok true <-> d = 0.
Proof.
  unfold verdict. destruct (d =? 0) eqn:E.
  - apply Z.eqb_eq in E. tauto.
  - apply Z.eqb_neq in E. split; [discriminate | contradiction].
Qed.

Lemma format_without_point value :
  PyStr.contains "." (format_f value 0) = false.
Proof.
  destruct value as [s|s| |s m e]; simpl; try reflexivity.
  - now rewrite contains_app, sign_text_no_point, int_digits_no_point.
  - destruct s; reflexivity.
  - now rewrite contains_app, sign_text_no_point, int_digits_no_point.
Qed.

Lemma validate_not_a_number max_decimals :
  0 <= max_decimals < 2 ^ 31 - 1 ->
  validate_float_precision S754_nan max_decimals
  = Raise (ValueError (WrongUnpackCount 2 1)).
Proof.
  intros H. unfold validate_float_precision.
  rewrite refused_precision_none by lia.
  reflexivity.
Qed.

Lemma validate_infinite s max_decimals :
  0 <= max_decimals < 2 ^ 31 - 1 ->
  validate_float_precision (S754_infinity s) max_decimals
  = Raise (ValueError (WrongUnpackCount 2 1)).
Proof.
  intros H. unfold validate_float_precision.
  rewrite refused_precision_none by lia.
  destruct s; reflexivity.
Qed.

(** X1: with a limit from 0 to [2^31 - 2] (so that [max_decimals + 1] is a
    precision a format specification can carry) the validator accepts a
    finite float exactly when the last of the [max_decimals + 1] fractional
    digits it formats is zero, otherwise it raises its precision error; it
    accepts both zeros; for an infinity and for NaN the formatted text has
    no point and the unpacking of the split raises [ValueError]. *)
Theorem validate_float_precision_by_last_digit (max_decimals : Z) :
  0 <= max_decimals < 2 ^ 31 - 1 ->
  (forall s m e,
      validate_float_precision (S754_finite s m e) max_decimals
      = if scaled_digits m e (Z.to_nat (max_decimals + 1)) mod 10 =? 0
        then Ok true
        else Raise (ValueError (ExceedsDecimalPlaces (S754_finite s m e)
                                  max_decimals)))
  /\ (forall s, validate_float_precision (S754_zero s) max_decimals = Ok true)
  /\ (forall s,
         validate_float_precision (S754_infinity s) max_decimals
         = Raise (ValueError (WrongUnpackCount 2 1)))
  /\ validate_float_precision S754_nan max_decimals
     = Raise (ValueError (WrongUnpackCount 2 1)).
Proof.
  intros H. split; [|split; [|split]].
  - intros s m e. now apply validate_finite.
  - intros s. now apply validate_zero.
  - intros s. now apply validate_infinite.
  - now apply validate_not_a_number.
Qed.

Lemma validate_float_precision_by_last_digit_witness :
  validate_float_precision (S754_finite false 1 (-2)) 2 = Ok true
  /\ validate_float_precision (S754_finite false 1 (-3)) 2
     = Raise (ValueError (ExceedsDecimalPlaces (S754_finite false 1 (-3)) 2))
  /\ validate_float_precision (S754_infinity true) 2
     = Raise (ValueError (WrongUnpackCount 2 1)).
Proof.
  split; [|split].
  - apply (proj1 (validate_float_precision_by_last_digit 2 ltac:(lia))
             false 1%positive (-2)).
  - apply (proj1 (validate_float_precision_by_last_digit 2 ltac:(lia))
             false 1%positive (-3)).
  - apply (proj1 (proj2 (proj2 (validate_float_precision_by_last_digit 2
                                  ltac:(lia)))) true).
Defined.

Lemma validate_float_precision_outcomes_lemma value max_decimals :
  validate_float_precision value max_decimals = Ok true
  \/ exists why,
      validate_float_precision value max_decimals = Raise (ValueError why).
Proof.
  unfold validate_float_precision.
  destruct (refused_precision (max_decimals + 1));
    [right; eexists; reflexivity|].
  destruct (PyStr.split "." _) as [|a [|f [|c rest]]];
    try (right; eexists; reflexivity).
  destruct (max_decimals <? _); [right; eexists; reflexivity | now left].
Qed.

Lemma validate_refused value max_decimals why :
  refused_precision (max_decimals + 1) = Some why ->
  validate_float_precision value max_decimals = Raise (ValueError why).
Proof. intros H. unfold validate_float_precision. now rewrite H. Qed.

Lemma validate_without_fraction value :
  validate_float_precision value (-1)
  = Raise (ValueError (WrongUnpackCount 2 1)).
Proof.
  unfold validate_float_precision.
  change (refused_precision (-1 + 1)) with (@None value_error).
  change (Z.to_nat (-1 + 1)) with O.
  rewrite split_without by apply format_without_point.
  reflexivity.
Qed.

(** X3: a negative limit makes every call raise: below [-1] the format
    specification is invalid, and at [-1] the value is formatted without a
    point, so that the split has one part where two are unpacked. *)
Theorem validate_negative_limit_raises (value : float) (max_decimals : Z) :
  max_decimals < 0 ->
  validate_float_precision value max_decimals
  = Raise (ValueError
             (if max_decimals <? -1 then BadFormatSpec
              else WrongUnpackCount 2 1)).
Proof.
  intros H.
  destruct (max_decimals <? -1) eqn:E.
  - apply Z.ltb_lt in E. apply validate_refused.
    unfold refused_precision.
    replace (max_decimals + 1 <? 0) with true
      by (symmetry; apply Z.ltb_lt; lia).
    reflexivity.
  - apply Z.ltb_ge in E.
    replace max_decimals with (-1) by lia.
    apply validate_without_fraction.
Qed.

Lemma validate_negative_limit_raises_witness :
  validate_float_precision lit_4_5 (-1)
  = Raise (ValueError (WrongUnpackCount 2 1))
  /\ validate_float_precision lit_4_5 (-2) = Raise (ValueError BadFormatSpec).
Proof.
  split.
  - apply (validate_negative_limit_raises lit_4_5 (-1)). lia.
  - apply (validate_negative_limit_raises lit_4_5 (-2)). lia.
Defined.

(** X4: the validator does not look at the sign: a value is accepted
    exactly when its opposite is. *)
Theorem validate_ignores_sign (value : float) (max_decimals : Z) :
  validate_float_precision (SFopp value) max_decimals = Ok true
  <-> validate_float_precision value max_decimals = Ok true.
Proof.
  destruct (refused_precision (max_decimals + 1)) as [why|] eqn:E.
  - rewrite !(validate_refused _ _ _ E). split; discriminate.
  - assert (Hrange : -1 <= max_decimals < 2 ^ 31 - 1).
    { destruct (Z_lt_le_dec max_decimals (-1)) as [Hlo|Hlo];
        [destruct (refused_precision_some (max_decimals + 1)) as (w & Hw);
         [lia | congruence]|].
      destruct (Z_lt_le_dec max_decimals (2 ^ 31 - 1)) as [Hhi|Hhi];
        [lia|].
      destruct (refused_precision_some (max_decimals + 1)) as (w & Hw);
        [lia | congruence]. }
    destruct (Z.eq_dec max_decimals (-1)) as [->|Hne].
    + rewrite !validate_without_fraction. split; discriminate.
    + assert (Hpos : 0 <= max_decimals < 2 ^ 31 - 1) by lia.
      destruct value as [s|s| |s m e]; simpl.
      * rewrite !validate_zero by exact Hpos. tauto.
      * rewrite !validate_infinite by exact Hpos. tauto.
      * tauto.
      * rewrite !validate_finite by exact Hpos.
        rewrite !verdict_accepts. tauto.
Qed.

(** ** Values that are exact decimals *)

Lemma div_rne_exact k t : 0 < t -> div_rne (k * t) t = k.
Proof.
  intros H. apply div_rne_unique; [exact H|].
  replace (k * t - k * t) with 0 by ring. simpl. lia.
Qed.

(** X5: a finite float [m * 2^e] whose exact value has at most
    [max_decimals] fractional digits, [m * 2^e * 10^max_decimals = k] for an
    integer [k], is accepted, for a limit from 0 to [2^31 - 2]: on exactly
    representable values such as whole numbers, halves and quarters the
    validator never errs. *)
Theorem validate_accepts_exact_decimals
  (s : bool) (m : positive) (e max_decimals k : Z) :
  0 <= max_decimals < 2 ^ 31 - 1 ->
  Zpos m * 10 ^ max_decimals * 2 ^ Z.max 0 e = k * 2 ^ Z.max 0 (- e) ->
  validate_float_precision (S754_finite s m e) max_decimals = Ok true.
Proof.
  intros Hbound Hk. rewrite validate_finite by exact Hbound.
  destruct Hbound as [Hmd _].
  apply verdict_accepts.
  unfold scaled_digits, scaled_rne.
  rewrite Z.opp_involutive, Z.mul_1_l.
  replace (Z.of_nat (Z.to_nat (max_decimals + 1))) with (Z.succ max_decimals)
    by lia.
  rewrite Z.pow_succ_r by exact Hmd.
  replace (Z.pos m * (10 * 10 ^ max_decimals) * 2 ^ Z.max 0 e)
    with (10 * k * 2 ^ Z.max 0 (- e)) by (rewrite <- Z.mul_assoc, <- Hk; ring).
  rewrite div_rne_exact by (apply Z.pow_pos_nonneg; lia).
  rewrite Z.mul_comm. apply Z.mod_mul. lia.
Qed.

Lemma validate_accepts_exact_decimals_witness :
  validate_float_precision (S754_finite false 3 (-2)) 2 = Ok true
  /\ validate_float_precision (S754_finite true 7 5) 0 = Ok true.
Proof.
  split.
  - apply (validate_accepts_exact_decimals false 3 (-2) 2 75);
      [lia | reflexivity].
  - apply (validate_accepts_exact_decimals true 7 5 0 224);
      [lia | reflexivity].
Defined.

(** ** The price a table shows *)

Lemma format_hundredths s p q h :
  0 <= p -> 0 < q -> 100 * p = h * q -> h < 100 * 2 ^ 43 ->
  format_f (float_of_ratio s p q) 2 = (sign_text s ++ fixed_text 2 h)%string.
Proof.
  intros Hp Hq Hh Hhi.
  destruct (Z.eq_dec p 0) as [->|Hp0].
  - assert (h = 0) by nia. subst h. reflexivity.
  - assert (Hh1 : 1 <= h) by nia.
    destruct (float_of_ratio_near s p q) as (m & e & Hx & He & Herr);
      try nia.
    rewrite Hx.
    change (format_f (S754_finite s m e) 2)
      with (sign_text s
            ++ fixed_text 2 (scaled_rne (Zpos m * 10 ^ Z.of_nat 2) 1 (- e)))%string.
    f_equal. f_equal.
    unfold scaled_rne.
    change (10 ^ Z.of_nat 2) with 100.
    rewrite (Z.max_l 0 (- - e)), (Z.max_r 0 (- e)), Z.pow_0_r by lia.
    rewrite Z.mul_1_r, Z.mul_1_l.
    set (t := 2 ^ (- e)) in *.
    assert (Ht : 0 < t) by (apply Z.pow_pos_nonneg; lia).
    clearbody t.
    apply div_rne_unique; [exact Ht|].
    apply Z.mul_lt_mono_pos_r with (p := q); [exact Hq|].
    replace (2 * Z.abs (Z.pos m * 100 - h * t) * q)
      with (200 * Z.abs (Z.pos m * q - p * t)); [lia|].
    rewrite <- (Z.abs_eq q) at 2 by lia.
    rewrite <- Z.mul_assoc, <- Z.abs_mul.
    replace ((Z.pos m * 100 - h * t) * q)
      with (100 * (Z.pos m * q - p * t)) by nia.
    rewrite Z.abs_mul. simpl (Z.abs 100). ring.
Qed.

(** X6: a decimal price [v = n * 10^e10] of either sign with at most two
    fractional digits, [100 * v = h], and magnitude below [2^43] comes back
    unchanged from the float it is stored as: formatted with two places, as
    [display_menu] prints prices, it shows the digits of [h] with the point
    before the last two. *)
Theorem price_is_shown_as_written (s : bool) (n e10 h : Z) :
  0 <= n ->
  100 * (n * 10 ^ Z.max 0 e10) = h * 10 ^ Z.max 0 (- e10) ->
  h < 100 * 2 ^ 43 ->
  format_f (float_of_decimal s n e10) 2
  = (sign_text s ++ int_digits (h / 100) ++ "." ++ frac_digits 2 h)%string.
Proof.
  intros Hn Hh Hhi. unfold float_of_decimal.
  change (int_digits (h / 100) ++ "." ++ frac_digits 2 h)%string
    with (fixed_text 2 h).
  destruct (0 <=? e10) eqn:E.
  - apply Z.leb_le in E.
    rewrite (Z.max_r 0 e10), (Z.max_l 0 (- e10)), Z.pow_0_r in Hh by lia.
    assert (0 <= 10 ^ e10) by (apply Z.pow_nonneg; lia).
    apply format_hundredths; nia.
  - apply Z.leb_gt in E.
    rewrite (Z.max_l 0 e10), (Z.max_r 0 (- e10)), Z.pow_0_r in Hh by lia.
    assert (0 < 10 ^ (- e10)) by (apply Z.pow_pos_nonneg; lia).
    apply format_hundredths; lia.
Qed.

Lemma price_is_shown_as_written_witness :
  PyFloat.of_string "19.99" = Some (float_of_decimal false 1999 (-2))
  /\ format_f (float_of_decimal false 1999 (-2)) 2 = "19.99"
  /\ format_f (float_of_decimal false 65 (-1)) 2 = "6.50".
Proof.
  split; [vm_compute; reflexivity|]. split.
  - apply (price_is_shown_as_written false 1999 (-2) 1999);
      [lia | reflexivity | reflexivity].
  - apply (price_is_shown_as_written false 65 (-1) 650);
      [lia | reflexivity | reflexivity].
Defined.

(** ** The constructor, both ways *)

Lemma sales_comprehension_of_values pairs acc values :
  map_res py_int (map snd pairs) = Ok values ->
  sales_comprehension pairs acc
  = Ok (fold_left (fun d kv => PyDict.set string_dec d (fst kv) (snd kv))
          (combine (map fst pairs) values) acc).
Proof.
  revert acc values.
  induction pairs as [|[day sales] pairs IH]; intros acc values H; simpl in *.
  - injection H as <-. reflexivity.
  - apply bind_ok in H as (v & Hv & H).
    apply bind_ok in H as (vs & Hvs & H). injection H as <-.
    rewrite Hv. cbn [bind]. rewrite (IH _ _ Hvs). reflexivity.
Qed.

(** X7: the constructor returns an item exactly when the ratings field is
    text whose comma-separated tokens all parse as floats and the sales
    field is text of exactly 7 comma-separated tokens that all parse as
    integers; the item then holds the three given fields unchanged, the
    parsed ratings in order, and the parsed sales under Mon..Sun. *)
Theorem MenuItem_init_succeeds_iff
  (name : option string) (cost : float)
  (label ratings_field sales_field : option string) (it : MenuItem) :
  MenuItem_init name cost label ratings_field sales_field = Ok it
  <-> exists ratings_text sales_text parsed values,
      ratings_field = Some ratings_text
      /\ sales_field = Some sales_text
      /\ map_res (fun r => py_float (Some r)) (PyStr.split "," ratings_text)
         = Ok parsed
      /\ List.length (PyStr.split "," sales_text) = 7%nat
      /\ map_res py_int (PyStr.split "," sales_text) = Ok values
      /\ it = {| item := name; price := cost; category := label;
                 ratings := parsed;
                 sales_per_day := combine days_of_week values |}.
Proof.
  split.
  - intros H.
    destruct (MenuItem_init_ok _ _ _ _ _ _ H)
      as (rt & st & -> & -> & Hr & Hlen & _ & Hi & Hp & Hc).
    apply sales_of_constructed in H as (values & _ & Hvalues & Hsales).
    exists rt, st, (ratings it), values.
    repeat split; try assumption; try reflexivity.
    destruct it as [i p c r s]. simpl in *. congruence.
  - intros (rt & st & parsed & values & -> & -> & Hr & Hlen & Hv & ->).
    unfold MenuItem_init. cbn [split_method bind]. rewrite Hr. cbn [bind].
    destruct parsed as [|r0 parsed];
      [now apply parsed_ratings_not_nil in Hr|].
    rewrite Hlen. cbn [Nat.eqb negb].
    destruct (week_of_seven _ Hlen) as [Hsnd Hfst].
    rewrite (sales_comprehension_of_values _ _ values) by now rewrite Hsnd.
    cbn [bind]. rewrite Hfst, week_dict; [reflexivity|].
    apply map_res_length in Hv. congruence.
Qed.

Lemma MenuItem_init_succeeds_iff_witness :
  exists it,
    MenuItem_init (Some "Soup") lit_4_5 (Some "Starter") (Some " 4.0, 4.5")
      (Some "1,+2,3, 4 ,5,6,-7") = Ok it
    /\ sales_per_day it
       = [("Mon", 1); ("Tue", 2); ("Wed", 3); ("Thu", 4); ("Fri", 5);
          ("Sat", 6); ("Sun", -7)].
Proof.
  eexists. split.
  - apply (proj2 (MenuItem_init_succeeds_iff (Some "Soup") lit_4_5
                    (Some "Starter") (Some " 4.0, 4.5")
                    (Some "1,+2,3, 4 ,5,6,-7") _)).
    exists " 4.0, 4.5", "1,+2,3, 4 ,5,6,-7".
    eexists. eexists.
    split; [reflexivity|]. split; [reflexivity|].
    split; [vm_compute; reflexivity|].
    split; [reflexivity|].
    split; [vm_compute; reflexivity|].
    reflexivity.
  - reflexivity.
Defined.

Lemma split_length sep s :
  List.length (PyStr.split sep s) = S (count_char sep s).
Proof.
  induction s as [|c s IH]; simpl; [reflexivity|].
  destruct (Ascii.eqb c sep); simpl; [now rewrite IH|].
  destruct (PyStr.split sep s) as [|h t] eqn:E; simpl in *; [discriminate|].
  exact IH.
Qed.

(** X8: a constructed item comes from a sales field with exactly six
    commas, and it has one rating more than its ratings field has commas:
    no token is dropped or merged, an empty token between two commas is an
    error and never a skipped value. *)
Theorem constructed_fields_comma_counts
  (name : option string) (cost : float) (label : option string)
  (ratings_text sales_text : string) (it : MenuItem) :
  MenuItem_init name cost label (Some ratings_text) (Some sales_text) = Ok it ->
  count_char "," sales_text = 6%nat
  /\ List.length (ratings it) = S (count_char "," ratings_text).
Proof.
  intros H.
  apply MenuItem_init_ok in H
    as (rt & st & Hrt & Hst & Hr & Hlen & _).
  injection Hrt as <-. injection Hst as <-.
  rewrite split_length in Hlen.
  apply map_res_length in Hr. rewrite split_length in Hr.
  split; [lia | exact Hr].
Qed.

Lemma constructed_fields_comma_counts_witness :
  exists it,
    MenuItem_init (Some "Soup") lit_4_5 (Some "Starter") (Some "4.0,4.5")
      (Some "1,2,3,4,5,6,7") = Ok it
    /\ List.length (ratings it) = 2%nat.
Proof.
  eexists. split; [vm_compute; reflexivity|].
  match goal with
  | |- List.length (ratings ?it) = _ =>
      apply (proj2 (constructed_fields_comma_counts (Some "Soup") lit_4_5
                      (Some "Starter") "4.0,4.5" "1,2,3,4,5,6,7" it
                      ltac:(vm_compute; reflexivity)))
  end.
Defined.

(** ** The structure check, both ways *)

Lemma missing_fields_nil header :
  missing_fields header = [] <-> incl required_fields header.
Proof.
  split.
  - intros Hnil c Hc.
    destruct (in_dec string_dec c header) as [Hin|Hout]; [exact Hin|].
    assert (Hm : In c (missing_fields header))
      by (apply missing_fields_spec; auto).
    rewrite Hnil in Hm. contradiction.
  - intros Hincl.
    destruct (missing_fields header) as [|c rest] eqn:E; [reflexivity|].
    assert (Hm : In c (missing_fields header)) by (rewrite E; now left).
    apply missing_fields_spec in Hm as [Hreq Hout].
    exfalso. apply Hout, Hincl, Hreq.
Qed.

Lemma structure_accepted header rest :
  incl required_fields header ->
  validate_csv_structure (Content (header :: rest)) = ([], true).
Proof.
  intros Hincl. unfold validate_csv_structure. cbn [DictReader_fieldnames].
  destruct header as [|h header].
  - exfalso. apply (Hincl "item"). now left.
  - apply missing_fields_nil in Hincl. rewrite Hincl. reflexivity.
Qed.

Lemma structure_refused header rest :
  ~ incl required_fields header ->
  snd (validate_csv_structure (Content (header :: rest))) = false.
Proof.
  intros Hnot. unfold validate_csv_structure. cbn [DictReader_fieldnames].
  destruct header as [|h header]; [reflexivity|].
  destruct (missing_fields (h :: header)) as [|c more] eqn:E; [|reflexivity].
  exfalso. apply Hnot. now apply missing_fields_nil.
Qed.

(** X9: the structure check accepts a file exactly when its header holds
    every one of the five required names, whatever their order and whatever
    other columns stand beside them; an accepted file prints nothing. *)
Theorem structure_accepted_iff_required_present
  (header : list string) (rest : list (list string)) :
  (snd (validate_csv_structure (Content (header :: rest))) = true
   <-> forall column, In column required_fields -> In column header)
  /\ (snd (validate_csv_structure (Content (header :: rest))) = true ->
      fst (validate_csv_structure (Content (header :: rest))) = []).
Proof.
  assert (Hdec : incl required_fields header \/ ~ incl required_fields header).
  { destruct (missing_fields header) as [|c more] eqn:E.
    - left. now apply missing_fields_nil.
    - right. intros H. apply missing_fields_nil in H. congruence. }
  destruct Hdec as [Hincl|Hnot].
  - rewrite (structure_accepted header rest Hincl). simpl.
    split; [|reflexivity]. split; [intros _; exact Hincl | reflexivity].
  - rewrite (structure_refused header rest Hnot).
    split; [|discriminate]. split; [discriminate|].
    intros H. contradiction.
Qed.

Lemma structure_accepted_iff_required_present_witness :
  validate_csv_structure
    (Content [ ["notes"; "sales_per_day"; "ratings"; "category"; "price";
                "item"] ])
  = ([], true).
Proof.
  apply injective_projections.
  - apply (proj2 (structure_accepted_iff_required_present _ [])).
    apply (proj1 (structure_accepted_iff_required_present _ [])).
    intros column Hc. vm_compute in Hc. vm_compute.
    repeat (destruct Hc as [<-|Hc]; [tauto|]). contradiction.
  - apply (proj1 (structure_accepted_iff_required_present _ [])).
    intros column Hc. vm_compute in Hc. vm_compute.
    repeat (destruct Hc as [<-|Hc]; [tauto|]). contradiction.
Defined.

(** ** Rows of the reader *)

Section RowFacts.

Context {K V : Type}.
Variable eq_dec : forall a b : K, {a = b} + {a <> b}.

Lemma key_has_value (d : PyDict.t (V := V)) k :
  In k (PyDict.keys d) -> exists v, PyDict.get eq_dec d k = Some v.
Proof.
  induction d as [|[k' v'] d IH]; simpl; [contradiction|].
  intros H. destruct (eq_dec k k') as [E|N]; [eauto|].
  destruct H as [E|Hin]; [congruence | exact (IH Hin)].
Qed.

Lemma keys_after_pairs pairs (d : PyDict.t (V := V)) k :
  In k (PyDict.keys
          (fold_left (fun d kv => PyDict.set eq_dec d (fst kv) (snd kv)) pairs d))
  <-> In k (PyDict.keys d) \/ In k (map fst pairs).
Proof.
  revert d. induction pairs as [|[k' v'] pairs IH]; intros d; simpl.
  - tauto.
  - rewrite IH, keys_set. simpl. intuition congruence.
Qed.

Lemma keys_after_defaults ks (v : V) (d : PyDict.t (V := V)) k :
  In k (PyDict.keys (fold_left (fun d key => PyDict.set eq_dec d key v) ks d))
  <-> In k (PyDict.keys d) \/ In k ks.
Proof.
  revert d. induction ks as [|k' ks IH]; intros d; simpl.
  - tauto.
  - rewrite IH, keys_set. intuition congruence.
Qed.

Lemma entry_after_set (d : PyDict.t) k (v : V) k0 v0 :
  In (k0, v0) (PyDict.set eq_dec d k v) ->
  (k0 = k /\ v0 = v) \/ In (k0, v0) d.
Proof.
  induction d as [|[k' v'] d IH]; simpl.
  - intros [H|[]]. injection H as <- <-. auto.
  - destruct (eq_dec k k') as [->|N]; simpl.
    + intros [H|H]; [injection H as <- <-; auto | auto].
    + intros [H|H]; [auto|]. apply IH in H. tauto.
Qed.

Lemma length_after_set (d : PyDict.t) k (v : V) :
  (List.length (PyDict.set eq_dec d k v) <= S (List.length d))%nat.
Proof.
  induction d as [|[k' v'] d IH]; simpl; [lia|].
  destruct (eq_dec k k'); simpl; lia.
Qed.

End RowFacts.

Lemma first_of_combine {A B : Type} (l : list A) (l' : list B) :
  map fst (combine l l') = firstn (List.length l') l.
Proof.
  revert l'. induction l as [|a l IH]; intros [|b l']; simpl;
    try reflexivity.
  now rewrite IH.
Qed.

(** Every name of the header is a key of every row. *)
Lemma row_has_header_fields header record key :
  In key header ->
  exists value, getitem (DictReader_row header record) key = Ok value.
Proof.
  intros Hin.
  assert (Hkey : In key (PyDict.keys (cells (DictReader_row header record)))).
  { unfold DictReader_row.
    rewrite <- (firstn_skipn (List.length record) header) in Hin.
    apply in_app_or in Hin.
    destruct (List.length header <? List.length record)%nat eqn:E; simpl.
    - unfold PyDict.of_pairs. apply keys_after_pairs. right.
      rewrite first_of_combine, length_map.
      apply Nat.ltb_lt in E.
      destruct Hin as [Hin|Hin]; [exact Hin|].
      rewrite skipn_all2 in Hin by lia. contradiction.
    - apply keys_after_defaults.
      destruct Hin as [Hin|Hin]; [left | now right].
      unfold PyDict.of_pairs. apply keys_after_pairs. right.
      now rewrite first_of_combine, length_map. }
  apply (key_has_value string_dec) in Hkey as (value & Hv).
  exists value. unfold getitem. now rewrite Hv.
Qed.

Lemma rows_of_records records row :
  In row (DictReader_rows records) ->
  exists header rest record,
    records = header :: rest /\ row = DictReader_row header record.
Proof.
  destruct records as [|header rest]; simpl; [contradiction|].
  intros Hin. apply in_map_iff in Hin as (record & <- & _). eauto.
Qed.

(** ** Exceptions of a row *)

Lemma py_float_raise cell e :
  py_float cell = Raise e -> e = TypeError \/ exists why, e = ValueError why.
Proof.
  destruct cell as [text|]; simpl.
  - destruct (PyFloat.of_string text); [discriminate|].
    intros H. injection H as <-. eauto.
  - intros H. injection H as <-. auto.
Qed.

Lemma MenuItem_init_raise name cost label ratings_field sales_field e :
  MenuItem_init name cost label ratings_field sales_field = Raise e ->
  e = AttributeError \/ exists why, e = ValueError why.
Proof.
  unfold MenuItem_init.
  destruct ratings_field as [rt|]; cbn [split_method bind];
    [|intros H; injection H as <-; auto].
  destruct (map_res (fun r => py_float (Some r)) (PyStr.split "," rt))
    as [parsed|e0] eqn:Ep; cbn [bind].
  - destruct parsed as [|r0 parsed];
      [intros H; injection H as <-; eauto|].
    destruct sales_field as [st|]; cbn [split_method bind];
      [|intros H; injection H as <-; auto].
    destruct (negb (Nat.eqb (List.length (PyStr.split "," st)) 7));
      [intros H; injection H as <-; eauto|].
    destruct (sales_comprehension _ _) as [d|e1] eqn:Es; cbn [bind];
      [discriminate|].
    intros H. injection H as <-.
    apply sales_comprehension_raise in Es as [(t & ->)|(t & ->)]; eauto.
  - intros H. injection H as <-.
    apply ratings_raise in Ep as (t & ->). eauto.
Qed.

(** The exceptions the body of a row can raise. *)
Lemma build_item_raise row e :
  build_item row = Raise e ->
  (exists key, In key required_fields /\ e = KeyError key
               /\ getitem row key = Raise (KeyError key))
  \/ e = TypeError \/ e = AttributeError \/ exists why, e = ValueError why.
Proof.
  assert (Hget : forall key e0,
             getitem row key = Raise e0 -> e0 = KeyError key).
  { intros key e0. unfold getitem.
    destruct (PyDict.get string_dec (cells row) key); congruence. }
  assert (Hkey : forall key e0,
             In key required_fields -> getitem row key = Raise e0 ->
             exists key, In key required_fields /\ e0 = KeyError key
                         /\ getitem row key = Raise (KeyError key)).
  { intros key e0 Hin H. pose proof (Hget _ _ H) as ->. eauto. }
  unfold build_item.
  destruct (getitem row "price") as [price_text|e0] eqn:E1; cbn [bind];
    [|intros H; injection H as <-; left; apply (Hkey "price"); simpl; auto].
  destruct (py_float price_text) as [cost|e0] eqn:E2; cbn [bind];
    [|intros H; injection H as <-; apply py_float_raise in E2; tauto].
  destruct (validate_float_precision cost default_max_decimals)
    as [valid|e0] eqn:E3; cbn [bind].
  2:{ intros H. injection H as <-.
      destruct (validate_float_precision_outcomes_lemma cost default_max_decimals)
        as [Hok|(why & Hwhy)]; [congruence|].
      rewrite Hwhy in E3. injection E3 as <-. eauto. }
  destruct (getitem row "item") as [name|e0] eqn:E4; cbn [bind];
    [|intros H; injection H as <-; left; apply (Hkey "item"); simpl; auto].
  destruct (getitem row "category") as [label|e0] eqn:E5; cbn [bind];
    [|intros H; injection H as <-; left; apply (Hkey "category"); simpl; auto].
  destruct (getitem row "ratings") as [rf|e0] eqn:E6; cbn [bind];
    [|intros H; injection H as <-; left; apply (Hkey "ratings"); simpl; auto].
  destruct (getitem row "sales_per_day") as [sf|e0] eqn:E7; cbn [bind];
    [|intros H; injection H as <-; left; apply (Hkey "sales_per_day");
      simpl; auto 6].
  destruct (MenuItem_init name cost label rf sf) as [it|e0] eqn:E8;
    cbn [bind]; [discriminate|].
  intros H. injection H as <-. apply MenuItem_init_raise in E8. tauto.
Qed.

(** X10: once the structure check has accepted the file, every row the
    loader reads has a cell (text or [None]) under each of the five required
    names, so no lookup raises [KeyError]; the body of a row can then only
    raise [ValueError], [TypeError] or [AttributeError]. *)
Theorem accepted_structure_rules_out_key_errors (records : list (list string)) :
  snd (validate_csv_structure (Content records)) = true ->
  forall row,
    In row (DictReader_rows records) ->
    (forall key, In key required_fields ->
                 exists value, getitem row key = Ok value)
    /\ (forall e, build_item row = Raise e ->
                  e = TypeError \/ e = AttributeError
                  \/ exists why, e = ValueError why).
Proof.
  intros Hvalid row Hrow.
  destruct (rows_of_records _ _ Hrow) as (header & rest & record & -> & ->).
  assert (Hincl : incl required_fields header).
  { destruct (missing_fields header) as [|c more] eqn:E.
    - now apply missing_fields_nil.
    - rewrite structure_refused in Hvalid; [discriminate|].
      intros H. apply missing_fields_nil in H. congruence. }
  assert (Hcells : forall key, In key required_fields ->
             exists value, getitem (DictReader_row header record) key = Ok value).
  { intros key Hkey. apply row_has_header_fields, Hincl, Hkey. }
  split; [exact Hcells|].
  intros e He.
  apply build_item_raise in He as [(key & Hkey & _ & Hraise)|He]; [|exact He].
  destruct (Hcells key Hkey) as (value & Hv). congruence.
Qed.

Lemma accepted_structure_rules_out_key_errors_witness :
  build_item (DictReader_row header_row ["Soup"; "4.50"]) = Raise AttributeError
  /\ exists value,
      getitem (DictReader_row header_row ["Soup"; "4.50"]) "ratings" = Ok value.
Proof.
  split; [vm_compute; reflexivity|].
  apply (proj1 (accepted_structure_rules_out_key_errors
                  [header_row; ["Soup"; "4.50"]] eq_refl
                  (DictReader_row header_row ["Soup"; "4.50"])
                  (or_introl eq_refl))).
  simpl. auto.
Defined.

(** ** What the loader prints *)

Lemma load_rows_outcome rows row_num menu_items :
  (exists built,
      Forall2 (fun row kv => build_item row = Ok kv) rows built
      /\ load_rows rows row_num menu_items
         = ([], Some (store_all built menu_items)))
  \/ (exists good built bad rest e,
         rows = good ++ bad :: rest
         /\ Forall2 (fun row kv => build_item row = Ok kv) good built
         /\ build_item bad = Raise e
         /\ load_rows rows row_num menu_items
            = (failure_log (row_num + Z.of_nat (List.length good)) bad e, None)).
Proof.
  revert row_num menu_items.
  induction rows as [|row rows IH]; intros row_num menu_items.
  - left. exists []. split; [constructor | reflexivity].
  - simpl. destruct (build_item row) as [[key it]|e] eqn:E.
    + destruct (IH (row_num + 1)
                  (PyDict.set opt_string_dec menu_items key it))
        as [(built & Hb & Hl)|(good & built & bad & rest & e & -> & Hb & He & Hl)].
      * left. exists ((key, it) :: built). split; [now constructor|].
        rewrite Hl. reflexivity.
      * right. exists (row :: good), ((key, it) :: built), bad, rest, e.
        split; [reflexivity|]. split; [now constructor|].
        split; [exact He|]. rewrite Hl. simpl List.length.
        do 2 f_equal. lia.
    + right. exists [], [], row, rows, e.
      split; [reflexivity|]. split; [constructor|]. split; [exact E|].
      simpl. rewrite Z.add_0_r. unfold failure_log.
      destruct (is_data_error e); reflexivity.
Qed.

(** X11: a load that succeeds prints nothing.  A load that fails stopped at
    the first row whose body raised: every row before it was built, and the
    message gives that row's number, counted from 1 over the rows the reader
    yields (blank lines are not counted), with the row itself after a
    [KeyError] or [ValueError], and a critical load error without number or
    row after any other exception. *)
Theorem load_reports_first_failing_row (records : list (list string)) :
  (forall menu_items,
      snd (load_data_from_csv (Content records)) = Some menu_items ->
      fst (load_data_from_csv (Content records)) = [])
  /\ (snd (load_data_from_csv (Content records)) = None ->
      exists good built bad rest e,
        DictReader_rows records = good ++ bad :: rest
        /\ Forall2 (fun row kv => build_item row = Ok kv) good built
        /\ build_item bad = Raise e
        /\ fst (load_data_from_csv (Content records))
           = if is_data_error e
             then [DataErrorInRow (1 + Z.of_nat (List.length good)) e;
                   ProblematicRow bad]
             else [CriticalLoadError e]).
Proof.
  unfold load_data_from_csv.
  destruct (load_rows_outcome (DictReader_rows records) 1 PyDict.empty)
    as [(built & Hb & Hl)|(good & built & bad & rest & e & Hr & Hb & He & Hl)];
    rewrite Hl; simpl.
  - split; [reflexivity | discriminate].
  - split; [discriminate|]. intros _.
    exists good, built, bad, rest, e. auto.
Qed.

Lemma load_reports_first_failing_row_witness :
  exists good built bad rest e,
    DictReader_rows [header_row; soup_record; []; stew_record; cake_record]
    = good ++ bad :: rest
    /\ Forall2 (fun row kv => build_item row = Ok kv) good built
    /\ build_item bad = Raise e
    /\ fst (load_data_from_csv
              (Content [header_row; soup_record; []; stew_record; cake_record]))
       = if is_data_error e
         then [DataErrorInRow (1 + Z.of_nat (List.length good)) e;
               ProblematicRow bad]
         else [CriticalLoadError e].
Proof.
  apply (proj2 (load_reports_first_failing_row
                  [header_row; soup_record; []; stew_record; cake_record])).
  vm_compute. reflexivity.
Defined.

(** The row number printed counts the rows read, not the lines of the
    file: the stew is on the fourth record after the header line and is
    reported as row 2. *)
Lemma row_number_skips_blank_lines :
  fst (load_data_from_csv
         (Content [header_row; soup_record; []; stew_record; cake_record]))
  = [DataErrorInRow 2
       (ValueError (ExceedsDecimalPlaces (float_of_decimal false 9999 (-3)) 2));
     ProblematicRow (DictReader_row header_row stew_record)].
Proof. vm_compute. reflexivity. Qed.

(** ** The mapping a load returns *)

Lemma build_item_name row key it :
  build_item row = Ok (key, it) -> item it = key.
Proof.
  intros H. pose proof (build_item_key _ _ _ H) as Hkey.
  unfold build_item in H.
  apply bind_ok in H as (price_text & _ & H).
  apply bind_ok in H as (cost & _ & H).
  apply bind_ok in H as (valid & _ & H).
  apply bind_ok in H as (name & Hname & H).
  apply bind_ok in H as (label & _ & H).
  apply bind_ok in H as (rf & _ & H).
  apply bind_ok in H as (sf & _ & H).
  apply bind_ok in H as (it' & Hinit & H).
  apply bind_ok in H as (key' & _ & H).
  injection H as <- <-.
  apply MenuItem_init_ok in Hinit as (_ & _ & _ & _ & _ & _ & _ & Hi & _).
  congruence.
Qed.

Lemma store_all_entries built (d : menu) k it :
  In (k, it) (store_all built d) -> In (k, it) d \/ In (k, it) built.
Proof.
  revert d. induction built as [|[k' v'] built IH]; intros d H; simpl in *.
  - now left.
  - apply IH in H as [H|H]; [|auto].
    apply entry_after_set in H as [[-> ->]|H]; auto.
Qed.

Lemma store_all_length built (d : menu) :
  (List.length (store_all built d) <= List.length d + List.length built)%nat.
Proof.
  revert d. induction built as [|[k v] built IH]; intros d; simpl; [lia|].
  pose proof (IH (PyDict.set opt_string_dec d k v)) as H1.
  pose proof (length_after_set opt_string_dec d k v) as H2. lia.
Qed.

(** X12: the mapping a successful load returns is keyed by name: no key
    occurs twice, every item is stored under its own [item] field, which is
    the [item] cell of a row of the source, and there are at most as many
    entries as rows. *)
Theorem loaded_mapping_is_keyed_by_name
  (records : list (list string)) (menu_items : menu) :
  snd (load_data_from_csv (Content records)) = Some menu_items ->
  NoDup (PyDict.keys menu_items)
  /\ (forall key it,
         In (key, it) menu_items ->
         item it = key
         /\ exists row, In row (DictReader_rows records)
                        /\ getitem row "item" = Ok key)
  /\ (List.length menu_items <= List.length (DictReader_rows records))%nat.
Proof.
  intros Hload. apply load_some in Hload as (built & Hbuilt & ->).
  split; [|split].
  - apply store_all_nodup. constructor.
  - intros key it Hin.
    apply store_all_entries in Hin as [[]|Hin].
    destruct (built_from_row _ _ _ Hbuilt Hin) as (row & Hrow & Hb).
    split; [now apply build_item_name in Hb|].
    exists row. split; [exact Hrow | now apply build_item_key in Hb].
  - pose proof (store_all_length built PyDict.empty) as Hlen.
    apply Forall2_length in Hbuilt. simpl in Hlen. lia.
Qed.

Lemma loaded_mapping_is_keyed_by_name_witness :
  exists menu_items,
    snd (load_data_from_csv (Content records_with_duplicate)) = Some menu_items
    /\ NoDup (PyDict.keys menu_items)
    /\ List.length menu_items = 2%nat.
Proof.
  eexists. split; [vm_compute; reflexivity|]. split.
  - match goal with
    | |- NoDup (PyDict.keys ?m) =>
        apply (proj1 (loaded_mapping_is_keyed_by_name records_with_duplicate m
                        ltac:(vm_compute; reflexivity)))
    end.
  - reflexivity.
Defined.

(** ** Runs that end before the reports *)

Lemma no_rows_of_blank_records header rest :
  (forall record, In record rest -> record = []) ->
  DictReader_rows (header :: rest) = [].
Proof.
  intros Hblank. simpl.
  induction rest as [|record rest IH]; simpl; [reflexivity|].
  rewrite (Hblank record (or_introl eq_refl)). simpl.
  apply IH. intros r Hr. apply Hblank. now right.
Qed.

(** X13: a file whose header holds the required names and that has no
    record after it but blank lines loads as the empty mapping, without any
    message; [main] takes the empty mapping for a failed load and ends on
    that report, printing no table. *)
Theorem file_without_rows_ends_the_run
  (py_sum : list float -> float)
  (header : list string) (rest : list (list string)) :
  (forall column, In column required_fields -> In column header) ->
  (forall record, In record rest -> record = []) ->
  load_data_from_csv (Content (header :: rest)) = ([], Some PyDict.empty)
  /\ main py_sum (Content (header :: rest)) = ([TerminatedLoadFailed], Ok tt).
Proof.
  intros Hincl Hblank.
  assert (Hload : load_data_from_csv (Content (header :: rest))
                  = ([], Some PyDict.empty)).
  { unfold load_data_from_csv.
    now rewrite (no_rows_of_blank_records header rest Hblank). }
  split; [exact Hload|].
  unfold main. rewrite (structure_accepted header rest Hincl), Hload.
  reflexivity.
Qed.

Lemma file_without_rows_ends_the_run_witness :
  main sum_floats_plain (Content [header_row; []; []])
  = ([TerminatedLoadFailed], Ok tt).
Proof.
  apply (proj2 (file_without_rows_ends_the_run sum_floats_plain header_row
                  [[]; []]
                  (fun column H => H)
                  (fun record H =>
                     match H with
                     | or_introl E => eq_sym E
                     | or_intror (or_introl E) => eq_sym E
                     | or_intror (or_intror F) => match F with end
                     end))).
Defined.

Lemma load_rows_print_no_table rows row_num menu_items :
  existsb is_table (fst (load_rows rows row_num menu_items)) = false.
Proof.
  destruct (load_rows_outcome rows row_num menu_items)
    as [(built & _ & ->)|(good & built & bad & rest & e & _ & _ & _ & ->)];
    [reflexivity|].
  unfold failure_log. destruct (is_data_error e); reflexivity.
Qed.

Lemma structure_check_prints_no_table f :
  existsb is_table (fst (validate_csv_structure f)) = false.
Proof.
  destruct f as [|[|[|h header] rest]]; try reflexivity.
  unfold validate_csv_structure. cbn [DictReader_fieldnames].
  destruct (missing_fields (h :: header)); reflexivity.
Qed.

Lemma load_prints_no_table f :
  existsb is_table (fst (load_data_from_csv f)) = false.
Proof.
  destruct f as [|records]; [reflexivity|]. apply load_rows_print_no_table.
Qed.

(** A table in the log takes an accepted structure and a loaded item. *)
Lemma table_in_log_after_load (py_sum : list float -> float) (f : source) :
  existsb is_table (fst (main py_sum f)) = true ->
  snd (validate_csv_structure f) = true
  /\ exists menu_items,
      snd (load_data_from_csv f) = Some menu_items /\ menu_items <> [].
Proof.
  intros Hsome. unfold main in Hsome.
  pose proof (structure_check_prints_no_table f) as H1.
  pose proof (load_prints_no_table f) as H2.
  destruct (validate_csv_structure f) as [out1 ok]. simpl in H1.
  destruct ok; simpl in Hsome.
  - destruct (load_data_from_csv f) as [out2 [[|entry menu_items]|]];
      simpl in H2, Hsome.
    + rewrite !existsb_app, H1, H2 in Hsome. discriminate.
    + split; [reflexivity|]. eexists. split; [reflexivity | discriminate].
    + rewrite !existsb_app, H1, H2 in Hsome. discriminate.
  - rewrite existsb_app, H1 in Hsome. discriminate.
Qed.

(** ** The two classifications against each other *)

Lemma rating_thresholds_exclusive (avg : float) :
  fge avg lit_4_5 = true -> flt avg lit_3_5 = false.
Proof.
  destruct avg as [s|s| |s m e]; intros H.
  - destruct s; discriminate H.
  - destruct s; [discriminate H | reflexivity].
  - reflexivity.
  - destruct s; [discriminate H|].
    unfold fge, flt, SFleb, SFltb, lit_4_5, lit_3_5 in *.
    cbn [SFcompare] in *.
    destruct (Z.compare_spec (-50) e) as [E1|E1|E1];
      destruct (Z.compare_spec e (-51)) as [E2|E2|E2];
      try reflexivity; try lia; try discriminate H.
Qed.

(** X14: no item is both underrated and unprofitable: a rating that
    compares [>= 4.5] never compares [< 3.5], whatever float it is. *)
Theorem underrated_and_unprofitable_exclude_each_other
  (py_sum : list float -> float) (menu_items : menu) (it : MenuItem) :
  In it (underrated_set py_sum menu_items) ->
  ~ In it (unprofitable_set py_sum menu_items).
Proof.
  unfold underrated_set, unprofitable_set. rewrite !filter_In.
  unfold underrated, unprofitable.
  intros (_ & Hu) (_ & Hp).
  apply andb_true_iff in Hu as (Hu & _). apply andb_true_iff in Hp as (Hp & _).
  apply rating_thresholds_exclusive in Hu. congruence.
Qed.

Lemma underrated_and_unprofitable_exclude_each_other_witness :
  exists menu_items garlic,
    snd (load_data_from_csv (Content sample_data)) = Some menu_items
    /\ PyDict.get opt_string_dec menu_items (Some "Garlic Bread") = Some garlic
    /\ ~ In garlic (unprofitable_set sum_floats_plain menu_items).
Proof.
  do 2 eexists.
  split; [vm_compute; reflexivity|].
  split; [vm_compute; reflexivity|].
  apply underrated_and_unprofitable_exclude_each_other.
  vm_compute. left. reflexivity.
Defined.

(** ** Reports that can fail *)

Lemma map_res_raise_from {A B : Type} (f : A -> res B) l e :
  map_res f l = Raise e -> exists a, In a l /\ f a = Raise e.
Proof.
  induction l as [|x l IH]; simpl; [discriminate|].
  destruct (f x) as [b|e0] eqn:E; cbn [bind].
  - destruct (map_res f l) as [bs|e1]; cbn [bind]; [discriminate|].
    intros H. injection H as <-.
    destruct (IH eq_refl) as (a & Ha & Hf). eauto.
  - intros H. injection H as <-. eauto.
Qed.

Lemma float_of_int_raise n e : float_of_int n = Raise e -> e = OverflowError.
Proof.
  unfold float_of_int.
  destruct (float_of_ratio (n <? 0) (Z.abs n) 1); congruence.
Qed.

(** An integer below [2^1023] in magnitude converts to a float. *)
Lemma float_of_int_in_range n :
  Z.abs n < 2 ^ 1023 -> exists x, float_of_int n = Ok x.
Proof.
  intros Hn. unfold float_of_int, float_of_ratio.
  destruct (Z.abs n <=? 0) eqn:E0; [eauto|].
  apply Z.leb_gt in E0.
  assert (Hl : ratio_exponent (Z.abs n) 1 < 1023)
    by (apply ratio_exponent_below; lia).
  set (e := Z.max (ratio_exponent (Z.abs n) 1 - 52) (-1074)).
  assert (He : e <= 970) by (unfold e; lia).
  destruct (scaled_rne (Z.abs n) 1 e =? 2 ^ 53).
  - change (2 ^ 52) with (Zpos (Z.to_pos (2 ^ 52))). cbv iota beta.
    replace (e + 1 <=? emax - prec) with true
      by (symmetry; apply Z.leb_le; unfold emax, prec; lia).
    eauto.
  - destruct (scaled_rne (Z.abs n) 1 e) as [|m|m]; eauto.
    replace (e <=? emax - prec) with true
      by (symmetry; apply Z.leb_le; unfold emax, prec; lia).
    eauto.
Qed.

Section ReportFacts.

Variable py_sum : list float -> float.

Lemma display_row_returns it : exists cells, display_row py_sum it = Ok cells.
Proof.
  unfold display_row. rewrite average_rating_rating_of. cbn [bind]. eauto.
Qed.

Lemma display_menu_table menu_items :
  exists rows,
    display_menu py_sum menu_items = ([Table display_headers rows], Ok tt)
    /\ Forall2 (fun it row => display_row py_sum it = Ok row)
         (PyDict.values menu_items) rows.
Proof.
  unfold display_menu.
  destruct (map_res_total (display_row py_sum) (PyDict.values menu_items))
    as (rows & Hrows); [intros it _; apply display_row_returns|].
  rewrite Hrows. exists rows. split; [reflexivity|].
  now apply map_res_ok.
Qed.

Lemma popular_row_outcome it :
  match float_of_int (total_sales it) with
  | Ok _ => exists cells, popular_row py_sum it = Ok cells
  | Raise _ => popular_row py_sum it = Raise OverflowError
  end.
Proof.
  unfold popular_row, popularity_score.
  rewrite !average_rating_rating_of. cbn [bind].
  destruct (float_of_int (total_sales it)) as [x|e] eqn:E; cbn [bind];
    [eauto|].
  now apply float_of_int_raise in E as ->.
Qed.

Lemma analyze_returns_iff menu_items :
  snd (analyze_popular_items py_sum menu_items) = Ok tt
  <-> forall it, In it (PyDict.values menu_items) ->
                 exists x, float_of_int (total_sales it) = Ok x.
Proof.
  unfold analyze_popular_items. split.
  - intros H it Hin.
    destruct (map_res (popular_row py_sum) (PyDict.values menu_items))
      as [rows|e] eqn:E; [|discriminate].
    apply map_res_ok in E.
    assert (Hrow : exists cells, popular_row py_sum it = Ok cells).
    { clear H. induction E as [|a b l bs Hab _ IH]; [contradiction|].
      destruct Hin as [->|Hin]; [eauto | now apply IH]. }
    pose proof (popular_row_outcome it) as Ho.
    destruct (float_of_int (total_sales it)) as [x|e]; [eauto|].
    destruct Hrow as (cells & Hc). congruence.
  - intros Hall.
    destruct (map_res_total (popular_row py_sum) (PyDict.values menu_items))
      as (rows & ->); [|reflexivity].
    intros it Hin. pose proof (popular_row_outcome it) as Ho.
    destruct (Hall it Hin) as (x & Hx). now rewrite Hx in Ho.
Qed.

Lemma analyze_table menu_items :
  (forall it, In it (PyDict.values menu_items) ->
              exists x, float_of_int (total_sales it) = Ok x) ->
  exists rows,
    analyze_popular_items py_sum menu_items
    = ([Heading "Analysis of Popular Items:"; Table popular_headers rows],
       Ok tt)
    /\ Forall2 (fun it row => popular_row py_sum it = Ok row)
         (PyDict.values menu_items) rows.
Proof.
  intros Hall. unfold analyze_popular_items.
  destruct (map_res_total (popular_row py_sum) (PyDict.values menu_items))
    as (rows & Hrows).
  { intros it Hin. pose proof (popular_row_outcome it) as Ho.
    destruct (Hall it Hin) as (x & Hx). now rewrite Hx in Ho. }
  rewrite Hrows. exists rows. split; [reflexivity|].
  now apply map_res_ok.
Qed.

Lemma analyze_raises_overflow_only menu_items e :
  snd (analyze_popular_items py_sum menu_items) = Raise e -> e = OverflowError.
Proof.
  unfold analyze_popular_items.
  destruct (map_res (popular_row py_sum) (PyDict.values menu_items))
    as [rows|e0] eqn:E; [discriminate|].
  simpl. intros H. injection H as <-.
  apply map_res_raise_from in E as (it & _ & Hit).
  pose proof (popular_row_outcome it) as Ho.
  destruct (float_of_int (total_sales it)) as [x|e1].
  - destruct Ho as (cells & Hc). congruence.
  - congruence.
Qed.

Lemma underrated_report menu_items :
  identify_underrated_items py_sum menu_items
  = ([Heading "Identification of Underrated Items:";
      match report_rows py_sum (underrated_set py_sum menu_items) with
      | [] => NoUnderratedItems
      | rows => Table report_headers rows
      end], Ok tt).
Proof.
  unfold identify_underrated_items.
  rewrite underrated_rows_filter. simpl app.
  fold (underrated_set py_sum menu_items).
  destruct (report_rows py_sum (underrated_set py_sum menu_items));
    reflexivity.
Qed.

Lemma unprofitable_report menu_items :
  identify_unprofitable_items py_sum menu_items
  = ([Heading "Identification of Unprofitable Items:";
      match report_rows py_sum (unprofitable_set py_sum menu_items) with
      | [] => NoUnprofitableItems
      | rows => Table report_headers rows
      end], Ok tt).
Proof.
  unfold identify_unprofitable_items.
  rewrite unprofitable_rows_filter. simpl app.
  fold (unprofitable_set py_sum menu_items).
  destruct (report_rows py_sum (unprofitable_set py_sum menu_items));
    reflexivity.
Qed.

End ReportFacts.

(** X15: the rows of the popularity table are computed for every item
    exactly when the total sales of every item convert to a float, which
    every total below [2^1023] in magnitude does; otherwise the product
    [total_sales * 0.6] raises [OverflowError], the only exception the
    computation of the rows can raise, after the heading has been printed
    and before any line of the table. *)
Theorem popularity_rows_fail_only_on_overflow
  (py_sum : list float -> float) (menu_items : menu) :
  (snd (analyze_popular_items py_sum menu_items) = Ok tt
   <-> forall it, In it (PyDict.values menu_items) ->
                  exists x, float_of_int (total_sales it) = Ok x)
  /\ (forall e,
         snd (analyze_popular_items py_sum menu_items) = Raise e ->
         e = OverflowError
         /\ fst (analyze_popular_items py_sum menu_items)
            = [Heading "Analysis of Popular Items:"])
  /\ ((forall it, In it (PyDict.values menu_items) ->
                  Z.abs (total_sales it) < 2 ^ 1023) ->
      snd (analyze_popular_items py_sum menu_items) = Ok tt).
Proof.
  split; [apply analyze_returns_iff|].
  split.
  - intros e He. split; [now apply (analyze_raises_overflow_only py_sum menu_items)|].
    unfold analyze_popular_items in *.
    destruct (map_res (popular_row py_sum) (PyDict.values menu_items));
      [discriminate He | reflexivity].
  - intros Hall. apply analyze_returns_iff.
    intros it Hin. apply float_of_int_in_range, Hall, Hin.
Qed.

Lemma popularity_rows_fail_only_on_overflow_witness :
  exists menu_items,
    snd (load_data_from_csv (Content records_with_huge_sales)) = Some menu_items
    /\ snd (analyze_popular_items sum_floats_plain menu_items)
       = Raise OverflowError
    /\ snd (printed_main sum_floats_plain (Content records_with_huge_sales))
       = Some (Pipeline OverflowError)
    /\ snd (analyze_popular_items sum_floats_plain PyDict.empty) = Ok tt.
Proof.
  eexists. split; [vm_compute; reflexivity|].
  split; [|split].
  - match goal with
    | |- snd (analyze_popular_items _ ?m) = _ =>
        destruct (snd (analyze_popular_items sum_floats_plain m)) as [[]|e] eqn:E
    end.
    + exfalso.
      pose proof (proj1 (proj1 (popularity_rows_fail_only_on_overflow
                                  sum_floats_plain _)) E) as Hall.
      destruct (Hall _ (or_introl eq_refl)) as (x & Hx).
      vm_compute in Hx. discriminate Hx.
    + f_equal.
      apply (proj1 (proj2 (popularity_rows_fail_only_on_overflow
                             sum_floats_plain _)) e E).
  - vm_compute. reflexivity.
  - apply (proj2 (proj2 (popularity_rows_fail_only_on_overflow
                           sum_floats_plain PyDict.empty))).
    intros it [].
Defined.

(** ** A whole run *)

Lemma accepted_prints_nothing f :
  snd (validate_csv_structure f) = true -> validate_csv_structure f = ([], true).
Proof.
  destruct f as [|[|[|h header] rest]]; try discriminate.
  unfold validate_csv_structure. cbn [DictReader_fieldnames].
  destruct (missing_fields (h :: header)); [reflexivity | discriminate].
Qed.

Lemma loaded_prints_nothing f menu_items :
  snd (load_data_from_csv f) = Some menu_items ->
  load_data_from_csv f = ([], Some menu_items).
Proof.
  destruct f as [|records]; [discriminate|].
  unfold load_data_from_csv.
  destruct (load_rows_outcome (DictReader_rows records) 1 PyDict.empty)
    as [(built & _ & ->)|(good & built & bad & rest & e & _ & _ & _ & ->)];
    simpl; [congruence | discriminate].
Qed.

(** The log of a run that loads its file. *)
Lemma main_log_after_load
  (py_sum : list float -> float) (f : source) (menu_items : menu) :
  snd (validate_csv_structure f) = true ->
  snd (load_data_from_csv f) = Some menu_items ->
  menu_items <> [] ->
  (forall it, In it (PyDict.values menu_items) ->
              Z.abs (total_sales it) < 2 ^ 1023) ->
  exists menu_rows popular_rows,
    Forall2 (fun it row => display_row py_sum it = Ok row)
      (PyDict.values menu_items) menu_rows
    /\ Forall2 (fun it row => popular_row py_sum it = Ok row)
         (PyDict.values menu_items) popular_rows
    /\ main py_sum f
       = ([ Table display_headers menu_rows;
            Heading "Analysis of Popular Items:";
            Table popular_headers popular_rows;
            Heading "Identification of Underrated Items:";
            match report_rows py_sum (underrated_set py_sum menu_items) with
            | [] => NoUnderratedItems
            | rows => Table report_headers rows
            end;
            Heading "Identification of Unprofitable Items:";
            match report_rows py_sum (unprofitable_set py_sum menu_items) with
            | [] => NoUnprofitableItems
            | rows => Table report_headers rows
            end ], Ok tt).
Proof.
  intros Hvalid Hload Hne Hbound.
  destruct (display_menu_table py_sum menu_items) as (menu_rows & Hd & Hdl).
  destruct (analyze_table py_sum menu_items) as (popular_rows & Ha & Hal).
  { intros it Hin. apply float_of_int_in_range, Hbound, Hin. }
  exists menu_rows, popular_rows.
  split; [exact Hdl|]. split; [exact Hal|].
  unfold main.
  rewrite (accepted_prints_nothing f Hvalid).
  rewrite (loaded_prints_nothing f menu_items Hload).
  cbn [negb].
  destruct menu_items as [|entry more]; [congruence|].
  rewrite Hd, Ha, underrated_report, unprofitable_report.
  reflexivity.
Qed.

(** ** Printing a table *)

Lemma all_some_map {A : Type} (l : list (option A)) (xs : list A) :
  all_some l = Some xs -> l = map Some xs.
Proof.
  revert xs. induction l as [|[a|] l IH]; intros xs H; simpl in H.
  - injection H as <-. reflexivity.
  - destruct (all_some l) as [ys|]; [|discriminate].
    injection H as <-. simpl. now rewrite (IH ys).
  - discriminate.
Qed.

Lemma all_some_none {A : Type} (l : list (option A)) :
  all_some l = None -> In None l.
Proof.
  induction l as [|[a|] l IH]; simpl; intros H; [discriminate| |now left].
  destruct (all_some l); [discriminate | right; now apply IH].
Qed.

Lemma length_times c k : String.length (times c k) = k.
Proof. induction k; simpl; congruence. Qed.

Lemma length_pad text w :
  (String.length text <= w)%nat -> String.length (pad text w) = w.
Proof. intros H. unfold pad. rewrite length_app, length_times. lia. Qed.

Lemma col_width_bound i table w row :
  col_width i table = Some w -> In row table ->
  exists c, nth_error row i = Some c /\ (String.length (cell_str c) <= w)%nat.
Proof.
  unfold col_width. revert w.
  induction table as [|r table IH]; intros w H Hin; [contradiction|].
  simpl in H.
  destruct (nth_error r i) as [c|] eqn:Ec; [|discriminate]. simpl in H.
  destruct (all_some _) as [ls|] eqn:El; [|discriminate].
  simpl in H. injection H as <-.
  destruct Hin as [->|Hin].
  - exists c. split; [exact Ec | lia].
  - destruct (IH (fold_right Nat.max O ls) eq_refl Hin) as (c' & Hc' & Hle).
    exists c'. split; [exact Hc' | lia].
Qed.

Lemma col_width_short i table :
  col_width i table = None ->
  exists row, In row table /\ (List.length row <= i)%nat.
Proof.
  unfold col_width. intros H.
  destruct (all_some _) as [ls|] eqn:El; [discriminate|].
  apply all_some_none in El. apply in_map_iff in El as (row & Hrow & Hin).
  exists row. split; [exact Hin|].
  destruct (nth_error row i) eqn:E; [discriminate|].
  now apply nth_error_None.
Qed.

Lemma col_width_total i table :
  (forall row, In row table -> (i < List.length row)%nat) ->
  exists w, col_width i table = Some w.
Proof.
  intros Hall. destruct (col_width i table) as [w|] eqn:E; [eauto|].
  apply col_width_short in E as (row & Hin & Hle).
  specialize (Hall row Hin). lia.
Qed.

Lemma fits_by_index row widths :
  (forall i, (i < List.length widths)%nat ->
     exists c, nth_error row i = Some c
               /\ (String.length (cell_str c) <= nth i widths O)%nat) ->
  fits row widths = true.
Proof.
  revert row. induction widths as [|w widths IH]; intros row H; [reflexivity|].
  destruct (H O) as (c & Hc & Hle); [simpl; lia|].
  destruct row as [|c0 row]; [discriminate|].
  simpl in Hc. injection Hc as ->. simpl.
  apply andb_true_iff. split; [now apply Nat.leb_le|].
  apply IH. intros i Hi. apply (H (S i)). simpl. lia.
Qed.

Lemma col_widths_facts headers rows widths :
  col_widths headers rows = Some widths ->
  List.length widths = List.length headers
  /\ forall row, In row (map CStr headers :: rows) -> fits row widths = true.
Proof.
  unfold col_widths. intros H. apply all_some_map in H.
  assert (Hlen : List.length widths = List.length headers).
  { apply (f_equal (@List.length _)) in H.
    now rewrite !length_map, length_seq in H. }
  split; [exact Hlen|].
  intros row Hin. apply fits_by_index. intros i Hi.
  apply (col_width_bound i (map CStr headers :: rows)); [|exact Hin].
  apply (f_equal (fun l => nth_error l i)) in H.
  rewrite nth_error_map, nth_error_map in H.
  rewrite (nth_error_nth' widths O Hi) in H.
  rewrite (nth_error_nth' (seq 0 (List.length headers)) O) in H
    by (rewrite length_seq; lia).
  rewrite seq_nth in H by lia. simpl in H. now injection H.
Qed.

Lemma col_widths_short headers rows :
  col_widths headers rows = None ->
  exists row, In row rows /\ (List.length row < List.length headers)%nat.
Proof.
  unfold col_widths. intros H. apply all_some_none in H.
  apply in_map_iff in H as (i & Hi & Hin).
  apply in_seq in Hin. apply col_width_short in Hi as (row & Hrow & Hle).
  destruct Hrow as [<-|Hrow].
  - rewrite length_map in Hle. lia.
  - exists row. split; [exact Hrow | lia].
Qed.

Lemma col_widths_total headers rows :
  (forall row, In row rows -> (List.length headers <= List.length row)%nat) ->
  exists widths, col_widths headers rows = Some widths.
Proof.
  intros Hall. destruct (col_widths headers rows) as [ws|] eqn:E; [eauto|].
  apply col_widths_short in E as (row & Hin & Hlt).
  specialize (Hall row Hin). lia.
Qed.

(** The cells of a line and the widths they are padded to. *)
Lemma formatted_cells row widths cells :
  fits row widths = true ->
  all_some (map format_cell (combine row widths)) = Some cells ->
  Forall2 (fun s w => String.length s = w) cells widths.
Proof.
  revert row cells.
  induction widths as [|w widths IH]; intros row cells Hf H.
  - destruct row; simpl in H; injection H as <-; constructor.
  - destruct row as [|c row]; [discriminate|]. simpl in Hf.
    apply andb_true_iff in Hf as (Hle & Hf). apply Nat.leb_le in Hle.
    simpl in H. unfold format_cell at 1 in H. simpl in H.
    destruct c as [|s|n]; [discriminate| |];
      (destruct (all_some _) as [rest|] eqn:E; [|discriminate];
       simpl in H; injection H as <-;
       constructor; [now apply length_pad | now apply (IH row)]).
Qed.

Lemma length_joined cells widths :
  Forall2 (fun s w => String.length s = w) cells widths ->
  String.length (PyStr.join " | " cells)
  = Z.to_nat (Z.of_nat (fold_right Nat.add O widths)
              + 3 * (Z.of_nat (List.length widths) - 1)).
Proof.
  induction 1 as [|s w cells widths Hs Hrest IH]; [reflexivity|].
  destruct Hrest as [|s' w' cells widths Hs' Hrest].
  - simpl. lia.
  - change (PyStr.join " | " (s :: s' :: cells))
      with (s ++ " | " ++ PyStr.join " | " (s' :: cells))%string.
    rewrite !length_app, IH.
    change (String.length " | ") with 3%nat.
    cbn [fold_right List.length]. lia.
Qed.

Lemma format_row_length row widths line :
  fits row widths = true ->
  format_row row widths = Some line ->
  String.length line
  = Z.to_nat (Z.of_nat (fold_right Nat.add O widths)
              + 3 * (Z.of_nat (List.length widths) - 1)).
Proof.
  unfold format_row. intros Hf H.
  destruct (all_some _) as [cells|] eqn:E; [|discriminate].
  simpl in H. injection H as <-.
  apply length_joined. now apply (formatted_cells row).
Qed.

Lemma format_headers_row headers widths :
  format_row (map CStr headers) widths = Some (format_headers headers widths).
Proof.
  unfold format_row, format_headers.
  assert (H : all_some (map format_cell (combine (map CStr headers) widths))
              = Some (map (fun hw => pad (fst hw) (snd hw))
                        (combine headers widths))).
  { revert widths. induction headers as [|h headers IH]; intros [|w widths];
      try reflexivity.
    simpl. now rewrite IH. }
  now rewrite H.
Qed.

Lemma print_rows_lengths rows widths width :
  (forall row, In row rows -> fits row widths = true) ->
  width = Z.to_nat (Z.of_nat (fold_right Nat.add O widths)
                    + 3 * (Z.of_nat (List.length widths) - 1)) ->
  forall line, In line (fst (print_rows rows widths)) ->
               String.length line = width.
Proof.
  intros Hfits ->. induction rows as [|row rows IH]; [intros line []|].
  simpl. destruct (format_row row widths) as [l|] eqn:E; [|intros line []].
  destruct (print_rows rows widths) as [lines e] eqn:Ep. simpl.
  intros line [<-|Hin].
  - apply (format_row_length row); [apply Hfits; now left | exact E].
  - apply IH; [intros r Hr; apply Hfits; now right | exact Hin].
Qed.

Lemma format_row_formats row widths :
  (List.length widths <= List.length row)%nat ->
  (exists line, format_row row widths = Some line)
  <-> existsb is_none (firstn (List.length widths) row) = false.
Proof.
  unfold format_row. revert row.
  induction widths as [|w widths IH]; intros row Hlen.
  - destruct row; simpl; split; eauto.
  - destruct row as [|c row]; [simpl in Hlen; lia|].
    simpl in Hlen. assert (Hlen' : (List.length widths <= List.length row)%nat)
      by lia.
    specialize (IH row Hlen').
    cbn [combine map all_some firstn List.length existsb].
    unfold format_cell at 1. cbn [fst snd].
    destruct c as [|s|n]; cbn [is_none orb].
    + split; [intros (line & H); discriminate | discriminate].
    + destruct (all_some (map format_cell (combine row widths))) as [cells|];
        cbn [option_map] in *.
      * split; [intros _; apply IH; eauto | eauto].
      * split; [intros (line & H); discriminate|].
        intros H. apply IH in H as (line & H). discriminate.
    + destruct (all_some (map format_cell (combine row widths))) as [cells|];
        cbn [option_map] in *.
      * split; [intros _; apply IH; eauto | eauto].
      * split; [intros (line & H); discriminate|].
        intros H. apply IH in H as (line & H). discriminate.
Qed.

Lemma print_rows_outcome rows widths :
  (forall row, In row rows -> (List.length widths <= List.length row)%nat) ->
  List.length (fst (print_rows rows widths))
  = List.length (formatted_prefix (List.length widths) rows)
  /\ snd (print_rows rows widths)
     = if forallb (formats (List.length widths)) rows
       then None else Some (Pipeline TypeError).
Proof.
  induction rows as [|row rows IH]; intros Hall; [split; reflexivity|].
  assert (Hrow : (List.length widths <= List.length row)%nat)
    by (apply Hall; now left).
  destruct IH as (IH1 & IH2); [intros r Hr; apply Hall; now right|].
  pose proof (format_row_formats row widths Hrow) as Hf.
  assert (Hfm : formats (List.length widths) row
                = negb (existsb is_none (firstn (List.length widths) row))).
  { unfold formats.
    replace (List.length widths <=? List.length row)%nat with true
      by (symmetry; now apply Nat.leb_le).
    reflexivity. }
  cbn [print_rows formatted_prefix forallb]. rewrite Hfm.
  destruct (format_row row widths) as [line|].
  - rewrite (proj1 Hf) by eauto. cbn [negb andb].
    destruct (print_rows rows widths) as [lines e]. simpl in *.
    split; [now rewrite IH1 | exact IH2].
  - destruct (existsb is_none (firstn (List.length widths) row)).
    + split; reflexivity.
    + destruct (proj2 Hf eq_refl) as (line & H). discriminate.
Qed.

(** X16: the lines a table prints (header, rule and rows, also when a
    later row stops the printing) all have the same length: every cell is
    padded to the width of its column, which no cell of that column
    exceeds, and cells beyond the last header are dropped. *)
Theorem table_lines_have_one_length
  (headers : list string) (rows : list (list cell)) :
  exists width,
    forall line, In line (fst (print_table headers rows)) ->
                 String.length line = width.
Proof.
  unfold print_table.
  destruct (col_widths headers rows) as [widths|] eqn:E;
    [|exists O; intros line []].
  apply col_widths_facts in E as (Hlen & Hfits).
  exists (Z.to_nat (rule_length headers widths)).
  destruct (print_rows rows widths) as [lines e] eqn:Ep.
  assert (Hw : Z.to_nat (rule_length headers widths)
               = Z.to_nat (Z.of_nat (fold_right Nat.add O widths)
                           + 3 * (Z.of_nat (List.length widths) - 1)))
    by (unfold rule_length; now rewrite Hlen).
  intros line [<-|[<-|Hin]].
  - rewrite Hw. apply (format_row_length (map CStr headers));
      [apply Hfits; now left | apply format_headers_row].
  - apply length_times.
  - apply (print_rows_lengths rows widths); [| exact Hw |].
    + intros row Hrow. apply Hfits. now right.
    + now rewrite Ep.
Qed.

Lemma print_table_cases
  (headers : list string) (rows : list (list cell)) :
  let n := List.length headers in
  if forallb (fun row => (n <=? List.length row)%nat) rows
  then List.length (fst (print_table headers rows))
       = (2 + List.length (formatted_prefix n rows))%nat
       /\ snd (print_table headers rows)
          = if forallb (formats n) rows then None
            else Some (Pipeline TypeError)
  else print_table headers rows = ([], Some IndexError).
Proof.
  intros n. unfold print_table.
  destruct (forallb (fun row => (n <=? List.length row)%nat) rows) eqn:Hall.
  - assert (Hrows : forall row, In row rows -> (n <= List.length row)%nat).
    { intros row Hin. rewrite forallb_forall in Hall.
      now apply Nat.leb_le, Hall. }
    destruct (col_widths_total headers rows Hrows) as (widths & E).
    rewrite E. apply col_widths_facts in E as (Hlen & _).
    destruct (print_rows_outcome rows widths) as (H1 & H2);
      [now rewrite Hlen|].
    rewrite Hlen in H1, H2. fold n in H1, H2.
    destruct (print_rows rows widths) as [lines e]. simpl in *.
    split; [now rewrite H1 | exact H2].
  - destruct (col_widths headers rows) as [widths|] eqn:E; [|reflexivity].
    exfalso. apply col_widths_facts in E as (Hlen & Hfits).
    assert (Hnot : forallb (fun row => (n <=? List.length row)%nat) rows
                   = true); [|congruence].
    apply forallb_forall. intros row Hin. apply Nat.leb_le.
    assert (Hf : fits row widths = true) by (apply Hfits; now right).
    unfold n. rewrite <- Hlen. clear - Hf.
    revert row Hf. induction widths as [|w widths IH]; intros row Hf;
      [simpl; lia|].
    destruct row as [|c row]; [discriminate|].
    simpl in Hf. apply andb_true_iff in Hf as (_ & Hf).
    simpl. specialize (IH row Hf). lia.
Qed.


(** ** The reports as printed *)

Lemma render_table_returns headers rows rest r :
  snd (print_table headers rows) = None ->
  render (Table headers rows :: rest) r
  = (table_lines headers rows ++ fst (render rest r), snd (render rest r)).
Proof.
  intros H. cbn [render]. unfold table_lines.
  destruct (print_table headers rows) as [lines e]. simpl in H. subst e.
  destruct (render rest r). reflexivity.
Qed.

Lemma render_table_raises headers rows rest r e :
  snd (print_table headers rows) = Some e ->
  render (Table headers rows :: rest) r = (table_lines headers rows, Some e).
Proof.
  intros H. cbn [render]. unfold table_lines.
  destruct (print_table headers rows) as [lines e']. simpl in H. subst e'.
  reflexivity.
Qed.

Lemma render_message m rest r :
  is_table m = false ->
  render (m :: rest) r = (Message m :: fst (render rest r), snd (render rest r)).
Proof.
  intros H. destruct m; try discriminate H; cbn [render];
    destruct (render rest r); reflexivity.
Qed.

Lemma line_comes_from_a_table out r text :
  In (Line text) (fst (render out r)) -> existsb is_table out = true.
Proof.
  induction out as [|m out IH]; cbn [render]; [intros []|].
  destruct m;
    try (destruct (render out r) as [more ending];
         cbn [fst existsb is_table orb] in *;
                   intros [H|H]; [discriminate H | now apply IH]).
  intros _. reflexivity.
Qed.

(** X18: a run prints a line of a table only for a file the structure
    check accepted and whose load returned a mapping with at least one
    item: nothing of a refused or partly loaded file is ever tabulated. *)
Theorem table_lines_only_after_a_full_load
  (py_sum : list float -> float) (f : source) (text : string) :
  In (Line text) (fst (printed_main py_sum f)) ->
  snd (validate_csv_structure f) = true
  /\ exists menu_items,
      snd (load_data_from_csv f) = Some menu_items /\ menu_items <> [].
Proof.
  intros Hin. apply (table_in_log_after_load py_sum).
  unfold printed_main in Hin.
  destruct (main py_sum f) as [out r]. cbn [fst].
  now apply (line_comes_from_a_table out r text).
Qed.

Lemma table_lines_only_after_a_full_load_witness :
  snd (validate_csv_structure (Content sample_data)) = true
  /\ exists menu_items,
      snd (load_data_from_csv (Content sample_data)) = Some menu_items
      /\ menu_items <> [].
Proof.
  destruct (fst (printed_main sum_floats_plain (Content sample_data)))
    as [|[m|text] rest] eqn:E;
    [vm_compute in E; discriminate E | vm_compute in E; discriminate E |].
  apply (table_lines_only_after_a_full_load sum_floats_plain
           (Content sample_data) text).
  rewrite E. left. reflexivity.
Defined.

Lemma formats_cell_of n (cells : list cell) :
  List.length cells = n ->
  formats n cells = negb (existsb is_none cells).
Proof.
  intros <-. unfold formats. rewrite Nat.leb_refl, firstn_all. reflexivity.
Qed.

Section RowsAsPrinted.

Variable py_sum : list float -> float.

Lemma display_row_cells it row :
  display_row py_sum it = Ok row ->
  List.length row = 5%nat /\ formats 5 row = labelled it.
Proof.
  unfold display_row. rewrite average_rating_rating_of. cbn [bind].
  intros H. injection H as <-. split; [reflexivity|].
  rewrite formats_cell_of by reflexivity. unfold labelled.
  destruct (item it), (category it); reflexivity.
Qed.

Lemma popular_row_cells it row :
  popular_row py_sum it = Ok row ->
  List.length row = 5%nat /\ formats 5 row = labelled it.
Proof.
  unfold popular_row, popularity_score.
  rewrite !average_rating_rating_of. cbn [bind].
  destruct (float_of_int (total_sales it)); cbn [bind]; [|discriminate].
  intros H. injection H as <-. split; [reflexivity|].
  rewrite formats_cell_of by reflexivity. unfold labelled.
  destruct (item it), (category it); reflexivity.
Qed.

Lemma report_row_cells it avg :
  List.length (report_row it avg) = 4%nat
  /\ formats 4 (report_row it avg) = labelled it.
Proof.
  split; [reflexivity|].
  rewrite formats_cell_of by reflexivity. unfold labelled, report_row.
  destruct (item it), (category it); reflexivity.
Qed.

End RowsAsPrinted.

(** Rows that have the cells of the columns, and [None] where their item
    lacks a name or a category: the table stops at the first such item. *)
Lemma table_of_items (headers : list string)
  (made : MenuItem -> list cell -> Prop) items rows :
  (forall it row, made it row ->
     List.length row = List.length headers
     /\ formats (List.length headers) row = labelled it) ->
  Forall2 made items rows ->
  List.length (fst (print_table headers rows))
  = (2 + List.length (labelled_prefix items))%nat
  /\ snd (print_table headers rows)
     = if forallb labelled items then None else Some (Pipeline TypeError).
Proof.
  intros Hmade Hrows.
  assert (H : forallb (fun row =>
                         (List.length headers <=? List.length row)%nat) rows
              = true
              /\ forallb (formats (List.length headers)) rows
                 = forallb labelled items
              /\ List.length (formatted_prefix (List.length headers) rows)
                 = List.length (labelled_prefix items)).
  { induction Hrows as [|it row items rows Hit _ IH];
      [repeat split; reflexivity|].
    destruct (Hmade it row Hit) as (Hlen & Hfm).
    destruct IH as (IH1 & IH2 & IH3).
    cbn [forallb formatted_prefix labelled_prefix].
    rewrite Hlen, Nat.leb_refl, IH1, Hfm, IH2.
    split; [reflexivity|]. split; [reflexivity|].
    destruct (labelled it); simpl; congruence. }
  destruct H as (H1 & H2 & H3).
  pose proof (print_table_cases headers rows) as Hc. cbv zeta in Hc.
  rewrite H1 in Hc. destruct Hc as (Hc1 & Hc2).
  now rewrite Hc1, Hc2, H2, H3.
Qed.

Lemma labelled_prefix_all items :
  forallb labelled items = true -> labelled_prefix items = items.
Proof.
  induction items as [|it items IH]; simpl; [reflexivity|].
  intros H. apply andb_true_iff in H as (-> & H). now rewrite IH.
Qed.

Lemma labelled_subset (p : MenuItem -> bool) items :
  forallb labelled items = true -> forallb labelled (filter p items) = true.
Proof.
  rewrite !forallb_forall. intros H it Hin.
  apply filter_In in Hin as (Hin & _). now apply H.
Qed.

Lemma report_table_returns py_sum items :
  forallb labelled items = true ->
  snd (print_table report_headers (report_rows py_sum items)) = None.
Proof.
  intros Hall.
  destruct (table_of_items report_headers
              (fun it row => row = report_row it (rating_of py_sum it))
              items (report_rows py_sum items)) as (_ & H).
  - intros it row ->. apply report_row_cells.
  - unfold report_rows. clear. induction items; simpl; constructor; auto.
  - now rewrite Hall in H.
Qed.

Lemma render_section py_sum note items rest r :
  is_table note = false ->
  forallb labelled items = true ->
  render (match report_rows py_sum items with
          | [] => note
          | rows => Table report_headers rows
          end :: rest) r
  = (section_lines note (report_rows py_sum items) ++ fst (render rest r),
     snd (render rest r)).
Proof.
  intros Hnote Hall.
  pose proof (report_table_returns py_sum items Hall) as Hret.
  unfold section_lines.
  destruct (report_rows py_sum items) as [|row rows].
  - now rewrite render_message.
  - now rewrite render_table_returns.
Qed.

(** X19: [display_menu] prints its table in full and returns exactly when
    every item has a name and a category; otherwise it prints the header,
    the rule and the rows of the items before the first one that lacks
    either, and raises [TypeError] at that row. *)
Theorem display_menu_stops_at_an_unlabelled_item
  (py_sum : list float -> float) (menu_items : menu) :
  exists rows,
    display_menu py_sum menu_items = ([Table display_headers rows], Ok tt)
    /\ render [Table display_headers rows] (Ok tt)
       = (table_lines display_headers rows,
          if forallb labelled (PyDict.values menu_items) then None
          else Some (Pipeline TypeError))
    /\ List.length (table_lines display_headers rows)
       = (2 + List.length (labelled_prefix (PyDict.values menu_items)))%nat.
Proof.
  destruct (display_menu_table py_sum menu_items) as (rows & Hd & Hrows).
  exists rows. split; [exact Hd|].
  destruct (table_of_items display_headers _ _ _
              (display_row_cells py_sum) Hrows) as (Hlen & Hend).
  split.
  - destruct (forallb labelled (PyDict.values menu_items)).
    + rewrite (render_table_returns _ _ _ _ Hend). simpl.
      now rewrite app_nil_r.
    + now rewrite (render_table_raises _ _ _ _ _ Hend).
  - unfold table_lines. now rewrite length_map.
Qed.

(** The run of a file that loads, tables printed. *)
Lemma printed_main_after_load
  (py_sum : list float -> float) (f : source) (menu_items : menu) :
  snd (validate_csv_structure f) = true ->
  snd (load_data_from_csv f) = Some menu_items ->
  menu_items <> [] ->
  (forall it, In it (PyDict.values menu_items) ->
              Z.abs (total_sales it) < 2 ^ 1023) ->
  forallb labelled (PyDict.values menu_items) = true ->
  exists menu_rows popular_rows,
    List.length (table_lines display_headers menu_rows)
    = (2 + List.length menu_items)%nat
    /\ List.length (table_lines popular_headers popular_rows)
       = (2 + List.length menu_items)%nat
    /\ printed_main py_sum f
       = (table_lines display_headers menu_rows
          ++ Message (Heading "Analysis of Popular Items:")
          :: table_lines popular_headers popular_rows
          ++ Message (Heading "Identification of Underrated Items:")
          :: section_lines NoUnderratedItems
               (report_rows py_sum (underrated_set py_sum menu_items))
          ++ Message (Heading "Identification of Unprofitable Items:")
          :: section_lines NoUnprofitableItems
               (report_rows py_sum (unprofitable_set py_sum menu_items)),
          None).
Proof.
  intros Hvalid Hload Hne Hbound Hall.
  destruct (main_log_after_load py_sum f menu_items Hvalid Hload Hne Hbound)
    as (menu_rows & popular_rows & Hm & Hp & Hmain).
  destruct (table_of_items display_headers _ _ _
              (display_row_cells py_sum) Hm) as (Hml & Hme).
  destruct (table_of_items popular_headers _ _ _
              (popular_row_cells py_sum) Hp) as (Hpl & Hpe).
  rewrite Hall in Hme, Hpe.
  rewrite (labelled_prefix_all _ Hall) in Hml, Hpl.
  assert (Hcount : List.length (PyDict.values menu_items)
                   = List.length menu_items)
    by (unfold PyDict.values; apply length_map).
  exists menu_rows, popular_rows.
  split; [unfold table_lines; rewrite length_map; congruence|].
  split; [unfold table_lines; rewrite length_map; congruence|].
  unfold printed_main. rewrite Hmain.
  rewrite (render_table_returns _ _ _ _ Hme).
  rewrite render_message by reflexivity. cbn [fst snd].
  rewrite (render_table_returns _ _ _ _ Hpe).
  rewrite render_message by reflexivity. cbn [fst snd].
  rewrite render_section
    by (try reflexivity; apply labelled_subset, Hall).
  rewrite render_message by reflexivity. cbn [fst snd].
  rewrite render_section
    by (try reflexivity; apply labelled_subset, Hall).
  cbn [render fst snd]. rewrite app_nil_r. reflexivity.
Qed.

(** X20: for a file the structure check accepts, whose load returns at
    least one item, all items with a name and a category and all totals
    below [2^1023] in magnitude, [main] prints, in this order and nothing
    else, the menu table and after its heading the popularity table, each
    with one row per item, then under its heading the underrated items or
    the note that there are none, then the same for the unprofitable items,
    and returns. *)
Theorem main_prints_the_four_reports
  (py_sum : list float -> float) (f : source) (menu_items : menu) :
  snd (validate_csv_structure f) = true ->
  snd (load_data_from_csv f) = Some menu_items ->
  menu_items <> [] ->
  (forall it, In it (PyDict.values menu_items) ->
              Z.abs (total_sales it) < 2 ^ 1023) ->
  forallb labelled (PyDict.values menu_items) = true ->
  exists menu_rows popular_rows,
    List.length (table_lines display_headers menu_rows)
    = (2 + List.length menu_items)%nat
    /\ List.length (table_lines popular_headers popular_rows)
       = (2 + List.length menu_items)%nat
    /\ printed_main py_sum f
       = (table_lines display_headers menu_rows
          ++ Message (Heading "Analysis of Popular Items:")
          :: table_lines popular_headers popular_rows
          ++ Message (Heading "Identification of Underrated Items:")
          :: section_lines NoUnderratedItems
               (report_rows py_sum (underrated_set py_sum menu_items))
          ++ Message (Heading "Identification of Unprofitable Items:")
          :: section_lines NoUnprofitableItems
               (report_rows py_sum (unprofitable_set py_sum menu_items)),
          None).
Proof. exact (printed_main_after_load py_sum f menu_items). Qed.

Lemma main_prints_the_four_reports_witness :
  exists shown,
    printed_main sum_floats_neumaier (Content sample_data) = (shown, None)
    /\ List.length shown = (9 + 1 + 9 + 1 + 3 + 1 + 3)%nat.
Proof.
  destruct (snd (load_data_from_csv (Content sample_data)))
    as [menu_items|] eqn:Hload; [|vm_compute in Hload; discriminate].
  destruct (main_prints_the_four_reports sum_floats_neumaier
              (Content sample_data) menu_items)
    as (menu_rows & popular_rows & H1 & H2 & H3).
  - vm_compute. reflexivity.
  - exact Hload.
  - vm_compute in Hload. injection Hload as <-. discriminate.
  - vm_compute in Hload. injection Hload as <-.
    intros it Hin. vm_compute in Hin.
    repeat (destruct Hin as [<-|Hin]; [vm_compute; reflexivity|]).
    contradiction.
  - vm_compute in Hload. injection Hload as <-. vm_compute. reflexivity.
  - eexists. split; [exact H3|].
    vm_compute in Hload. injection Hload as <-.
    repeat (rewrite List.length_app; cbn [List.length]).
    rewrite H1, H2. vm_compute. reflexivity.
Defined.

(** X21: a file can pass the structure check and load with an item that
    has no name or no category (a record that stops before that column);
    the run then ends in [display_menu] with [TypeError], having printed
    the header, the rule and the rows of the items before that one, and no
    analysis heading. *)
Theorem an_unlabelled_item_ends_the_run_with_a_type_error
  (py_sum : list float -> float) (f : source) (menu_items : menu) :
  snd (validate_csv_structure f) = true ->
  snd (load_data_from_csv f) = Some menu_items ->
  forallb labelled (PyDict.values menu_items) = false ->
  snd (printed_main py_sum f) = Some (Pipeline TypeError)
  /\ existsb is_heading (fst (printed_main py_sum f)) = false
  /\ List.length (fst (printed_main py_sum f))
     = (2 + List.length (labelled_prefix (PyDict.values menu_items)))%nat.
Proof.
  intros Hvalid Hload Hsome.
  destruct (display_menu_table py_sum menu_items) as (rows & Hd & Hrows).
  destruct (table_of_items display_headers _ _ _
              (display_row_cells py_sum) Hrows) as (Hlen & Hend).
  rewrite Hsome in Hend.
  assert (Hrun : printed_main py_sum f
                 = (table_lines display_headers rows,
                    Some (Pipeline TypeError))).
  { unfold printed_main, main.
    rewrite (accepted_prints_nothing f Hvalid).
    rewrite (loaded_prints_nothing f menu_items Hload).
    cbn [negb].
    destruct menu_items as [|entry more]; [discriminate Hsome|].
    rewrite Hd. cbn [and_then app fst snd].
    destruct (and_then _ _) as [out r].
    cbn [app fst snd].
    now rewrite (render_table_raises _ _ _ _ _ Hend). }
  rewrite Hrun. cbn [fst snd].
  split; [reflexivity|]. split.
  - unfold table_lines. clear.
    induction (fst (print_table display_headers rows)); [reflexivity|].
    exact IHl.
  - unfold table_lines. now rewrite length_map.
Qed.

Lemma an_unlabelled_item_ends_the_run_with_a_type_error_witness :
  snd (printed_main sum_floats_neumaier (Content records_with_short_row))
  = Some (Pipeline TypeError)
  /\ List.length
       (fst (printed_main sum_floats_neumaier
               (Content records_with_short_row))) = 3%nat.
Proof.
  destruct (snd (load_data_from_csv (Content records_with_short_row)))
    as [menu_items|] eqn:Hload; [|vm_compute in Hload; discriminate].
  destruct (an_unlabelled_item_ends_the_run_with_a_type_error
              sum_floats_neumaier (Content records_with_short_row) menu_items)
    as (H1 & _ & H3).
  - vm_compute. reflexivity.
  - exact Hload.
  - vm_compute in Hload. injection Hload as <-. vm_compute. reflexivity.
  - split; [exact H1|]. rewrite H3.
    vm_compute in Hload. injection Hload as <-. vm_compute. reflexivity.
Defined.

(** ** The file dialogue *)

Lemma said_file msgs r : setup_file (said msgs r) = setup_file r.
Proof. reflexivity. Qed.

Lemma said_result msgs r : setup_result (said msgs r) = setup_result r.
Proof. reflexivity. Qed.

Lemma said_log msgs r : setup_log (said msgs r) = msgs ++ setup_log r.
Proof. reflexivity. Qed.

(** What holds of every turn of the loop, by induction on the number of
    lines still to read. *)
Lemma handle_csv_creation_facts (n : nat) :
  forall file inputs, (List.length inputs <= n)%nat ->
    let r := handle_csv_creation file inputs in
    (setup_result r = ReturnedPath ->
       (exists line, In line inputs /\ answer line = "yes")
       /\ exists records, setup_file r = Content records)
    /\ (In SampleCreated (setup_log r) ->
          setup_result r = ReturnedPath
          /\ setup_file r = Content sample_data)
    /\ (~ In SampleCreated (setup_log r) -> setup_file r = file).
Proof.
  induction n as [|n IH]; intros file inputs Hlen.
  - destruct inputs; [|simpl in Hlen; lia].
    destruct file; cbn;
      (split; [discriminate|]; split; [|reflexivity]);
      intros H; repeat (destruct H as [H|H]; [discriminate H|]);
      contradiction.
  - destruct file as [|records].
    + destruct inputs as [|generate rest]; cbn [handle_csv_creation].
      * cbn. split; [discriminate|]. split; [|reflexivity].
        intros H; repeat (destruct H as [H|H]; [discriminate H|]);
          contradiction.
      * destruct (String.eqb (answer generate) "yes") eqn:E; cbn.
        -- apply String.eqb_eq in E.
           split; [intros _; split; [exists generate; auto | eauto]|].
           split; [auto|]. intros H. exfalso. apply H. auto.
        -- split; [discriminate|]. split; [|reflexivity].
           intros H; repeat (destruct H as [H|H]; [discriminate H|]);
             contradiction.
    + destruct inputs as [|use_existing [|choice inputs2]];
        cbn [handle_csv_creation].
      * cbn. split; [discriminate|]. split; [|reflexivity].
        intros H; repeat (destruct H as [H|H]; [discriminate H|]);
          contradiction.
      * destruct (String.eqb (answer use_existing) "yes") eqn:E; cbn.
        -- apply String.eqb_eq in E.
           split; [intros _; split; [exists use_existing; auto | eauto]|].
           split; [|reflexivity].
           intros H; repeat (destruct H as [H|H]; [discriminate H|]);
             contradiction.
        -- split; [discriminate|]. split; [|reflexivity].
           intros H; repeat (destruct H as [H|H]; [discriminate H|]);
             contradiction.
      * destruct (String.eqb (answer use_existing) "yes") eqn:E.
        { cbn. apply String.eqb_eq in E.
          split; [intros _; split; [exists use_existing; auto | eauto]|].
          split; [|reflexivity].
          intros H; repeat (destruct H as [H|H]; [discriminate H|]);
            contradiction. }
        destruct (String.eqb (PyStr.strip choice) "1") eqn:E1.
        { destruct inputs2 as [|confirm inputs3].
          - cbn. split; [discriminate|]. split; [|reflexivity].
            intros H; repeat (destruct H as [H|H]; [discriminate H|]);
              contradiction.
          - destruct (String.eqb (answer confirm) "yes") eqn:E2.
            + cbn. apply String.eqb_eq in E2.
              split; [intros _; split; [exists confirm; auto | eauto]|].
              split; [auto|]. intros H. exfalso. apply H. auto 10.
            + rewrite said_file, said_result, said_log.
              destruct (IH (Content records) inputs3) as (H1 & H2 & H3);
                [simpl in Hlen; lia|].
              split; [|split].
              * intros Hr. destruct (H1 Hr) as ((line & Hin & Hyes) & Hf).
                split; [exists line; simpl; auto | exact Hf].
              * intros Hin. apply in_app_or in Hin as [Hin|Hin]; [|auto].
                repeat (destruct Hin as [Hin|Hin]; [discriminate Hin|]).
                contradiction.
              * intros Hnot. apply H3. intros Hin. apply Hnot.
                apply in_or_app. now right. }
        destruct (String.eqb (PyStr.strip choice) "2") eqn:E2.
        { cbn. split; [discriminate|]. split; [|reflexivity].
          intros H; repeat (destruct H as [H|H]; [discriminate H|]);
            contradiction. }
        rewrite said_file, said_result, said_log.
        destruct (IH (Content records) inputs2) as (H1 & H2 & H3);
          [simpl in Hlen; lia|].
        split; [|split].
        -- intros Hr. destruct (H1 Hr) as ((line & Hin & Hyes) & Hf).
           split; [exists line; simpl; auto | exact Hf].
        -- intros Hin. apply in_app_or in Hin as [Hin|Hin]; [|auto].
           repeat (destruct Hin as [Hin|Hin]; [discriminate Hin|]).
           contradiction.
        -- intros Hnot. apply H3. intros Hin. apply Hnot.
           apply in_or_app. now right.
Qed.

Lemma sample_created_dec (log : list setup_msg) :
  In SampleCreated log \/ ~ In SampleCreated log.
Proof.
  induction log as [|m log [IH|IH]]; [right; intros [] | left; now right |].
  destruct m; try (right; intros [H|H]; [discriminate H | contradiction]).
  left. now left.
Qed.

Lemma handle_csv_creation_unchanged file inputs :
  setup_result (handle_csv_creation file inputs) <> ReturnedPath ->
  setup_file (handle_csv_creation file inputs) = file.
Proof.
  intros Hr.
  destruct (handle_csv_creation_facts (List.length inputs) file inputs
              (le_n _)) as (_ & H2 & H3).
  destruct (sample_created_dec (setup_log (handle_csv_creation file inputs)))
    as [Hin|Hnot]; [|auto].
  destruct (H2 Hin) as (Hp & _). contradiction.
Qed.

(** X22: the dialogue returns the file name only after some line read
    answered yes (after stripping and lower-casing): if no line of the input
    does, the call ends with [None] or at the end of input, and the file is
    as it was. *)
Theorem no_file_is_used_or_written_without_a_yes
  (file : source) (inputs : list string) :
  (forall line, In line inputs -> answer line <> "yes") ->
  setup_result (handle_csv_creation file inputs) <> ReturnedPath
  /\ setup_file (handle_csv_creation file inputs) = file.
Proof.
  intros Hno.
  assert (Hr : setup_result (handle_csv_creation file inputs) <> ReturnedPath).
  { intros Hr.
    destruct (handle_csv_creation_facts (List.length inputs) file inputs
                (le_n _)) as (H1 & _).
    destruct (H1 Hr) as ((line & Hin & Hyes) & _).
    exact (Hno line Hin Hyes). }
  split; [exact Hr | now apply handle_csv_creation_unchanged].
Qed.

Lemma no_file_is_used_or_written_without_a_yes_witness :
  setup_result (handle_csv_creation (Content records_with_bad_price)
                  ["no"; "1"; "nope"; "yes please"; "2"])
  <> ReturnedPath
  /\ setup_file (handle_csv_creation (Content records_with_bad_price)
                   ["no"; "1"; "nope"; "yes please"; "2"])
     = Content records_with_bad_price.
Proof.
  apply no_file_is_used_or_written_without_a_yes.
  intros line Hin.
  repeat (destruct Hin as [<-|Hin]; [vm_compute; discriminate|]).
  contradiction.
Defined.

(** X23: when the dialogue returns the file name the file exists; the file
    differs from what it was only by having been replaced with the sample
    records, which happens exactly in the runs that print the creation
    message and always ends the dialogue with the file name; a call that
    returns [None] or runs out of input leaves the file as it was. *)
Theorem dialogue_leaves_a_file_or_changes_nothing
  (file : source) (inputs : list string) :
  let r := handle_csv_creation file inputs in
  (setup_result r = ReturnedPath -> exists records, setup_file r = Content records)
  /\ (setup_result r <> ReturnedPath -> setup_file r = file)
  /\ (In SampleCreated (setup_log r) ->
        setup_result r = ReturnedPath /\ setup_file r = Content sample_data)
  /\ (~ In SampleCreated (setup_log r) -> setup_file r = file).
Proof.
  intros r.
  destruct (handle_csv_creation_facts (List.length inputs) file inputs
              (le_n _)) as (H1 & H2 & H3).
  split; [intros Hr; apply (H1 Hr)|].
  split; [apply handle_csv_creation_unchanged|].
  split; [exact H2 | exact H3].
Qed.

Lemma dialogue_leaves_a_file_or_changes_nothing_witness :
  setup_file (handle_csv_creation (Content records_with_bad_price)
                hesitant_answers)
  = Content sample_data
  /\ setup_file (handle_csv_creation Missing ["no"]) = Missing.
Proof.
  split.
  - apply (proj1 (proj2 (proj2 (dialogue_leaves_a_file_or_changes_nothing
                                  (Content records_with_bad_price)
                                  hesitant_answers)))).
    vm_compute. repeat (first [left; reflexivity | right]).
  - apply (proj1 (proj2 (dialogue_leaves_a_file_or_changes_nothing
                           Missing ["no"]))).
    vm_compute. discriminate.
Defined.

(** ** The run from its first step *)

Lemma sample_data_loads :
  validate_csv_structure (Content sample_data) = ([], true)
  /\ exists menu_items,
       load_data_from_csv (Content sample_data) = ([], Some menu_items)
       /\ List.length menu_items = 7%nat
       /\ (forall it, In it (PyDict.values menu_items) ->
                      Z.abs (total_sales it) < 2 ^ 1023)
       /\ forallb labelled (PyDict.values menu_items) = true.
Proof.
  split; [vm_compute; reflexivity|].
  eexists. split; [vm_compute; reflexivity|].
  split; [reflexivity|]. split; [|vm_compute; reflexivity].
  intros it Hin. vm_compute in Hin.
  repeat (destruct Hin as [<-|Hin]; [vm_compute; reflexivity|]).
  contradiction.
Qed.

Lemma report_is_not_setup (said_so_far : list setup_msg) (s : shown) :
  ~ In (Report s) (Banner :: map Setup said_so_far).
Proof.
  intros [H|H]; [discriminate H|].
  apply in_map_iff in H as (x & Hx & _). discriminate Hx.
Qed.

(** X24: a run in which no line read answers yes prints no report line of
    any kind (no table, no error of the structure check or of the loader),
    leaves the file as it was, and ends by returning or with [EOFError] at
    the end of input, not with an exception of the pipeline. *)
Theorem run_without_a_yes_reports_nothing
  (py_sum : list float -> float) (file : source) (inputs : list string) :
  (forall line, In line inputs -> answer line <> "yes") ->
  let r := main_with_setup py_sum file inputs in
  (forall s, ~ In (Report s) (run_console r))
  /\ run_file r = file
  /\ (run_result r = None \/ run_result r = Some EOFError).
Proof.
  intros Hno.
  destruct (handle_csv_creation_facts (List.length inputs) file inputs
              (le_n _)) as (H1 & _).
  pose proof (handle_csv_creation_unchanged file inputs) as Hsame.
  unfold main_with_setup.
  destruct (setup_result (handle_csv_creation file inputs)) eqn:Hr.
  - exfalso. destruct (H1 eq_refl) as ((line & Hin & Hyes) & _).
    exact (Hno line Hin Hyes).
  - cbn. split; [|split; [apply Hsame; discriminate | now left]].
    intros m [H|H]; [discriminate H|].
    apply in_app_or in H as [H|[H|[]]]; [|discriminate H].
    apply in_map_iff in H as (x & Hx & _). discriminate Hx.
  - cbn. split; [|split; [apply Hsame; discriminate | now right]].
    intros m. apply report_is_not_setup.
Qed.

Lemma run_without_a_yes_reports_nothing_witness :
  run_file (main_with_setup sum_floats_plain (Content records_with_bad_price)
              declining_answers)
  = Content records_with_bad_price
  /\ (run_result (main_with_setup sum_floats_plain
                    (Content records_with_bad_price) declining_answers)
      = None
      \/ run_result (main_with_setup sum_floats_plain
                       (Content records_with_bad_price) declining_answers)
         = Some EOFError).
Proof.
  apply (run_without_a_yes_reports_nothing sum_floats_plain
           (Content records_with_bad_price) declining_answers).
  intros line Hin.
  repeat (destruct Hin as [<-|Hin]; [vm_compute; discriminate|]).
  contradiction.
Defined.

(** X25: in every run whose dialogue writes the sample file, the structure
    check accepts it and the loader builds all seven items without a
    message, so the run prints, after the dialogue, exactly the four
    reports with every table in full, and returns; this holds for every
    summation [sum] may use. *)
Theorem run_on_the_written_sample_prints_the_reports
  (py_sum : list float -> float) (file : source) (inputs : list string) :
  In SampleCreated (setup_log (handle_csv_creation file inputs)) ->
  let r := main_with_setup py_sum file inputs in
  run_result r = None
  /\ run_file r = Content sample_data
  /\ exists menu_items menu_rows popular_rows,
       snd (load_data_from_csv (Content sample_data)) = Some menu_items
       /\ List.length (table_lines display_headers menu_rows) = 9%nat
       /\ List.length (table_lines popular_headers popular_rows) = 9%nat
       /\ run_console r
          = Banner :: map Setup (setup_log (handle_csv_creation file inputs))
            ++ map Report
                 (table_lines display_headers menu_rows
                  ++ Message (Heading "Analysis of Popular Items:")
                  :: table_lines popular_headers popular_rows
                  ++ Message (Heading "Identification of Underrated Items:")
                  :: section_lines NoUnderratedItems
                       (report_rows py_sum
                          (underrated_set py_sum menu_items))
                  ++ Message (Heading "Identification of Unprofitable Items:")
                  :: section_lines NoUnprofitableItems
                       (report_rows py_sum
                          (unprofitable_set py_sum menu_items))).
Proof.
  intros Hin.
  destruct (handle_csv_creation_facts (List.length inputs) file inputs
              (le_n _)) as (_ & H2 & _).
  destruct (H2 Hin) as (Hr & Hf).
  destruct sample_data_loads
    as (Hvalid & menu_items & Hload & Hlen & Hbound & Hnamed).
  destruct (printed_main_after_load py_sum (Content sample_data) menu_items)
    as (menu_rows & popular_rows & H1 & H3 & Hmain).
  - now rewrite Hvalid.
  - now rewrite Hload.
  - intros ->. discriminate Hlen.
  - exact Hbound.
  - exact Hnamed.
  - unfold main_with_setup. rewrite Hr, Hf, Hmain.
    cbn [run_result run_file run_console].
    split; [reflexivity|]. split; [reflexivity|].
    exists menu_items, menu_rows, popular_rows.
    rewrite Hload, H1, H3, Hlen. repeat split; reflexivity.
Qed.

Lemma run_on_the_written_sample_prints_the_reports_witness :
  run_result (main_with_setup sum_floats_neumaier
                (Content records_with_bad_price) hesitant_answers) = None
  /\ run_file (main_with_setup sum_floats_neumaier
                 (Content records_with_bad_price) hesitant_answers)
     = Content sample_data.
Proof.
  assert (Hin : In SampleCreated
                  (setup_log (handle_csv_creation
                                (Content records_with_bad_price)
                                hesitant_answers)))
    by (vm_compute; repeat (first [left; reflexivity | right])).
  destruct (run_on_the_written_sample_prints_the_reports sum_floats_neumaier
              (Content records_with_bad_price) hesitant_answers Hin)
    as (H1 & H2 & _).
  split; [exact H1 | exact H2].
Defined.
